(** * zeaker: the PortAudio binding (src/native/portaudio.cc)

    A shallow embedding of the native addon: the stream registry
    [g_streams], the two thread-safe callback slots, the blocking write
    path and the real-time callback.  PortAudio is an oracle, and so is
    what C++ leaves to the implementation; the thread-safe functions are
    objects in a store of their own; every call into PortAudio or into
    the thread-safe function layer is recorded in a trace. *)

From Stdlib Require Import ZArith Lia List Bool DecimalString.
From Stdlib Require Import Floats.SpecFloat.
From stdpp Require Import gmap strings list fin_maps sorting.

Local Open Scope string_scope.
Local Open Scope Z_scope.

(** ** Floating point: C [float] and [double]

    Both are IEEE-754 binary formats, given by [spec_float] with the
    precision and exponent range of the format. *)

Definition float := spec_float.
Definition double := spec_float.

Module F32.
Definition prec : Z := 24.
Definition emax : Z := 128.
Definition valid (x : float) : bool := valid_binary prec emax x.
Definition of_Z (z : Z) : float := binary_normalize prec emax z 0 false.
Definition mul (x y : float) : float := SFmul prec emax x y.
(** [static_cast<float>(d)]: round to nearest, ties to even. *)
Definition of_double (d : double) : float :=
  match d with
  | S754_finite s m e => binary_round prec emax s m e
  | _ => d
  end.
Definition zero : float := S754_zero false.
Definition one : float := Eval vm_compute in of_Z 1.
Definition two : float := Eval vm_compute in of_Z 2.
(** The value of a finite [float] counted in units of 2^-149, the
    smallest positive [float]; an integer for every valid [float]. *)
Definition units (x : float) : Z :=
  match x with
  | S754_finite s m e => cond_Zopp s (Z.pos m * 2 ^ (e + 149))
  | _ => 0
  end.
(** Zero, or finite of magnitude below 2^127: doubling stays finite. *)
Definition below_overflow (x : float) : bool :=
  match x with
  | S754_finite _ _ e => e <? 104
  | S754_zero _ => true
  | _ => false
  end.
End F32.

Module F64.
Definition prec : Z := 53.
Definition emax : Z := 1024.
Definition valid (x : double) : bool := valid_binary prec emax x.
Definition of_Z (z : Z) : double := binary_normalize prec emax z 0 false.
Definition zero : double := S754_zero false.
End F64.

(** ** Fixed-width integers *)

Definition wrap_uint32 (z : Z) : Z := z mod 2 ^ 32.
Definition wrap_int32 (z : Z) : Z := (z + 2 ^ 31) mod 2 ^ 32 - 2 ^ 31.

(** ** JavaScript values reaching the addon *)

Definition JsFun := nat.   (* identity of a JavaScript function object *)
Definition Ptr := nat.     (* address of native sample storage *)
Definition Tsfn := nat.    (* address of a Napi::ThreadSafeFunction *)

Inductive napi_typedarray_type :=
| napi_int8_array | napi_uint8_array | napi_int16_array | napi_uint16_array
| napi_int32_array | napi_uint32_array | napi_float32_array
| napi_float64_array.

(** The properties of an object that [openStreamAsync] looks at: each is
    absent ([opts.Has] is false) or holds a value ([opts.Get]), which may
    be of any kind. *)
Record Properties (V : Type) := {
  opt_device : option V;
  opt_channels : option V;
  opt_sampleRate : option V;
  opt_framesPerBuffer : option V;
  opt_suggestedLatency : option V;
}.

Arguments Build_Properties {V} _ _ _ _ _.
Arguments opt_device {V} _.
Arguments opt_channels {V} _.
Arguments opt_sampleRate {V} _.
Arguments opt_framesPerBuffer {V} _.
Arguments opt_suggestedLatency {V} _.

(** [JsBuffer] is a Node.js [Buffer], [JsTypedArray] any other typed
    array; [p] is the address of the storage behind it.  [JsUndefined]
    stands for every value that is neither a number nor an object: the
    addon does not tell these apart. *)
#[warnings="-register-all"]
Inductive JsValue :=
| JsUndefined
| JsNumber (d : double)
| JsFunction (f : JsFun)
| JsObject (o : Properties JsValue)
| JsBuffer (p : Ptr)
| JsTypedArray (t : napi_typedarray_type) (p : Ptr).

Definition Options := Properties JsValue.

Definition IsNumber (v : JsValue) : bool :=
  match v with JsNumber _ => true | _ => false end.
Definition IsObject (v : JsValue) : bool :=
  match v with JsUndefined | JsNumber _ => false | _ => true end.

(** [napi_is_buffer] holds of a [Buffer] and of a [Uint8Array]
    (Node-API); a [Buffer] is itself a [Uint8Array]. *)
Definition IsBuffer (v : JsValue) : bool :=
  match v with
  | JsBuffer _ | JsTypedArray napi_uint8_array _ => true
  | _ => false
  end.
Definition IsTypedArray (v : JsValue) : bool :=
  match v with JsBuffer _ | JsTypedArray _ _ => true | _ => false end.
Definition TypedArrayType (v : JsValue) : napi_typedarray_type :=
  match v with JsTypedArray t _ => t | _ => napi_uint8_array end.

(** [Data()], asked of a buffer or typed array only: where its storage
    is. *)
Definition Data (v : JsValue) : Ptr :=
  match v with JsBuffer p | JsTypedArray _ p => p | _ => 0%nat end.

(** [info[i]]: an index past the arguments gives [undefined]. *)
Definition arg (info : list JsValue) (i : nat) : JsValue :=
  nth i info JsUndefined.

(** Integer part of a number, rounding toward zero; 0 for NaN and the
    infinities. *)
Definition trunc (d : double) : Z :=
  match d with
  | S754_finite s m e =>
      cond_Zopp s (if 0 <=? e then Z.pos m * 2 ^ e else Z.pos m / 2 ^ (- e))
  | _ => 0
  end.

(** The conversions of [Napi::Number]. *)
Definition Int32Value (d : double) : Z := wrap_int32 (trunc d).
Definition Uint32Value (d : double) : Z := wrap_uint32 (trunc d).
Definition DoubleValue (d : double) : double := d.
Definition FloatValue (d : double) : float := F32.of_double d.

Definition as_number (v : JsValue) : double :=
  match v with JsNumber d => d | _ => S754_nan end.

Definition Number_New (z : Z) : JsValue := JsNumber (F64.of_Z z).

Inductive JsException :=
| TypeError (msg : string)
| Error (msg : string).

(** [v.As<Napi::Number>()] followed by a conversion.  The cast checks
    nothing; the conversion of a value that is not a number fails in
    Node-API with [napi_number_expected], which node-addon-api, built
    with the C++ exceptions the [try] blocks of the source need, throws
    and hands to JavaScript as this [TypeError]. *)
Definition number_expected : JsException := TypeError "A number was expected".

Definition Number_value (v : JsValue) : JsException + double :=
  match v with
  | JsNumber d => inr d
  | _ => inl number_expected
  end.

(** [opts.Has(name) ? opts.Get(name).As<Napi::Number>().conv() : absent] *)
Definition get_number {A : Type} (property : option JsValue)
    (conv : double -> A) (absent : A) : JsException + A :=
  match property with
  | Some v =>
      match Number_value v with
      | inr d => inr (conv d)
      | inl e => inl e
      end
  | None => inr absent
  end.

(** How an exported function ends: with a value, with a JavaScript
    exception, or in a null-pointer dereference in native code. *)
Inductive Completion :=
| Return (v : JsValue)
| Throw (e : JsException)
| Crash.

(** [std::to_string] on an [int]. *)
Definition to_string (z : Z) : string :=
  DecimalString.NilZero.string_of_int (Z.to_int z).

(** ** PortAudio

    The library is external.  Its constants are those of portaudio.h; its
    functions are an oracle: each answer may depend on everything that
    was called before and on the arguments. *)

Definition PaError := Z.
Definition paNoError : PaError := 0.
Definition PaStream := Z.          (* PaStream*, 0 is the null pointer *)
Definition nullptr : PaStream := 0.
Definition paFloat32 : Z := 1.
Definition paNoFlag : Z := 0.
Definition paContinue : Z := 0.
Definition paAbort : Z := 2.
Definition paOutputUnderflow : Z := 4.
Definition paOutputOverflow : Z := 8.
Definition paPrimingOutput : Z := 16.

(** [hostApiSpecificStreamInfo] is always the null pointer and is left
    out. *)
Record PaStreamParameters := {
  device : Z;
  channelCount : Z;
  sampleFormat : Z;
  suggestedLatency : double;
}.

Record PaDeviceInfo := {
  defaultLowOutputLatency : double;
}.

(** What a thread-safe function is asked to run on the JavaScript side. *)
Inductive JsCall :=
| FillBuffer (out : Ptr) (len : Z)        (* [jsCallback.Call({buf})] *)
| StreamEvent (type message : string).    (* [jsCallback.Call({evt})] *)

(** Calls leaving the addon, in program order. *)
Inductive Event :=
| EPa_Initialize
| EPa_Terminate
| EPa_GetDeviceCount
| EPa_GetDefaultOutputDevice
| EPa_GetDeviceInfo (dev : Z)
| EPa_OpenDefaultStream (numInput numOutput fmt : Z) (sampleRate : double)
    (framesPerBuffer : Z)
| EPa_OpenStream (outputParams : PaStreamParameters) (sampleRate : double)
    (framesPerBuffer : Z) (flags : Z) (userData : option Tsfn)
| EPa_StartStream (s : PaStream)
| EPa_StopStream (s : PaStream)
| EPa_CloseStream (s : PaStream)
| EPa_WriteStream (s : PaStream) (data : list float) (frames : Z)
| ETsfn_New (h : Tsfn) (f : JsFun) (name : string)
| ETsfn_Release (h : Tsfn)
| ETsfn_BlockingCall (h : Tsfn) (f : JsFun) (c : JsCall).

Definition Trace := list Event.

Record PortAudio := {
  on_Pa_Initialize : Trace -> PaError;
  on_Pa_Terminate : Trace -> PaError;
  on_Pa_GetDeviceCount : Trace -> Z;
  on_Pa_GetDefaultOutputDevice : Trace -> Z;
  on_Pa_GetDeviceInfo : Trace -> Z -> option PaDeviceInfo;
  on_Pa_OpenDefaultStream : Trace -> PaError * PaStream;
  on_Pa_OpenStream :
    Trace -> PaStreamParameters -> double -> Z -> option Tsfn ->
    PaError * PaStream;
  on_Pa_StartStream : Trace -> PaStream -> PaError;
  on_Pa_StopStream : Trace -> PaStream -> PaError;
  on_Pa_CloseStream : Trace -> PaStream -> PaError;
  on_Pa_WriteStream : Trace -> PaStream -> list float -> Z -> PaError;
  Pa_GetErrorText : PaError -> string;
}.

(** ** The C++ implementation

    What the language leaves to the implementation: how wide an
    [unsigned long] is (64 bits on Linux and macOS, 32 on Windows), and
    the address at which [std::make_unique] places a new
    [Napi::ThreadSafeFunction].  The address may depend on everything
    that was called before and on the objects that exist; nothing keeps
    it from being the address of an object that was deleted. *)

Record Implementation := {
  unsigned_long_bits : Z;
  on_make_unique : Trace -> gmap Tsfn JsFun -> Tsfn;
}.

(** Arithmetic on [unsigned long] is modulo 2^bits. *)
Definition to_unsigned_long (impl : Implementation) (z : Z) : Z :=
  z mod 2 ^ unsigned_long_bits impl.

(** A new object is never placed where an object exists. *)
Definition allocates_free (impl : Implementation) : Prop :=
  forall (t : Trace) (m : gmap Tsfn JsFun), m !! on_make_unique impl t m = None.

(** ** Module state *)

Record StreamInfo := {
  stream : PaStream;
  volume : float;
}.

Record State := {
  g_audioCallbackTsfn : option Tsfn;   (* unique_ptr, [None] when empty *)
  g_eventCallbackTsfn : option Tsfn;
  g_streams : gmap Z StreamInfo;
  g_nextStreamId : Z;
  tsfns : gmap Tsfn JsFun;             (* the ThreadSafeFunction objects
                                          that exist, by address *)
  buffers : gmap Ptr (list float);     (* storage of buffers and typed
                                          arrays, read as floats *)
  trace : Trace;
}.

Definition set_audioCallbackTsfn (x : option Tsfn) (st : State) : State :=
  {| g_audioCallbackTsfn := x;
     g_eventCallbackTsfn := g_eventCallbackTsfn st;
     g_streams := g_streams st; g_nextStreamId := g_nextStreamId st;
     tsfns := tsfns st;
     buffers := buffers st; trace := trace st |}.

Definition set_eventCallbackTsfn (x : option Tsfn) (st : State) : State :=
  {| g_audioCallbackTsfn := g_audioCallbackTsfn st;
     g_eventCallbackTsfn := x;
     g_streams := g_streams st; g_nextStreamId := g_nextStreamId st;
     tsfns := tsfns st;
     buffers := buffers st; trace := trace st |}.

Definition set_streams (m : gmap Z StreamInfo) (st : State) : State :=
  {| g_audioCallbackTsfn := g_audioCallbackTsfn st;
     g_eventCallbackTsfn := g_eventCallbackTsfn st;
     g_streams := m; g_nextStreamId := g_nextStreamId st;
     tsfns := tsfns st;
     buffers := buffers st; trace := trace st |}.

Definition set_nextStreamId (n : Z) (st : State) : State :=
  {| g_audioCallbackTsfn := g_audioCallbackTsfn st;
     g_eventCallbackTsfn := g_eventCallbackTsfn st;
     g_streams := g_streams st; g_nextStreamId := n;
     tsfns := tsfns st;
     buffers := buffers st; trace := trace st |}.

Definition set_tsfns (m : gmap Tsfn JsFun) (st : State) : State :=
  {| g_audioCallbackTsfn := g_audioCallbackTsfn st;
     g_eventCallbackTsfn := g_eventCallbackTsfn st;
     g_streams := g_streams st; g_nextStreamId := g_nextStreamId st;
     tsfns := m;
     buffers := buffers st; trace := trace st |}.

Definition set_buffers (m : gmap Ptr (list float)) (st : State) : State :=
  {| g_audioCallbackTsfn := g_audioCallbackTsfn st;
     g_eventCallbackTsfn := g_eventCallbackTsfn st;
     g_streams := g_streams st; g_nextStreamId := g_nextStreamId st;
     tsfns := tsfns st;
     buffers := m; trace := trace st |}.

(** Append one call to the trace. *)
Definition log (e : Event) (st : State) : State :=
  {| g_audioCallbackTsfn := g_audioCallbackTsfn st;
     g_eventCallbackTsfn := g_eventCallbackTsfn st;
     g_streams := g_streams st; g_nextStreamId := g_nextStreamId st;
     tsfns := tsfns st;
     buffers := buffers st; trace := (trace st ++ [e])%list |}.

(** [g_nextStreamId++] on a [std::atomic<uint32_t>]. *)
Definition next_id (st : State) : Z * State :=
  (g_nextStreamId st, set_nextStreamId (wrap_uint32 (g_nextStreamId st + 1)) st).

(** ** Napi::ThreadSafeFunction *)

Inductive napi_status := napi_ok | napi_closing.

(** [Napi::ThreadSafeFunction] belongs to node-addon-api.  The source
    keeps each one in an object of its own on the heap, owned by a
    [std::unique_ptr], and hands the raw pointer to PortAudio; what the
    model keeps of an object is its address and the JavaScript function
    it calls.

    [std::make_unique<Napi::ThreadSafeFunction>(
       Napi::ThreadSafeFunction::New(env, f, name, 0, 1))]:
    a new object, at the address the implementation chooses. *)
Definition ThreadSafeFunction_New (impl : Implementation) (f : JsFun)
    (name : string) (st : State) : Tsfn * State :=
  let h := on_make_unique impl (trace st) (tsfns st) in
  (h, log (ETsfn_New h f name) (set_tsfns (<[h := f]> (tsfns st)) st)).

(** [tsfn->Release()]: the one thread that holds the function gives it
    up. *)
Definition Release (h : Tsfn) (st : State) : State :=
  log (ETsfn_Release h) st.

(** The [delete] in [unique_ptr::reset()]: the object no longer
    exists. *)
Definition delete_ThreadSafeFunction (h : Tsfn) (st : State) : State :=
  set_tsfns (delete h (tsfns st)) st.

(** [tsfn->BlockingCall(callback)] through the pointer [h].  Where an
    object exists the call is queued for the JavaScript thread and the
    status is [napi_ok]: the queue is unbounded, and an object that
    exists was not released, since every [Release()] of the source is
    followed at once by the [reset()] that deletes the object.  Where no
    object exists, because it was deleted or never created, the call has
    no defined behaviour: [None].  The call goes by the address alone: a
    pointer kept from an object that was deleted reaches the object that
    was placed at its address since, if there is one. *)
Definition BlockingCall (h : Tsfn) (c : JsCall) (st : State)
  : option (napi_status * State) :=
  match tsfns st !! h with
  | Some f => Some (napi_ok, log (ETsfn_BlockingCall h f c) st)
  | None => None
  end.

(** [0.05], the fallback latency, as the nearest [double]. *)
Definition latency_fallback : double :=
  S754_finite false 7205759403792794 (-57).

Definition no_options : Options :=
  {| opt_device := None; opt_channels := None; opt_sampleRate := None;
     opt_framesPerBuffer := None; opt_suggestedLatency := None |}.

(** [info[0].As<Napi::Object>()], read through [Has] and [Get]: a
    function or a buffer is an object too, with none of the properties
    looked at. *)
Definition as_options (v : JsValue) : Options :=
  match v with JsObject o => o | _ => no_options end.

(** [statusFlags & flag] taken as a condition. *)
Definition has_flag (statusFlags flag : Z) : bool :=
  negb (Z.land statusFlags flag =? 0).

(** The scaling loop of [WriteStream]:
    [for (i; i < len; ++i) data[i] *= volume], with [n] iterations left. *)
Fixpoint volume_loop (n : nat) (i : nat) (vol : float) (data : list float)
  : list float :=
  match n with
  | O => data
  | S n' =>
      volume_loop n' (S i) vol
        (match data !! i with
         | Some x => <[i := F32.mul x vol]> data
         | None => data
         end)
  end.

(** Entries of a [std::map] in iteration order, that is by ascending key. *)
Definition key_le (a b : Z * StreamInfo) : Prop := a.1 <= b.1.

#[local] Instance key_le_dec a b : Decision (key_le a b).
Proof. unfold key_le. apply _. Defined.

Definition in_key_order (m : gmap Z StreamInfo) : list (Z * StreamInfo) :=
  merge_sort key_le (map_to_list m).

Section Addon.
Context (impl : Implementation) (pa : PortAudio).

(** *** Calls into PortAudio: ask the oracle, record the call *)

Definition Pa_Initialize (st : State) : PaError * State :=
  (on_Pa_Initialize pa (trace st), log EPa_Initialize st).

Definition Pa_Terminate (st : State) : PaError * State :=
  (on_Pa_Terminate pa (trace st), log EPa_Terminate st).

Definition Pa_GetDeviceCount (st : State) : Z * State :=
  (on_Pa_GetDeviceCount pa (trace st), log EPa_GetDeviceCount st).

Definition Pa_GetDefaultOutputDevice (st : State) : Z * State :=
  (on_Pa_GetDefaultOutputDevice pa (trace st),
   log EPa_GetDefaultOutputDevice st).

Definition Pa_GetDeviceInfo (dev : Z) (st : State)
  : option PaDeviceInfo * State :=
  (on_Pa_GetDeviceInfo pa (trace st) dev, log (EPa_GetDeviceInfo dev) st).

Definition Pa_OpenDefaultStream (numInput numOutput fmt : Z)
    (sampleRate : double) (framesPerBuffer : Z) (st : State)
  : (PaError * PaStream) * State :=
  (on_Pa_OpenDefaultStream pa (trace st),
   log (EPa_OpenDefaultStream numInput numOutput fmt sampleRate
          framesPerBuffer) st).

Definition Pa_OpenStream (outputParams : PaStreamParameters)
    (sampleRate : double) (framesPerBuffer flags : Z)
    (userData : option Tsfn) (st : State)
  : (PaError * PaStream) * State :=
  (on_Pa_OpenStream pa (trace st) outputParams sampleRate framesPerBuffer
     userData,
   log (EPa_OpenStream outputParams sampleRate framesPerBuffer flags
          userData) st).

Definition Pa_StartStream (s : PaStream) (st : State) : PaError * State :=
  (on_Pa_StartStream pa (trace st) s, log (EPa_StartStream s) st).

Definition Pa_StopStream (s : PaStream) (st : State) : PaError * State :=
  (on_Pa_StopStream pa (trace st) s, log (EPa_StopStream s) st).

Definition Pa_CloseStream (s : PaStream) (st : State) : PaError * State :=
  (on_Pa_CloseStream pa (trace st) s, log (EPa_CloseStream s) st).

Definition Pa_WriteStream (s : PaStream) (data : list float) (frames : Z)
    (st : State) : PaError * State :=
  (on_Pa_WriteStream pa (trace st) s data frames,
   log (EPa_WriteStream s data frames) st).

(** *** Helpers of the source *)

Definition GetStreamInfoById (id : Z) (st : State) : option StreamInfo :=
  g_streams st !! id.

(** [if (g_audioCallbackTsfn) { ->Release(); .reset(); }] *)
Definition release_audioCallbackTsfn (st : State) : State :=
  match g_audioCallbackTsfn st with
  | Some h =>
      set_audioCallbackTsfn None (delete_ThreadSafeFunction h (Release h st))
  | None => st
  end.

Definition release_eventCallbackTsfn (st : State) : State :=
  match g_eventCallbackTsfn st with
  | Some h =>
      set_eventCallbackTsfn None (delete_ThreadSafeFunction h (Release h st))
  | None => st
  end.

(** The new entry [g_streams[streamId] = {stream, 1.0f}]. *)
Definition register (s : PaStream) (st : State) : Completion * State :=
  let '(streamId, st) := next_id st in
  (Return (Number_New streamId),
   set_streams
     (<[streamId := {| stream := s; volume := F32.one |}]> (g_streams st))
     st).

(** *** Exported functions *)

Definition Init (info : list JsValue) (st : State) : Completion * State :=
  let '(err, st) := Pa_Initialize st in
  if negb (err =? paNoError)
  then (Throw (Error (Pa_GetErrorText pa err)), st)
  else (Return JsUndefined, st).

Definition Terminate (info : list JsValue) (st : State)
  : Completion * State :=
  let st :=
    fold_left
      (fun st kv =>
         let s := stream kv.2 in
         if s =? nullptr then st
         else (Pa_CloseStream s (Pa_StopStream s st).2).2)
      (in_key_order (g_streams st)) st in
  let st := set_streams ∅ st in
  let st := release_audioCallbackTsfn st in
  let st := release_eventCallbackTsfn st in
  let '(err, st) := Pa_Terminate st in
  if negb (err =? paNoError)
  then (Throw (Error (Pa_GetErrorText pa err)), st)
  else (Return JsUndefined, st).

Definition OpenDefaultStream (info : list JsValue) (st : State)
  : Completion * State :=
  if (0 <? size (g_streams st))%nat
  then (Throw (Error "Stream already open"), st)
  else
    let '(err, s, st) := Pa_OpenDefaultStream 0 2 paFloat32
                           (F64.of_Z 44100) 256 st in
    if negb (err =? paNoError)
    then (Throw (Error (Pa_GetErrorText pa err)), st)
    else
      let '(err, st) := Pa_StartStream s st in
      if negb (err =? paNoError)
      then (Throw (Error (Pa_GetErrorText pa err)), (Pa_CloseStream s st).2)
      else register s st.

Definition OpenStream (info : list JsValue) (st : State)
  : Completion * State :=
  if (length info <? 4)%nat
     || negb (IsNumber (arg info 0)) || negb (IsNumber (arg info 1))
     || negb (IsNumber (arg info 2)) || negb (IsNumber (arg info 3))
  then (Throw (TypeError
          "Expected device index, sample rate, channels, and framesPerBuffer"),
        st)
  else
    let deviceIndex := Int32Value (as_number (arg info 0)) in
    let sampleRate := DoubleValue (as_number (arg info 1)) in
    let channels := Int32Value (as_number (arg info 2)) in
    let framesPerBuffer := Uint32Value (as_number (arg info 3)) in
    let '(numDevices, st) := Pa_GetDeviceCount st in
    if (deviceIndex <? 0) || (numDevices <=? deviceIndex)
    then (Throw (Error ("Invalid device index: " ++ to_string deviceIndex
                        ++ ". Available devices: 0-"
                        ++ to_string (numDevices - 1))), st)
    else if channels <=? 0
    then (Throw (Error "Channel count must be positive"), st)
    else if SFleb sampleRate F64.zero
    then (Throw (Error "Sample rate must be positive"), st)
    else if framesPerBuffer =? 0
    then (Throw (Error "framesPerBuffer must be positive"), st)
    else
      let '(devInfo, st) := Pa_GetDeviceInfo deviceIndex st in
      match devInfo with
      | None => (Crash, st)
      | Some devInfo =>
          let outputParams :=
            {| device := deviceIndex; channelCount := channels;
               sampleFormat := paFloat32;
               suggestedLatency := defaultLowOutputLatency devInfo |} in
          let '(err, s, st) :=
            Pa_OpenStream outputParams sampleRate framesPerBuffer paNoFlag
              None st in
          if negb (err =? paNoError)
          then (Throw (Error ("PortAudio error in Pa_OpenStream: "
                              ++ Pa_GetErrorText pa err)), st)
          else
            let '(err, st) := Pa_StartStream s st in
            if negb (err =? paNoError)
            then (Throw (Error ("PortAudio error in Pa_StartStream: "
                                ++ Pa_GetErrorText pa err)),
                  (Pa_CloseStream s st).2)
            else register s st
      end.
Definition WriteStream (info : list JsValue) (st : State)
  : Completion * State :=
  if (length info <? 2)%nat || negb (IsNumber (arg info 1))
  then (Throw (TypeError "Expected buffer and stream ID"), st)
  else
    let streamId := Uint32Value (as_number (arg info 1)) in
    match GetStreamInfoById streamId st with
    | None => (Throw (Error "Stream not open"), st)
    | Some sinfo =>
        let s := stream sinfo in
        (* where the samples live: [data] and [len] *)
        let storage :=
          if IsBuffer (arg info 0) then inl (Data (arg info 0))
          else if IsTypedArray (arg info 0) then
            match TypedArrayType (arg info 0) with
            | napi_float32_array => inl (Data (arg info 0))
            | _ => inr (TypeError "Expected Float32Array")
            end
          else inr (TypeError "Expected Buffer or Float32Array") in
        match storage with
        | inr e => (Throw e, st)
        | inl p =>
            match buffers st !! p with
            | None => (Throw (Error "Empty buffer"), st)
            | Some data =>
                let len := length data in
                if (len =? 0)%nat
                then (Throw (Error "Empty buffer"), st)
                else
                  let vol := volume sinfo in
                  let data :=
                    if negb (SFeqb vol F32.one)
                    then volume_loop len 0 vol data
                    else data in
                  let st := set_buffers (<[p := data]> (buffers st)) st in
                  let '(err, st) :=
                    Pa_WriteStream s data (Z.of_nat len / 2) st in
                  if negb (err =? paNoError)
                  then (Throw (Error (Pa_GetErrorText pa err)), st)
                  else (Return JsUndefined, st)
            end
        end
    end.

Definition CloseStream (info : list JsValue) (st : State)
  : Completion * State :=
  if (length info <? 1)%nat || negb (IsNumber (arg info 0))
  then (Return JsUndefined, st)
  else
    let streamId := Uint32Value (as_number (arg info 0)) in
    match GetStreamInfoById streamId st with
    | None => (Return JsUndefined, st)
    | Some sinfo =>
        let s := stream sinfo in
        let '(err, st) := Pa_StopStream s st in
        let '(err, st) :=
          if err =? paNoError then Pa_CloseStream s st else (err, st) in
        let st := set_streams (delete streamId (g_streams st)) st in
        let st := release_audioCallbackTsfn st in
        let st := release_eventCallbackTsfn st in
        if negb (err =? paNoError)
        then (Throw (Error (Pa_GetErrorText pa err)), st)
        else (Return JsUndefined, st)
    end.

(** [None] where the call through the slot has no defined behaviour. *)
Definition EmitStreamEvent (type message : string) (st : State)
  : option State :=
  match g_eventCallbackTsfn st with
  | Some h => snd <$> BlockingCall h (StreamEvent type message) st
  | None => Some st
  end.

(** The stream callback PortAudio runs once per buffer period, with the
    [userData] it was given when the stream was opened.  [input] and
    [timeInfo] are not used by the body and are left out.  The result is
    the code returned to PortAudio and the state, or [None] where a call
    through a pointer has no defined behaviour. *)
Definition AudioCallback (output : Ptr) (frameCount : Z) (statusFlags : Z)
    (userData : Tsfn) (st : State) : option (Z * State) :=
  '(status, st) ←
    BlockingCall userData
      (FillBuffer output (to_unsigned_long impl (frameCount * 2))) st;
  st ← (if has_flag statusFlags paOutputUnderflow
        then EmitStreamEvent "outputUnderflow" "" st else Some st);
  st ← (if has_flag statusFlags paOutputOverflow
        then EmitStreamEvent "outputOverflow" "" st else Some st);
  st ← (if has_flag statusFlags paPrimingOutput
        then EmitStreamEvent "primingOutput" "" st else Some st);
  Some (match status with napi_ok => paContinue | _ => paAbort end, st).

Definition SetStreamEventCallback (info : list JsValue) (st : State)
  : Completion * State :=
  match arg info 0 with
  | JsFunction jsCallback =>
      let st := release_eventCallbackTsfn st in
      let '(h, st) :=
        ThreadSafeFunction_New impl jsCallback "StreamEventCallback" st in
      (Return JsUndefined, set_eventCallbackTsfn (Some h) st)
  | _ => (Throw (TypeError "Expected callback function"), st)
  end.

(** [OpenStreamAsync] from the creation of the thread-safe function on
    (the part after the options are read): bind, open, start, register.
    The slot assigned to is empty whenever a run of the module gets
    here. *)
Definition open_with_callback (jsCallback : JsFun)
    (outputParams : PaStreamParameters) (sampleRate : double)
    (framesPerBuffer : Z) (st : State) : Completion * State :=
  (* g_audioCallbackTsfn = std::make_unique<...>(...) *)
  let '(h, st) := ThreadSafeFunction_New impl jsCallback "AudioCallback" st in
  let st := set_audioCallbackTsfn (Some h) st in
  let '(err, s, st) :=
    Pa_OpenStream outputParams sampleRate framesPerBuffer paNoFlag
      (Some h) st in
  if negb (err =? paNoError)
  then (Throw (Error (Pa_GetErrorText pa err)),
        set_audioCallbackTsfn None
          (delete_ThreadSafeFunction h (Release h st)))
  else
    let '(err, st) := Pa_StartStream s st in
    if negb (err =? paNoError)
    then (Throw (Error (Pa_GetErrorText pa err)),
          set_audioCallbackTsfn None
            (delete_ThreadSafeFunction h
               (Release h (Pa_CloseStream s st).2)))
    else register s st.

Definition OpenStreamAsync (info : list JsValue) (st : State)
  : Completion * State :=
  if (0 <? size (g_streams st))%nat
  then (Throw (Error "Stream already open"), st)
  else
    match IsObject (arg info 0), arg info 1 with
    | true, JsFunction jsCallback =>
        let opts := as_options (arg info 0) in
        (* the five reads, in this order; the first conversion that
           fails ends the call *)
        let '(dev, st) :=
          match opt_device opts with
          | Some v =>
              (match Number_value v with
               | inr d => inr (Int32Value d)
               | inl e => inl e
               end, st)
          | None =>
              let '(dev, st) := Pa_GetDefaultOutputDevice st in (inr dev, st)
          end in
        match dev with
        | inl e => (Throw e, st)
        | inr dev =>
        match get_number (opt_channels opts) Int32Value 2 with
        | inl e => (Throw e, st)
        | inr channels =>
        match get_number (opt_sampleRate opts) DoubleValue (F64.of_Z 44100)
        with
        | inl e => (Throw e, st)
        | inr sampleRate =>
        match get_number (opt_framesPerBuffer opts) Uint32Value 256 with
        | inl e => (Throw e, st)
        | inr framesPerBuffer =>
        match get_number (opt_suggestedLatency opts) DoubleValue F64.zero with
        | inl e => (Throw e, st)
        | inr latency =>
            let '(latency, st) :=
              if SFltb F64.zero latency then (latency, st)
              else
                let '(devInfo, st) := Pa_GetDeviceInfo dev st in
                (match devInfo with
                 | Some devInfo => defaultLowOutputLatency devInfo
                 | None => latency_fallback
                 end, st) in
            let outputParams :=
              {| device := dev; channelCount := channels;
                 sampleFormat := paFloat32; suggestedLatency := latency |} in
            open_with_callback jsCallback outputParams sampleRate
              framesPerBuffer st
        end end end end end
    | _, _ => (Throw (TypeError "Expected options object and callback"), st)
    end.

Definition SetStreamVolume (info : list JsValue) (st : State)
  : Completion * State :=
  if (length info <? 2)%nat
     || negb (IsNumber (arg info 0)) || negb (IsNumber (arg info 1))
  then (Throw (TypeError "Expected stream ID and volume"), st)
  else
    let streamId := Uint32Value (as_number (arg info 0)) in
    let vol := FloatValue (as_number (arg info 1)) in
    let vol := if SFltb vol F32.zero then F32.zero else vol in
    let vol := if SFltb F32.two vol then F32.two else vol in
    match GetStreamInfoById streamId st with
    | None => (Throw (Error "Stream not open"), st)
    | Some sinfo =>
        (Return JsUndefined,
         set_streams
           (<[streamId := {| stream := stream sinfo; volume := vol |}]>
              (g_streams st)) st)
    end.

End Addon.

(** ** Runs

    The entry points that touch the module state: the functions exported
    by [InitAll], called from JavaScript, and the stream callback, called
    by PortAudio. *)
Inductive Call :=
| call_init (info : list JsValue)
| call_terminate (info : list JsValue)
| call_openDefaultStream (info : list JsValue)
| call_openStream (info : list JsValue)
| call_writeStream (info : list JsValue)
| call_closeStream (info : list JsValue)
| call_openStreamAsync (info : list JsValue)
| call_setStreamEventCallback (info : list JsValue)
| call_setStreamVolume (info : list JsValue)
| call_AudioCallback (output : Ptr) (frameCount statusFlags : Z)
    (userData : Tsfn).

(** The state a call leaves; for a stream callback without defined
    behaviour, the state it was made in. *)
Definition step (impl : Implementation) (pa : PortAudio) (c : Call)
    (st : State) : State :=
  match c with
  | call_init info => (Init pa info st).2
  | call_terminate info => (Terminate pa info st).2
  | call_openDefaultStream info => (OpenDefaultStream pa info st).2
  | call_openStream info => (OpenStream pa info st).2
  | call_writeStream info => (WriteStream pa info st).2
  | call_closeStream info => (CloseStream pa info st).2
  | call_openStreamAsync info => (OpenStreamAsync impl pa info st).2
  | call_setStreamEventCallback info => (SetStreamEventCallback impl info st).2
  | call_setStreamVolume info => (SetStreamVolume info st).2
  | call_AudioCallback output frameCount statusFlags userData =>
      match AudioCallback impl output frameCount statusFlags userData st with
      | Some r => r.2
      | None => st
      end
  end.

Definition crashed (r : Completion * State) : bool :=
  match r.1 with Crash => true | _ => false end.

(** Whether the process ends with the call: an exported function in a
    crash, the stream callback in a call without defined behaviour. *)
Definition ends (impl : Implementation) (pa : PortAudio) (c : Call)
    (st : State) : bool :=
  match c with
  | call_init info => crashed (Init pa info st)
  | call_terminate info => crashed (Terminate pa info st)
  | call_openDefaultStream info => crashed (OpenDefaultStream pa info st)
  | call_openStream info => crashed (OpenStream pa info st)
  | call_writeStream info => crashed (WriteStream pa info st)
  | call_closeStream info => crashed (CloseStream pa info st)
  | call_openStreamAsync info => crashed (OpenStreamAsync impl pa info st)
  | call_setStreamEventCallback info =>
      crashed (SetStreamEventCallback impl info st)
  | call_setStreamVolume info => crashed (SetStreamVolume info st)
  | call_AudioCallback output frameCount statusFlags userData =>
      match AudioCallback impl output frameCount statusFlags userData st with
      | Some _ => false
      | None => true
      end
  end.

(** The state a sequence of calls leads to: the state after the last
    call, or the one in which the process ended. *)
Fixpoint run (impl : Implementation) (pa : PortAudio) (calls : list Call)
    (st : State) : State :=
  match calls with
  | [] => st
  | c :: calls =>
      if ends impl pa c st then step impl pa c st
      else run impl pa calls (step impl pa c st)
  end.

(** The callback slots are consistent: the pointer in a bound slot is
    that of an object that exists, and the two slots do not hold the
    same pointer. *)
Definition channels_ok (st : State) : Prop :=
  (forall h, g_audioCallbackTsfn st = Some h -> is_Some (tsfns st !! h))
  /\ (forall h, g_eventCallbackTsfn st = Some h -> is_Some (tsfns st !! h))
  /\ (forall h h',
        g_audioCallbackTsfn st = Some h -> g_eventCallbackTsfn st = Some h' ->
        h <> h').

(** ** Vocabulary of the specification *)

(** The error kinds of the specification, as the exceptions the addon
    raises for them. *)
Definition AlreadyOpen : JsException := Error "Stream already open".
Definition NotFound : JsException := Error "Stream not open".
Definition BackendError (text : string) : JsException := Error text.

Inductive InvalidArgument : JsException -> Prop :=
| invalid_device (deviceIndex numDevices : Z) :
    InvalidArgument
      (Error ("Invalid device index: " ++ to_string deviceIndex
              ++ ". Available devices: 0-" ++ to_string (numDevices - 1)))
| invalid_channels : InvalidArgument (Error "Channel count must be positive")
| invalid_rate : InvalidArgument (Error "Sample rate must be positive")
| invalid_frames : InvalidArgument (Error "framesPerBuffer must be positive")
| invalid_data : InvalidArgument (Error "Empty buffer").

(** [clamp(v, lo, hi)] as the specification uses it: [lo] below the
    range, [hi] above it, [v] itself otherwise. *)
Definition clamp (v lo hi : float) : float :=
  if SFltb v lo then lo else if SFltb hi v then hi else v.

(** The value of a sample buffer argument: the storage it refers to.
    The addon takes a [Buffer], a [Uint8Array], which it does not tell
    from a [Buffer], and a [Float32Array]. *)
Definition samples_at (v : JsValue) (p : Ptr) : Prop :=
  v = JsBuffer p \/ v = JsTypedArray napi_uint8_array p
  \/ v = JsTypedArray napi_float32_array p.

(** The notifications a set of status flags stands for, in the order
    underflow, overflow, priming. *)
Definition notifications (statusFlags : Z) : list string :=
  (if has_flag statusFlags paOutputUnderflow then ["outputUnderflow"] else [])
  ++ (if has_flag statusFlags paOutputOverflow then ["outputOverflow"] else [])
  ++ (if has_flag statusFlags paPrimingOutput then ["primingOutput"] else []).

(** What [WriteStream] hands to [Pa_WriteStream]. *)
Definition scaled (vol : float) (samples : list float) : list float :=
  if negb (SFeqb vol F32.one)
  then (fun x => F32.mul x vol) <$> samples
  else samples.

(** The state [CloseStream] leaves for a known id: what the backend
    answered does not enter it, except through the calls recorded. *)
Definition closed (pa : PortAudio) (streamId : Z) (sinfo : StreamInfo)
    (st : State) : State :=
  let s := stream sinfo in
  let st1 := log (EPa_StopStream s) st in
  let st2 :=
    if on_Pa_StopStream pa (trace st) s =? paNoError
    then log (EPa_CloseStream s) st1 else st1 in
  release_eventCallbackTsfn
    (release_audioCallbackTsfn
       (set_streams (delete streamId (g_streams st2)) st2)).

(** The error [CloseStream] ends with: that of the stop, or that of the
    close when the stop went well. *)
Definition close_error (pa : PortAudio) (sinfo : StreamInfo) (st : State)
  : PaError :=
  let s := stream sinfo in
  if on_Pa_StopStream pa (trace st) s =? paNoError
  then on_Pa_CloseStream pa (trace st ++ [EPa_StopStream s])%list s
  else on_Pa_StopStream pa (trace st) s.

(** One [EmitStreamEvent] per name, in order. *)
Fixpoint emit_all (types : list string) (st : State) : option State :=
  match types with
  | [] => Some st
  | type :: types => EmitStreamEvent type "" st ≫= emit_all types
  end.

(** An options object whose properties, where present, are numbers. *)
Definition numeric (o : Options) : Prop :=
  let ok (property : option JsValue) :=
    forall v, property = Some v -> IsNumber v = true in
  ok (opt_device o) /\ ok (opt_channels o) /\ ok (opt_sampleRate o)
  /\ ok (opt_framesPerBuffer o) /\ ok (opt_suggestedLatency o).

(** Backend calls that only ask for information. *)
Definition is_query (e : Event) : Prop :=
  match e with
  | EPa_GetDefaultOutputDevice | EPa_GetDeviceInfo _ => True
  | _ => False
  end.

(** What [open_with_callback] does, by the answers of the backend to the
    open and to the start; [t] is the trace when it begins, [st] the
    state the exported call began with. *)
Definition callback_stream_outcome (impl : Implementation) (pa : PortAudio)
    (jsCallback : JsFun) (outputParams : PaStreamParameters)
    (sampleRate : double) (framesPerBuffer : Z) (t : Trace) (st : State)
    (r : Completion * State) : Prop :=
  let h := on_make_unique impl t (tsfns st) in
  let open :=
    EPa_OpenStream outputParams sampleRate framesPerBuffer paNoFlag (Some h) in
  let t_bound := (t ++ [ETsfn_New h jsCallback "AudioCallback"])%list in
  let e_open :=
    (on_Pa_OpenStream pa t_bound outputParams sampleRate framesPerBuffer
       (Some h)).1 in
  let s :=
    (on_Pa_OpenStream pa t_bound outputParams sampleRate framesPerBuffer
       (Some h)).2 in
  let e_start := on_Pa_StartStream pa (t_bound ++ [open])%list s in
  g_eventCallbackTsfn r.2 = g_eventCallbackTsfn st
  /\ if negb (e_open =? paNoError)
     then
       r.1 = Throw (BackendError (Pa_GetErrorText pa e_open))
       /\ trace r.2 = (t_bound ++ [open; ETsfn_Release h])%list
       /\ g_streams r.2 = g_streams st
       /\ g_audioCallbackTsfn r.2 = None
       /\ tsfns r.2 !! h = None
     else if negb (e_start =? paNoError)
     then
       r.1 = Throw (BackendError (Pa_GetErrorText pa e_start))
       /\ trace r.2 =
            (t_bound
             ++ [open; EPa_StartStream s; EPa_CloseStream s; ETsfn_Release h])
            %list
       /\ g_streams r.2 = g_streams st
       /\ g_audioCallbackTsfn r.2 = None
       /\ tsfns r.2 !! h = None
     else
       r.1 = Return (Number_New (g_nextStreamId st))
       /\ trace r.2 = (t_bound ++ [open; EPa_StartStream s])%list
       /\ g_streams r.2 =
            <[g_nextStreamId st := {| stream := s; volume := F32.one |}]>
              (g_streams st)
       /\ g_audioCallbackTsfn r.2 = Some h
       /\ tsfns r.2 !! h = Some jsCallback.

(** ** Fixtures: a concrete PortAudio and concrete states *)

Definition paInternalError : PaError := -9986.
Definition paDeviceUnavailable : PaError := -9985.

Definition example_text (err : PaError) : string :=
  if err =? paNoError then "Success"
  else if err =? paInternalError then "Internal PortAudio error"
  else if err =? paDeviceUnavailable then "Device unavailable"
  else "Invalid error code".

(** A PortAudio with two devices whose stream calls answer with the
    given codes; every opened stream gets a fresh address. *)
Definition example_backend (e_open e_start e_stop e_close e_write : PaError)
  : PortAudio :=
  {| on_Pa_Initialize := fun _ => paNoError;
     on_Pa_Terminate := fun _ => paNoError;
     on_Pa_GetDeviceCount := fun _ => 2;
     on_Pa_GetDefaultOutputDevice := fun _ => 0;
     on_Pa_GetDeviceInfo := fun _ d =>
       if (0 <=? d) && (d <? 2)
       then Some {| defaultLowOutputLatency := latency_fallback |}
       else None;
     on_Pa_OpenDefaultStream := fun t =>
       (e_open, if e_open =? paNoError then 4096 + Z.of_nat (length t) else 0);
     on_Pa_OpenStream := fun t _ _ _ _ =>
       (e_open, if e_open =? paNoError then 4096 + Z.of_nat (length t) else 0);
     on_Pa_StartStream := fun _ _ => e_start;
     on_Pa_StopStream := fun _ _ => e_stop;
     on_Pa_CloseStream := fun _ _ => e_close;
     on_Pa_WriteStream := fun _ _ _ _ => e_write;
     Pa_GetErrorText := example_text |}.

Definition pa_ok : PortAudio := example_backend 0 0 0 0 0.

(** An implementation with 64-bit [unsigned long] that places a new
    object right above the highest address in use, at 0 when none is: an
    address that was freed is taken again. *)
Definition above (m : gmap Tsfn JsFun) : Tsfn :=
  map_fold (fun h _ n => Nat.max (S h) n) 0%nat m.

Definition lp64 : Implementation :=
  {| unsigned_long_bits := 64; on_make_unique := fun _ m => above m |}.

(** The module as loaded: nothing open, ids start at 1. *)
Definition loaded : State :=
  {| g_audioCallbackTsfn := None; g_eventCallbackTsfn := None;
     g_streams := ∅; g_nextStreamId := 1;
     tsfns := ∅; buffers := ∅; trace := [] |}.

Definition num (z : Z) : JsValue := Number_New z.

(** After [openDefaultStream()]: stream 1 is open. *)
Definition one_stream : State := (OpenDefaultStream pa_ok [] loaded).2.

(** After [setStreamVolume(1, 3)]. *)
Definition one_stream_loud : State :=
  (SetStreamVolume [num 1; num 3] one_stream).2.

(** Four samples of 1.0 at address 7. *)
Definition with_samples (st : State) : State :=
  set_buffers (<[7%nat := [F32.one; F32.one; F32.one; F32.one]]> (buffers st))
    st.

Definition pa_stop_fails : PortAudio := example_backend 0 0 paInternalError 0 0.
Definition pa_start_fails : PortAudio :=
  example_backend 0 paDeviceUnavailable 0 0 0.

(** After [openStreamAsync({}, fill)], [fill] being function 5. *)
Definition async_stream : State :=
  (OpenStreamAsync lp64 pa_ok [JsObject no_options; JsFunction 5%nat]
     loaded).2.

(** After [setStreamEventCallback(listener)] on top of that, [listener]
    being function 9. *)
Definition listening : State :=
  (SetStreamEventCallback lp64 [JsFunction 9%nat] async_stream).2.

(** ** Vocabulary for the remaining behaviour *)

(** What an open of a blocking stream does once its arguments are
    accepted, by the answers of the backend to the open ([answer]) and to
    the start; [t] is the trace when the open is called, [in_open] and
    [in_start] are what the error text is prefixed with. *)
Definition blocking_stream_outcome (pa : PortAudio) (in_open in_start : string)
    (open : Event) (answer : PaError * PaStream) (t : Trace) (st : State)
    (r : Completion * State) : Prop :=
  let e_open := answer.1 in
  let s := answer.2 in
  let e_start := on_Pa_StartStream pa (t ++ [open])%list s in
  g_audioCallbackTsfn r.2 = g_audioCallbackTsfn st
  /\ g_eventCallbackTsfn r.2 = g_eventCallbackTsfn st
  /\ tsfns r.2 = tsfns st
  /\ if negb (e_open =? paNoError)
     then
       r.1 = Throw (Error (in_open ++ Pa_GetErrorText pa e_open))
       /\ trace r.2 = (t ++ [open])%list
       /\ g_streams r.2 = g_streams st
       /\ g_nextStreamId r.2 = g_nextStreamId st
     else if negb (e_start =? paNoError)
     then
       r.1 = Throw (Error (in_start ++ Pa_GetErrorText pa e_start))
       /\ trace r.2 = (t ++ [open; EPa_StartStream s; EPa_CloseStream s])%list
       /\ g_streams r.2 = g_streams st
       /\ g_nextStreamId r.2 = g_nextStreamId st
     else
       r.1 = Return (Number_New (g_nextStreamId st))
       /\ trace r.2 = (t ++ [open; EPa_StartStream s])%list
       /\ g_streams r.2 =
            <[g_nextStreamId st := {| stream := s; volume := F32.one |}]>
              (g_streams st)
       /\ g_nextStreamId r.2 = wrap_uint32 (g_nextStreamId st + 1).

(** The exported functions that act on the module state, in the order
    [InitAll] registers them. *)
Definition exports (impl : Implementation) (pa : PortAudio)
  : list (list JsValue -> State -> Completion * State) :=
  [Init pa; Terminate pa; OpenDefaultStream pa; OpenStream pa; WriteStream pa;
   CloseStream pa; OpenStreamAsync impl pa; SetStreamEventCallback impl;
   SetStreamVolume].

(** The call releasing the channel a slot holds, if it holds one. *)
Definition release_events (slot : option Tsfn) : list Event :=
  match slot with
  | Some h => [ETsfn_Release h]
  | None => []
  end.

(** The backend calls [Terminate] makes for the registry entries given:
    a stop and a close for every entry whose stream is not null. *)
Definition stop_all_events (entries : list (Z * StreamInfo)) : list Event :=
  flat_map
    (fun kv =>
       if stream kv.2 =? nullptr then []
       else [EPa_StopStream (stream kv.2); EPa_CloseStream (stream kv.2)])
    entries.

(** The state after the calls [events] were recorded. *)
Definition log_all (events : list Event) (st : State) : State :=
  {| g_audioCallbackTsfn := g_audioCallbackTsfn st;
     g_eventCallbackTsfn := g_eventCallbackTsfn st;
     g_streams := g_streams st; g_nextStreamId := g_nextStreamId st;
     tsfns := tsfns st;
     buffers := buffers st; trace := (trace st ++ events)%list |}.

#[local] Instance key_le_total : Total key_le.
Proof. intros a b. unfold key_le. lia. Defined.

(** Two states that differ at most in the calls recorded. *)
Definition same_module (st st' : State) : Prop :=
  g_streams st' = g_streams st
  /\ g_nextStreamId st' = g_nextStreamId st
  /\ g_audioCallbackTsfn st' = g_audioCallbackTsfn st
  /\ g_eventCallbackTsfn st' = g_eventCallbackTsfn st
  /\ tsfns st' = tsfns st
  /\ buffers st' = buffers st.

Definition is_openStream (c : Call) : bool :=
  match c with call_openStream _ => true | _ => false end.

(** The ways one call can change the registry and the id counter:
    not at all; a new entry with volume 1.0 under the next id, which
    moves the counter (when [guarded], only from an empty registry); a
    clamped volume for an entry that exists; the removal of an id; the
    removal of everything. *)
Inductive registry_step (guarded : bool) (st : State)
  : gmap Z StreamInfo -> Z -> Prop :=
| rs_same : registry_step guarded st (g_streams st) (g_nextStreamId st)
| rs_open (s : PaStream) :
    (guarded = true -> g_streams st = ∅) ->
    registry_step guarded st
      (<[g_nextStreamId st := {| stream := s; volume := F32.one |}]>
         (g_streams st))
      (wrap_uint32 (g_nextStreamId st + 1))
| rs_volume (id : Z) (sinfo : StreamInfo) (v : float) :
    g_streams st !! id = Some sinfo ->
    registry_step guarded st
      (<[id := {| stream := stream sinfo;
                  volume := clamp v F32.zero F32.two |}]> (g_streams st))
      (g_nextStreamId st)
| rs_close (id : Z) :
    registry_step guarded st (delete id (g_streams st)) (g_nextStreamId st)
| rs_clear : registry_step guarded st ∅ (g_nextStreamId st).

(** A volume that is neither below 0 nor above 2. *)
Definition volume_in_range (v : float) : Prop :=
  SFltb v F32.zero = false /\ SFltb F32.two v = false.

(** The fill slot is bound only while a stream is registered. *)
Definition bound_while_open (st : State) : Prop :=
  g_audioCallbackTsfn st <> None -> g_streams st <> ∅.

(** What a sample becomes when it is multiplied by a volume of 0.0. *)
Definition muted (x : float) : float :=
  match x with
  | S754_finite s _ _ | S754_zero s => S754_zero s
  | _ => S754_nan
  end.

(** Stream 1 from [openDefaultStream] and stream 2 from [openStream]. *)
Definition two_streams : State :=
  (OpenStream pa_ok [num 0; num 44100; num 2; num 256] one_stream).2.

(** After [setStreamVolume(1, 0)]. *)
Definition one_stream_muted : State :=
  (SetStreamVolume [num 1; num 0] one_stream).2.

(** Case analysis along the branches of a function that ends in a
    state. *)
Ltac state_cases :=
  cbv beta iota zeta;
  repeat match goal with
         | |- ?P (_, _).2 => cbn [snd]
         | |- ?P (if ?c then _ else _) => destruct c; cbv beta iota zeta
         | |- ?P (if ?c then _ else _).2 => destruct c; cbv beta iota zeta
         | |- ?P (match (if ?c then _ else _) with _ => _ end) =>
             destruct c; cbv beta iota zeta
         | |- ?P (match (if ?c then _ else _) with _ => _ end).2 =>
             destruct c; cbv beta iota zeta
         | |- ?P (match (match ?y with _ => _ end) with _ => _ end) =>
             destruct y; cbv beta iota zeta
         | |- ?P (match (match ?y with _ => _ end) with _ => _ end).2 =>
             destruct y; cbv beta iota zeta
         | |- ?P (match ?x with _ => _ end) => destruct x; cbv beta iota zeta
         | |- ?P (match ?x with _ => _ end).2 =>
             destruct x; cbv beta iota zeta
         end.

(** ** Properties *)

(** *** Volume *)

(** The two successive tests of [SetStreamVolume] compute [clamp]. *)
Lemma clamp_code (v : float) :
  (let v1 := if SFltb v F32.zero then F32.zero else v in
   if SFltb F32.two v1 then F32.two else v1) = clamp v F32.zero F32.two.
Proof.
  unfold clamp. cbv zeta.
  destruct (SFltb v F32.zero) eqn:Hlo; [reflexivity | reflexivity].
Qed.

(** A clamped volume is never below 0 nor above 2; a value that is
    neither is kept as it is. *)
Lemma clamp_range (v : float) :
  SFltb (clamp v F32.zero F32.two) F32.zero = false
  /\ SFltb F32.two (clamp v F32.zero F32.two) = false.
Proof.
  unfold clamp.
  destruct (SFltb v F32.zero) eqn:Hlo; [split; reflexivity |].
  destruct (SFltb F32.two v) eqn:Hhi; [split; reflexivity |].
  split; assumption.
Qed.

Lemma clamp_inside (v : float) :
  SFltb v F32.zero = false -> SFltb F32.two v = false ->
  clamp v F32.zero F32.two = v.
Proof. intros Hlo Hhi. unfold clamp. rewrite Hlo, Hhi. reflexivity. Qed.

Lemma SetStreamVolume_known (st : State) (id v : double) (sinfo : StreamInfo) :
  g_streams st !! Uint32Value id = Some sinfo ->
  SetStreamVolume [JsNumber id; JsNumber v] st =
    (Return JsUndefined,
     set_streams
       (<[Uint32Value id :=
            {| stream := stream sinfo;
               volume := clamp (FloatValue v) F32.zero F32.two |}]>
          (g_streams st)) st).
Proof.
  intros Hid. unfold SetStreamVolume, GetStreamInfoById. cbn [length arg nth
    IsNumber as_number Nat.ltb Nat.leb negb orb].
  rewrite Hid. rewrite <- clamp_code. reflexivity.
Qed.

(** C5: [setStreamVolume(id, v)] on an open stream stores
    [clamp(v, 0.0, 2.0)], [v] being the number given read as a C
    [float]; reading the volume of [id] afterwards, as [writeStream]
    does, yields that value.  On an unknown id the call fails with
    [NotFound] and the state is the one before. *)
Theorem SetStreamVolume_clamps (st : State) (id v : double) :
  (forall sinfo, g_streams st !! Uint32Value id = Some sinfo ->
     exists st',
       SetStreamVolume [JsNumber id; JsNumber v] st = (Return JsUndefined, st')
       /\ volume <$> GetStreamInfoById (Uint32Value id) st'
          = Some (clamp (FloatValue v) F32.zero F32.two))
  /\ (g_streams st !! Uint32Value id = None ->
      SetStreamVolume [JsNumber id; JsNumber v] st = (Throw NotFound, st)).
Proof.
  split.
  - intros sinfo Hid. eexists. split.
    + apply SetStreamVolume_known. exact Hid.
    + unfold GetStreamInfoById. cbn [g_streams set_streams].
      rewrite lookup_insert_eq. reflexivity.
  - intros Hid. unfold SetStreamVolume, GetStreamInfoById.
    cbn [length arg nth IsNumber as_number Nat.ltb Nat.leb negb orb].
    rewrite Hid. reflexivity.
Qed.

(** C10: [setStreamVolume(id, v)] on an open stream changes the volume
    field of the entry for [id] and nothing else: the entry keeps its
    backend stream, every other entry is as before, and so are both
    callback slots and the channels behind them, the id counter, the
    sample buffers and the calls made so far. *)
Theorem SetStreamVolume_frame (st : State) (id v : double) (sinfo : StreamInfo) :
  g_streams st !! Uint32Value id = Some sinfo ->
  let st' := (SetStreamVolume [JsNumber id; JsNumber v] st).2 in
  stream <$> g_streams st' !! Uint32Value id = Some (stream sinfo)
  /\ (forall j, j <> Uint32Value id -> g_streams st' !! j = g_streams st !! j)
  /\ dom (g_streams st') = dom (g_streams st)
  /\ g_audioCallbackTsfn st' = g_audioCallbackTsfn st
  /\ g_eventCallbackTsfn st' = g_eventCallbackTsfn st
  /\ tsfns st' = tsfns st
  /\ g_nextStreamId st' = g_nextStreamId st
  /\ buffers st' = buffers st
  /\ trace st' = trace st.
Proof.
  intros Hid st'. subst st'.
  rewrite (SetStreamVolume_known st id v sinfo Hid).
  cbn [snd g_streams set_streams g_audioCallbackTsfn g_eventCallbackTsfn
       tsfns g_nextStreamId buffers trace].
  repeat split.
  - rewrite lookup_insert_eq. reflexivity.
  - intros j Hj. rewrite lookup_insert_ne by congruence. reflexivity.
  - apply dom_insert_lookup_L. rewrite Hid. eexists. reflexivity.
Qed.

(** *** Doubling a [float] *)

Lemma F32_valid_cases (s : bool) (m : positive) (e : Z) :
  F32.valid (S754_finite s m e) = true ->
  e <= 104
  /\ ((digits2_pos m = 24%positive /\ -149 <= e)
      \/ (Z.pos (digits2_pos m) < 24 /\ e = -149)).
Proof.
  unfold F32.valid, valid_binary, bounded, canonical_mantissa, fexp, emin,
    F32.prec, F32.emax.
  intros H. apply andb_true_iff in H as [Hc Hb].
  apply Z.eqb_eq in Hc. apply Z.leb_le in Hb.
  split; [lia|].
  destruct (Z.eq_dec (Z.pos (digits2_pos m)) 24) as [Heq|Hne].
  - left. split; [congruence | lia].
  - right. lia.
Qed.

Lemma pos_shift_23 (m : positive) :
  (m * 8388608
   = m~0~0~0~0~0~0~0~0~0~0~0~0~0~0~0~0~0~0~0~0~0~0~0)%positive.
Proof. rewrite Pos.mul_comm. reflexivity. Qed.

(** A normal number times 2.0: the exponent goes up by one, or the
    product is infinite. *)
Lemma F32_mul_two_normal (s : bool) (m : positive) (e : Z) :
  digits2_pos m = 24%positive -> -149 <= e ->
  F32.mul (S754_finite s m e) F32.two
  = if e <? 104 then S754_finite s m (e + 1) else S754_infinity s.
Proof.
  intros Hd Hlo.
  unfold F32.mul, SFmul, F32.two. rewrite xorb_false_r.
  rewrite pos_shift_23.
  unfold binary_round_aux, shr_fexp.
  cbn [Zdigits2 digits2_pos]. rewrite Hd.
  unfold fexp, emin, F32.prec, F32.emax.
  match goal with
  | |- context [shr _ _ ?n] => replace n with 23 by lia
  end.
  cbn [shr shr_record_of_loc SpecFloat.iter_pos shr_1 orb shr_m loc_of_shr_record
       round_nearest_even Zdigits2].
  rewrite Hd.
  match goal with
  | |- context [shr _ _ ?n] => replace n with 0 by lia
  end.
  cbn [shr shr_m].
  replace (e + -22 + 23) with (e + 1) by lia.
  destruct (Z.leb_spec (e + 1) (128 - 24)), (Z.ltb_spec e 104);
    try reflexivity; lia.
Qed.

(** A subnormal number times 2.0: the mantissa is doubled. *)
Lemma F32_mul_two_subnormal (s : bool) (m : positive) :
  Z.pos (digits2_pos m) < 24 ->
  F32.mul (S754_finite s m (-149)) F32.two = S754_finite s m~0 (-149).
Proof.
  intros Hd.
  unfold F32.mul, SFmul, F32.two. rewrite xorb_false_r.
  rewrite pos_shift_23.
  unfold binary_round_aux, shr_fexp.
  cbn [Zdigits2 digits2_pos].
  unfold fexp, emin, F32.prec, F32.emax.
  set (d := digits2_pos m) in *.
  match goal with
  | |- context [shr _ _ ?n] => replace n with 22 by lia
  end.
  cbn [shr shr_record_of_loc SpecFloat.iter_pos shr_1 orb shr_m loc_of_shr_record
       round_nearest_even Zdigits2 digits2_pos].
  fold d.
  match goal with
  | |- context [shr _ _ ?n] => replace n with 0 by lia
  end.
  cbn [shr shr_m]. reflexivity.
Qed.

(** Multiplying a valid [float] below the overflow threshold by 2.0 is
    exact: the product is a valid [float] whose value is twice the
    value of the operand. *)
Lemma F32_mul_two_exact (x : float) :
  F32.valid x = true -> F32.below_overflow x = true ->
  F32.valid (F32.mul x F32.two) = true
  /\ F32.units (F32.mul x F32.two) = 2 * F32.units x.
Proof.
  destruct x as [s|s| |s m e]; try discriminate.
  - intros _ _. split; reflexivity.
  - intros Hv Hb. cbn in Hb. apply Z.ltb_lt in Hb.
    destruct (F32_valid_cases s m e Hv) as [_ [[Hd Hlo]|[Hd ->]]].
    + rewrite F32_mul_two_normal by assumption.
      destruct (Z.ltb_spec e 104); [|lia]. split.
      * unfold F32.valid, valid_binary, bounded, canonical_mantissa, fexp,
          emin, F32.prec, F32.emax. rewrite Hd.
        apply andb_true_iff. split; [apply Z.eqb_eq | apply Z.leb_le]; lia.
      * unfold F32.units.
        replace (e + 1 + 149) with (Z.succ (e + 149)) by lia.
        rewrite Z.pow_succ_r by lia. destruct s; cbn [cond_Zopp]; lia.
    + rewrite F32_mul_two_subnormal by assumption. split.
      * unfold F32.valid, valid_binary, bounded, canonical_mantissa, fexp,
          emin, F32.prec, F32.emax. cbn [digits2_pos].
        apply andb_true_iff. split; [apply Z.eqb_eq | apply Z.leb_le]; lia.
      * unfold F32.units. destruct s; cbn [cond_Zopp]; lia.
Qed.

(** *** The blocking write path *)

(** The loop, started anywhere, scales what is left of the buffer. *)
Lemma volume_loop_app (vol : float) (done rest : list float) :
  volume_loop (length rest) (length done) vol (done ++ rest)%list
  = (done ++ ((fun x => F32.mul x vol) <$> rest))%list.
Proof.
  revert done. induction rest as [|x rest IH]; intros done; [reflexivity|].
  rewrite fmap_cons. cbn [length volume_loop].
  rewrite list_lookup_middle by reflexivity.
  rewrite insert_app_r_alt by lia.
  rewrite Nat.sub_diag. cbn [insert list_insert].
  replace (S (length done)) with (length (done ++ [F32.mul x vol])%list)
    by (rewrite length_app; cbn; lia).
  change (done ++ F32.mul x vol :: rest)%list
    with (done ++ [F32.mul x vol] ++ rest)%list.
  rewrite app_assoc. rewrite IH. rewrite <- app_assoc. reflexivity.
Qed.

Lemma volume_loop_map (vol : float) (data : list float) :
  volume_loop (length data) 0 vol data = (fun x => F32.mul x vol) <$> data.
Proof. exact (volume_loop_app vol [] data). Qed.

Lemma WriteStream_known (pa : PortAudio) (st : State) (buf : JsValue)
    (id : double) (p : Ptr) (samples : list float) (sinfo : StreamInfo) :
  g_streams st !! Uint32Value id = Some sinfo ->
  samples_at buf p ->
  buffers st !! p = Some samples ->
  samples <> [] ->
  WriteStream pa [buf; JsNumber id] st =
    let data := scaled (volume sinfo) samples in
    let frames := Z.of_nat (length samples) / 2 in
    let err := on_Pa_WriteStream pa (trace st) (stream sinfo) data frames in
    (if negb (err =? paNoError)
     then Throw (BackendError (Pa_GetErrorText pa err))
     else Return JsUndefined,
     log (EPa_WriteStream (stream sinfo) data frames)
       (set_buffers (<[p := data]> (buffers st)) st)).
Proof.
  intros Hid Hbuf Hp Hne.
  unfold WriteStream, GetStreamInfoById.
  cbn [length arg nth IsNumber as_number Nat.ltb Nat.leb negb orb].
  rewrite Hid.
  assert (Hlen : (length samples =? 0)%nat = false).
  { destruct samples; [congruence | reflexivity]. }
  destruct Hbuf as [-> | [-> | ->]];
    cbn [IsBuffer IsTypedArray TypedArrayType Data]; rewrite Hp, Hlen;
    unfold scaled, Pa_WriteStream, BackendError;
    rewrite volume_loop_map; cbn [trace set_buffers];
    destruct (negb (SFeqb (volume sinfo) F32.one));
    cbv zeta;
    match goal with
    | |- context [negb (?e =? paNoError)] =>
        destruct (negb (e =? paNoError))
    end; reflexivity.
Qed.

(** C4: a write of a non-empty sample sequence to an open stream makes
    exactly one call of the backend write primitive.  With the stream's
    volume at 2.0 the buffer passed holds, sample for sample, the
    original multiplied by 2.0 in [float] arithmetic, which for a valid
    sample below the overflow threshold is exactly twice its value; with
    the volume at 1.0 the buffer passed is the input itself, and the
    caller's storage is left as it was. *)
Theorem WriteStream_volume (pa : PortAudio) (st : State) (buf : JsValue)
    (id : double) (p : Ptr) (samples : list float) (sinfo : StreamInfo) :
  g_streams st !! Uint32Value id = Some sinfo ->
  samples_at buf p ->
  buffers st !! p = Some samples ->
  samples <> [] ->
  let st' := (WriteStream pa [buf; JsNumber id] st).2 in
  let frames := Z.of_nat (length samples) / 2 in
  (volume sinfo = F32.two ->
   exists data,
     trace st' = (trace st ++ [EPa_WriteStream (stream sinfo) data frames])%list
     /\ length data = length samples
     /\ (forall i x, samples !! i = Some x ->
           data !! i = Some (F32.mul x F32.two)
           /\ (F32.valid x = true -> F32.below_overflow x = true ->
               F32.units (F32.mul x F32.two) = 2 * F32.units x)))
  /\ (volume sinfo = F32.one ->
      trace st' =
        (trace st ++ [EPa_WriteStream (stream sinfo) samples frames])%list
      /\ buffers st' = buffers st).
Proof.
  intros Hid Hbuf Hp Hne st' frames. subst st' frames.
  rewrite (WriteStream_known pa st buf id p samples sinfo Hid Hbuf Hp Hne).
  cbv zeta. cbn [snd trace log buffers set_buffers].
  split; intros Hvol; rewrite Hvol.
  - exists ((fun x => F32.mul x F32.two) <$> samples).
    split; [reflexivity|]. split; [apply length_fmap|].
    intros i x Hi. split.
    + rewrite list_lookup_fmap, Hi. reflexivity.
    + intros Hv Hb. apply F32_mul_two_exact; assumption.
  - split; [reflexivity|].
    change (scaled F32.one samples) with samples.
    apply insert_id. exact Hp.
Qed.

Lemma scaled_length (vol : float) (samples : list float) :
  length (scaled vol samples) = length samples.
Proof.
  unfold scaled. destruct (negb (SFeqb vol F32.one)); [|reflexivity].
  apply length_fmap.
Qed.

(** C9: a write that succeeds has made one call of the backend write
    primitive, and the frame count of that call is the number of samples
    divided by 2, the divisor of the stereo interleave: four samples are
    passed as two frames. *)
Theorem WriteStream_frame_count (pa : PortAudio) (info : list JsValue)
    (st st' : State) (v : JsValue) :
  WriteStream pa info st = (Return v, st') ->
  exists sinfo p samples data,
    g_streams st !! Uint32Value (as_number (arg info 1)) = Some sinfo
    /\ samples_at (arg info 0) p
    /\ buffers st !! p = Some samples
    /\ length data = length samples
    /\ trace st' =
         (trace st
          ++ [EPa_WriteStream (stream sinfo) data
                (Z.of_nat (length samples) / 2)])%list.
Proof.
  unfold WriteStream, GetStreamInfoById.
  destruct ((length info <? 2)%nat || negb (IsNumber (arg info 1)));
    [discriminate|].
  destruct (g_streams st !! Uint32Value (as_number (arg info 1)))
    as [sinfo|] eqn:Hid; [|discriminate].
  match goal with
  | |- context [match ?s with inl _ => _ | inr _ => _ end] =>
      destruct s as [p|e] eqn:Hstorage
  end; [|discriminate].
  assert (Hat : samples_at (arg info 0) p).
  { destruct (arg info 0) as [| | | |q|t q]; try discriminate.
    - left. cbn in Hstorage. congruence.
    - destruct t; try discriminate; cbn in Hstorage.
      + right. left. congruence.
      + right. right. congruence. }
  destruct (buffers st !! p) as [samples|] eqn:Hp; [|discriminate].
  destruct (length samples =? 0)%nat; [discriminate|].
  unfold Pa_WriteStream. rewrite volume_loop_map.
  fold (scaled (volume sinfo) samples).
  destruct (negb (_ =? paNoError)); [discriminate|].
  intros Hrun. injection Hrun as _ <-.
  exists sinfo, p, samples, (scaled (volume sinfo) samples).
  repeat split; try assumption. apply scaled_length.
Qed.

(** *** Opening a stream *)

(** The registry is non-empty exactly when [g_streams.size() > 0]. *)
Lemma size_pos_nonempty (m : gmap Z StreamInfo) :
  (0 <? size m)%nat = true <-> m <> ∅.
Proof.
  rewrite Nat.ltb_lt. split.
  - intros Hsz ->. rewrite map_size_empty in Hsz. lia.
  - intros Hne. destruct (size m) eqn:Hsz; [|lia].
    apply map_size_empty_inv in Hsz. contradiction.
Qed.

(** [openDefaultStream] refuses to open a second stream and touches
    nothing. *)
Lemma OpenDefaultStream_AlreadyOpen (pa : PortAudio) (info : list JsValue)
    (st : State) :
  g_streams st <> ∅ ->
  OpenDefaultStream pa info st = (Throw AlreadyOpen, st).
Proof.
  intros Hne. unfold OpenDefaultStream.
  apply size_pos_nonempty in Hne. rewrite Hne. reflexivity.
Qed.

(** So does [openStreamAsync]. *)
Lemma OpenStreamAsync_AlreadyOpen (impl : Implementation) (pa : PortAudio)
    (info : list JsValue) (st : State) :
  g_streams st <> ∅ ->
  OpenStreamAsync impl pa info st = (Throw AlreadyOpen, st).
Proof.
  intros Hne. unfold OpenStreamAsync.
  apply size_pos_nonempty in Hne. rewrite Hne. reflexivity.
Qed.

(** C1: [openStream] has no such test.  With stream 1 open,
    [openStream(0, 44100, 2, 256)] on a working backend opens a second
    backend stream, registers it under id 2 next to stream 1 and returns
    2, where the claim wants [AlreadyOpen] and an unchanged registry. *)
Theorem OpenStream_second_stream :
  let r := OpenStream pa_ok [num 0; num 44100; num 2; num 256] one_stream in
  g_streams one_stream !! 1 = Some {| stream := 4096; volume := F32.one |}
  /\ r.1 = Return (num 2)
  /\ g_streams r.2 !! 1 = Some {| stream := 4096; volume := F32.one |}
  /\ g_streams r.2 !! 2 = Some {| stream := 4100; volume := F32.one |}
  /\ size (g_streams r.2) = 2%nat.
Proof. vm_compute. repeat split. Qed.

(** C8: [openStream] with a device index outside [0, deviceCount), with
    channels <= 0, with sampleRate <= 0 or with framesPerBuffer == 0
    fails with [InvalidArgument].  The only backend call made is the
    query of the device count: no stream is opened, none is registered,
    and the rest of the state is as before. *)
Theorem OpenStream_validates (pa : PortAudio) (st : State)
    (deviceIndex sampleRate channels framesPerBuffer : double) :
  Int32Value deviceIndex < 0
  \/ on_Pa_GetDeviceCount pa (trace st) <= Int32Value deviceIndex
  \/ Int32Value channels <= 0
  \/ SFleb sampleRate F64.zero = true
  \/ Uint32Value framesPerBuffer = 0 ->
  exists e st',
    OpenStream pa
      [JsNumber deviceIndex; JsNumber sampleRate; JsNumber channels;
       JsNumber framesPerBuffer] st = (Throw e, st')
    /\ InvalidArgument e
    /\ trace st' = (trace st ++ [EPa_GetDeviceCount])%list
    /\ g_streams st' = g_streams st
    /\ g_nextStreamId st' = g_nextStreamId st
    /\ g_audioCallbackTsfn st' = g_audioCallbackTsfn st
    /\ g_eventCallbackTsfn st' = g_eventCallbackTsfn st.
Proof.
  intros Hbad. unfold OpenStream.
  cbn [length arg nth IsNumber as_number Nat.ltb Nat.leb negb orb].
  unfold Pa_GetDeviceCount, DoubleValue.
  destruct ((Int32Value deviceIndex <? 0)
            || (on_Pa_GetDeviceCount pa (trace st) <=? Int32Value deviceIndex))
    eqn:Hdev.
  { eexists _, _. split; [reflexivity|]. split; [constructor|].
    repeat split. }
  destruct (Int32Value channels <=? 0) eqn:Hch.
  { eexists _, _. split; [reflexivity|]. split; [constructor|].
    repeat split. }
  destruct (SFleb sampleRate F64.zero) eqn:Hrate.
  { eexists _, _. split; [reflexivity|]. split; [constructor|].
    repeat split. }
  destruct (Uint32Value framesPerBuffer =? 0) eqn:Hfr.
  { eexists _, _. split; [reflexivity|]. split; [constructor|].
    repeat split. }
  exfalso. apply orb_false_elim in Hdev as [Hlo Hhi].
  apply Z.ltb_ge in Hlo. apply Z.leb_gt in Hhi, Hch. apply Z.eqb_neq in Hfr.
  destruct Hbad as [?|[?|[?|[?|?]]]]; try lia; congruence.
Qed.

(** *** Closing a stream *)

Lemma release_audioCallbackTsfn_slots (st : State) :
  g_audioCallbackTsfn (release_audioCallbackTsfn st) = None
  /\ g_eventCallbackTsfn (release_audioCallbackTsfn st)
     = g_eventCallbackTsfn st
  /\ g_streams (release_audioCallbackTsfn st) = g_streams st
  /\ (forall h, g_audioCallbackTsfn st = Some h ->
        tsfns (release_audioCallbackTsfn st) !! h = None)
  /\ (forall h, tsfns st !! h = None ->
        tsfns (release_audioCallbackTsfn st) !! h = None).
Proof.
  unfold release_audioCallbackTsfn.
  destruct (g_audioCallbackTsfn st) as [a|] eqn:Ha; cbn; repeat split;
    try assumption; try discriminate.
  - intros h [= <-]. apply lookup_delete_eq.
  - intros h Hh. rewrite lookup_delete_None. auto.
  - intros h Hh. exact Hh.
Qed.

Lemma release_eventCallbackTsfn_slots (st : State) :
  g_eventCallbackTsfn (release_eventCallbackTsfn st) = None
  /\ g_audioCallbackTsfn (release_eventCallbackTsfn st)
     = g_audioCallbackTsfn st
  /\ g_streams (release_eventCallbackTsfn st) = g_streams st
  /\ (forall h, g_eventCallbackTsfn st = Some h ->
        tsfns (release_eventCallbackTsfn st) !! h = None)
  /\ (forall h, tsfns st !! h = None ->
        tsfns (release_eventCallbackTsfn st) !! h = None).
Proof.
  unfold release_eventCallbackTsfn.
  destruct (g_eventCallbackTsfn st) as [a|] eqn:Ha; cbn; repeat split;
    try assumption; try discriminate.
  - intros h [= <-]. apply lookup_delete_eq.
  - intros h Hh. rewrite lookup_delete_None. auto.
  - intros h Hh. exact Hh.
Qed.

Lemma CloseStream_known (pa : PortAudio) (st : State) (id : double)
    (sinfo : StreamInfo) :
  g_streams st !! Uint32Value id = Some sinfo ->
  CloseStream pa [JsNumber id] st =
    (if negb (close_error pa sinfo st =? paNoError)
     then Throw (BackendError (Pa_GetErrorText pa (close_error pa sinfo st)))
     else Return JsUndefined,
     closed pa (Uint32Value id) sinfo st).
Proof.
  intros Hid. unfold CloseStream, GetStreamInfoById, closed, close_error.
  cbn [length arg nth IsNumber as_number Nat.ltb Nat.leb negb orb].
  rewrite Hid. unfold Pa_StopStream, Pa_CloseStream. cbv zeta.
  destruct (on_Pa_StopStream pa (trace st) (stream sinfo) =? paNoError)
    eqn:Hstop; cbn [trace log];
    match goal with
    | |- context [negb (?e =? paNoError)] => destruct (negb (e =? paNoError))
    end; reflexivity.
Qed.

Lemma closed_slots (pa : PortAudio) (streamId : Z) (sinfo : StreamInfo)
    (st : State) :
  g_streams (closed pa streamId sinfo st) = delete streamId (g_streams st)
  /\ g_audioCallbackTsfn (closed pa streamId sinfo st) = None
  /\ g_eventCallbackTsfn (closed pa streamId sinfo st) = None
  /\ (forall h, g_audioCallbackTsfn st = Some h ->
        tsfns (closed pa streamId sinfo st) !! h = None)
  /\ (forall h, g_eventCallbackTsfn st = Some h ->
        tsfns (closed pa streamId sinfo st) !! h = None).
Proof.
  unfold closed. cbv zeta.
  set (st2 := if _ =? paNoError then _ else _).
  assert (Hst2 : g_streams st2 = g_streams st
                 /\ g_audioCallbackTsfn st2 = g_audioCallbackTsfn st
                 /\ g_eventCallbackTsfn st2 = g_eventCallbackTsfn st).
  { subst st2. destruct (_ =? paNoError); repeat split. }
  destruct Hst2 as (Hs & Ha & He).
  set (st3 := set_streams _ st2).
  destruct (release_audioCallbackTsfn_slots st3) as (A1 & A2 & A3 & A4 & A5).
  destruct (release_eventCallbackTsfn_slots (release_audioCallbackTsfn st3))
    as (E1 & E2 & E3 & E4 & E5).
  repeat split.
  - rewrite E3, A3. subst st3. cbn. rewrite Hs. reflexivity.
  - rewrite E2. exact A1.
  - exact E1.
  - intros h Hh. apply E5, A4. subst st3. cbn. rewrite Ha. exact Hh.
  - intros h Hh. apply E4. rewrite A2. subst st3. cbn. rewrite He. exact Hh.
Qed.

(** C2, as the code has it: closing an unknown id raises nothing and
    changes nothing.  Closing a known id removes its registry entry and
    empties both callback slots whatever the backend answers; after that
    the call raises the backend's error if the stop failed, or if the
    stop went well and the close failed, and raises nothing otherwise. *)
Theorem CloseStream_teardown (pa : PortAudio) (st : State) (id : double) :
  (g_streams st !! Uint32Value id = None ->
   CloseStream pa [JsNumber id] st = (Return JsUndefined, st))
  /\ (forall sinfo, g_streams st !! Uint32Value id = Some sinfo ->
      let r := CloseStream pa [JsNumber id] st in
      g_streams r.2 = delete (Uint32Value id) (g_streams st)
      /\ g_audioCallbackTsfn r.2 = None
      /\ g_eventCallbackTsfn r.2 = None
      /\ r.1 = if close_error pa sinfo st =? paNoError
               then Return JsUndefined
               else Throw (BackendError
                             (Pa_GetErrorText pa (close_error pa sinfo st)))).
Proof.
  split.
  - intros Hid. unfold CloseStream, GetStreamInfoById.
    cbn [length arg nth IsNumber as_number Nat.ltb Nat.leb negb orb].
    rewrite Hid. reflexivity.
  - intros sinfo Hid r. subst r. rewrite (CloseStream_known pa st id sinfo Hid).
    cbn [fst snd].
    destruct (closed_slots pa (Uint32Value id) sinfo st) as (H1 & H2 & H3 & _).
    repeat split; try assumption.
    destruct (close_error pa sinfo st =? paNoError); reflexivity.
Qed.

(** C2 as claimed fails: with stream 1 open and a backend whose stop
    reports an internal error, [closeStream(1)] raises that error. *)
Lemma CloseStream_raises :
  (CloseStream (example_backend 0 0 paInternalError 0 0) [num 1] one_stream).1
  = Throw (Error "Internal PortAudio error").
Proof. vm_compute. reflexivity. Qed.

(** *** Thread-safe functions and the real-time callback *)

Lemma EmitStreamEvent_unbound (type message : string) (st : State) :
  g_eventCallbackTsfn st = None -> EmitStreamEvent type message st = Some st.
Proof. intros He. unfold EmitStreamEvent. rewrite He. reflexivity. Qed.

Lemma EmitStreamEvent_bound (type message : string) (h : Tsfn) (f : JsFun)
    (st : State) :
  g_eventCallbackTsfn st = Some h ->
  tsfns st !! h = Some f ->
  EmitStreamEvent type message st
  = Some (log (ETsfn_BlockingCall h f (StreamEvent type message)) st).
Proof.
  intros He Hh. unfold EmitStreamEvent, BlockingCall. rewrite He, Hh.
  reflexivity.
Qed.

Lemma log_all_nil (st : State) : log_all [] st = st.
Proof. unfold log_all. rewrite app_nil_r. destruct st; reflexivity. Qed.

Lemma log_all_cons (e : Event) (events : list Event) (st : State) :
  log_all events (log e st) = log_all (e :: events) st.
Proof. unfold log_all. cbn. rewrite <- app_assoc. reflexivity. Qed.

(** With a handler bound, the notifications are one call each to it. *)
Lemma emit_all_bound (types : list string) (h : Tsfn) (f : JsFun)
    (st : State) :
  g_eventCallbackTsfn st = Some h ->
  tsfns st !! h = Some f ->
  emit_all types st
  = Some (log_all
            ((fun type => ETsfn_BlockingCall h f (StreamEvent type ""))
               <$> types) st).
Proof.
  revert st. induction types as [|type types IH]; intros st He Hh.
  - cbn. rewrite log_all_nil. reflexivity.
  - cbn [emit_all]. rewrite (EmitStreamEvent_bound _ _ h f st He Hh).
    cbn [mbind option_bind]. rewrite IH by assumption.
    rewrite fmap_cons, log_all_cons. reflexivity.
Qed.

Lemma emit_all_unbound (types : list string) (st : State) :
  g_eventCallbackTsfn st = None -> emit_all types st = Some st.
Proof.
  intros He. induction types as [|type types IH]; [reflexivity|].
  cbn [emit_all]. rewrite EmitStreamEvent_unbound by exact He.
  exact IH.
Qed.

Lemma same_module_refl (st : State) : same_module st st.
Proof. repeat split. Qed.

Lemma same_module_trans (st1 st2 st3 : State) :
  same_module st1 st2 -> same_module st2 st3 -> same_module st1 st3.
Proof.
  unfold same_module.
  intros (A1 & A2 & A3 & A4 & A5 & A6) (B1 & B2 & B3 & B4 & B5 & B6).
  repeat split; congruence.
Qed.

Lemma BlockingCall_same_module (h : Tsfn) (c : JsCall) (st : State)
    (r : napi_status * State) :
  BlockingCall h c st = Some r -> same_module st r.2.
Proof.
  unfold BlockingCall. destruct (tsfns st !! h); [|discriminate].
  intros [= <-]. repeat split.
Qed.

Lemma EmitStreamEvent_same_module (type message : string) (st st' : State) :
  EmitStreamEvent type message st = Some st' -> same_module st st'.
Proof.
  unfold EmitStreamEvent.
  destruct (g_eventCallbackTsfn st) as [h|];
    [|intros [= <-]; apply same_module_refl].
  destruct (BlockingCall h _ st) as [r|] eqn:Hr; [|discriminate].
  intros [= <-]. exact (BlockingCall_same_module _ _ _ _ Hr).
Qed.

Lemma emit_all_same_module (types : list string) (st st' : State) :
  emit_all types st = Some st' -> same_module st st'.
Proof.
  revert st. induction types as [|type types IH]; intros st.
  - intros [= <-]. apply same_module_refl.
  - cbn [emit_all].
    destruct (EmitStreamEvent type "" st) as [st1|] eqn:H1; [|discriminate].
    cbn [mbind option_bind]. intros H2.
    eapply same_module_trans;
      [exact (EmitStreamEvent_same_module _ _ _ _ H1) | exact (IH _ H2)].
Qed.

(** The callback as a hand-off followed by the notifications. *)
Lemma AudioCallback_unfold (impl : Implementation) (output : Ptr)
    (frameCount statusFlags : Z) (userData : Tsfn) (st : State) :
  AudioCallback impl output frameCount statusFlags userData st
  = r ← BlockingCall userData
          (FillBuffer output (to_unsigned_long impl (frameCount * 2))) st;
    st' ← emit_all (notifications statusFlags) r.2;
    Some (match r.1 with napi_ok => paContinue | napi_closing => paAbort end,
          st').
Proof.
  unfold AudioCallback, notifications.
  destruct (BlockingCall userData _ st) as [[status st1]|]; [|reflexivity].
  cbn [mbind option_bind fst snd].
  destruct (has_flag statusFlags paOutputUnderflow),
    (has_flag statusFlags paOutputOverflow),
    (has_flag statusFlags paPrimingOutput);
    cbn [app emit_all mbind option_bind];
    repeat match goal with
           | |- context [EmitStreamEvent ?a ?b ?s] =>
               destruct (EmitStreamEvent a b s); cbn [mbind option_bind]
           end;
    reflexivity.
Qed.

(** Through the pointer of an object that exists the hand-off goes to
    its function and the callback asks PortAudio to continue. *)
Lemma AudioCallback_live (impl : Implementation) (output : Ptr)
    (frameCount statusFlags : Z) (userData : Tsfn) (fill : JsFun)
    (st : State) :
  tsfns st !! userData = Some fill ->
  AudioCallback impl output frameCount statusFlags userData st
  = (fun st' => (paContinue, st'))
      <$> emit_all (notifications statusFlags)
            (log (ETsfn_BlockingCall userData fill
                    (FillBuffer output
                       (to_unsigned_long impl (frameCount * 2)))) st).
Proof.
  intros Hlive. rewrite AudioCallback_unfold. unfold BlockingCall.
  rewrite Hlive. cbn [mbind option_bind fst snd].
  destruct (emit_all _ _); reflexivity.
Qed.

(** Through a pointer without an object it has no defined behaviour. *)
Lemma AudioCallback_dangling (impl : Implementation) (output : Ptr)
    (frameCount statusFlags : Z) (userData : Tsfn) (st : State) :
  tsfns st !! userData = None ->
  AudioCallback impl output frameCount statusFlags userData st = None.
Proof.
  intros Hgone. rewrite AudioCallback_unfold. unfold BlockingCall.
  rewrite Hgone. reflexivity.
Qed.

(** Where it is defined, the callback changes nothing but the trace. *)
Lemma AudioCallback_same_module (impl : Implementation) (output : Ptr)
    (frameCount statusFlags : Z) (userData : Tsfn) (st : State)
    (r : Z * State) :
  AudioCallback impl output frameCount statusFlags userData st = Some r ->
  same_module st r.2.
Proof.
  rewrite AudioCallback_unfold.
  destruct (BlockingCall userData _ st) as [b|] eqn:Hb; [|discriminate].
  cbn [mbind option_bind].
  destruct (emit_all _ b.2) as [st'|] eqn:He; [|discriminate].
  cbn [mbind option_bind]. intros [= <-]. cbn [snd].
  eapply same_module_trans;
    [exact (BlockingCall_same_module _ _ _ _ Hb)
    | exact (emit_all_same_module _ _ _ He)].
Qed.

Lemma step_AudioCallback_same_module (impl : Implementation)
    (pa : PortAudio) (output : Ptr) (frameCount statusFlags : Z)
    (userData : Tsfn) (st : State) :
  same_module st
    (step impl pa (call_AudioCallback output frameCount statusFlags userData)
       st).
Proof.
  cbn [step].
  destruct (AudioCallback impl output frameCount statusFlags userData st)
    as [r|] eqn:Hr; [|apply same_module_refl].
  exact (AudioCallback_same_module _ _ _ _ _ _ _ Hr).
Qed.

Lemma release_eventCallbackTsfn_unbound (st : State) :
  g_eventCallbackTsfn st = None -> release_eventCallbackTsfn st = st.
Proof. intros He. unfold release_eventCallbackTsfn. rewrite He. reflexivity. Qed.

(** *** Runs *)

(** What every call keeps holds at the end of every run. *)
Lemma run_invariant (impl : Implementation) (pa : PortAudio)
    (P : State -> Prop) :
  (forall c st, P st -> P (step impl pa c st)) ->
  forall calls st, P st -> P (run impl pa calls st).
Proof.
  intros Hstep calls. induction calls as [|c calls IH]; intros st H;
    [exact H|].
  cbn [run]. destruct (ends impl pa c st); [|apply IH]; apply Hstep; exact H.
Qed.

(** *** The callback slots in reachable states *)

Lemma channels_ok_same_module (st st' : State) :
  same_module st st' -> channels_ok st -> channels_ok st'.
Proof.
  intros (_ & _ & Ha & He & Ht & _) (Ca & Ce & Cd). unfold channels_ok.
  rewrite Ha, He, Ht. repeat split; assumption.
Qed.

Lemma channels_ok_new_audio (impl : Implementation) (f : JsFun)
    (name : string) (st : State) :
  allocates_free impl ->
  channels_ok st ->
  channels_ok
    (set_audioCallbackTsfn (Some (on_make_unique impl (trace st) (tsfns st)))
       (ThreadSafeFunction_New impl f name st).2).
Proof.
  intros Hfree (Ha & He & Hd). unfold channels_ok. cbn.
  pose proof (Hfree (trace st) (tsfns st)) as Hnew.
  split; [|split].
  - intros h [= <-]. rewrite lookup_insert_eq. eauto.
  - intros h Hh. specialize (He h Hh).
    rewrite lookup_insert_ne; [exact He|].
    intros Heq. rewrite Heq, Hh in *. rewrite Hnew in He.
    destruct He as [? [=]].
  - intros h h' [= <-] Hh' Heq. specialize (He h' Hh').
    rewrite <- Heq, Hnew in He. destruct He as [? [=]].
Qed.

Lemma channels_ok_new_event (impl : Implementation) (f : JsFun)
    (name : string) (st : State) :
  allocates_free impl ->
  channels_ok st ->
  channels_ok
    (set_eventCallbackTsfn (Some (on_make_unique impl (trace st) (tsfns st)))
       (ThreadSafeFunction_New impl f name st).2).
Proof.
  intros Hfree (Ha & He & Hd). unfold channels_ok. cbn.
  pose proof (Hfree (trace st) (tsfns st)) as Hnew.
  split; [|split].
  - intros h Hh. specialize (Ha h Hh).
    rewrite lookup_insert_ne; [exact Ha|].
    intros Heq. rewrite Heq in Hnew. rewrite Hnew in Ha.
    destruct Ha as [? [=]].
  - intros h [= <-]. rewrite lookup_insert_eq. eauto.
  - intros h h' Hh [= <-] Heq. specialize (Ha h Hh).
    rewrite Heq, Hnew in Ha. destruct Ha as [? [=]].
Qed.

Lemma channels_ok_drop_audio (h : Tsfn) (st : State) :
  channels_ok st -> g_audioCallbackTsfn st = Some h ->
  channels_ok
    (set_audioCallbackTsfn None (delete_ThreadSafeFunction h (Release h st))).
Proof.
  intros (Ha & He & Hd) Hh. unfold channels_ok. cbn.
  split; [|split].
  - discriminate.
  - intros h' Hh'. rewrite lookup_delete_ne; [exact (He h' Hh')|].
    exact (Hd h h' Hh Hh').
  - discriminate.
Qed.

Lemma channels_ok_drop_event (h : Tsfn) (st : State) :
  channels_ok st -> g_eventCallbackTsfn st = Some h ->
  channels_ok
    (set_eventCallbackTsfn None (delete_ThreadSafeFunction h (Release h st))).
Proof.
  intros (Ha & He & Hd) Hh. unfold channels_ok. cbn.
  split; [|split].
  - intros h' Hh'. rewrite lookup_delete_ne; [exact (Ha h' Hh')|].
    intros Heq. exact (Hd h' h Hh' Hh (eq_sym Heq)).
  - discriminate.
  - discriminate.
Qed.

Lemma channels_ok_release_audioCallbackTsfn (st : State) :
  channels_ok st -> channels_ok (release_audioCallbackTsfn st).
Proof.
  intros H. unfold release_audioCallbackTsfn.
  destruct (g_audioCallbackTsfn st) as [h|] eqn:Hh; [|exact H].
  apply channels_ok_drop_audio; assumption.
Qed.

Lemma channels_ok_release_eventCallbackTsfn (st : State) :
  channels_ok st -> channels_ok (release_eventCallbackTsfn st).
Proof.
  intros H. unfold release_eventCallbackTsfn.
  destruct (g_eventCallbackTsfn st) as [h|] eqn:Hh; [|exact H].
  apply channels_ok_drop_event; assumption.
Qed.

Lemma channels_ok_log (e : Event) (st : State) :
  channels_ok st -> channels_ok (log e st).
Proof. intros H. exact H. Qed.

Lemma channels_ok_set_streams (m : gmap Z StreamInfo) (st : State) :
  channels_ok st -> channels_ok (set_streams m st).
Proof. intros H. exact H. Qed.

Lemma channels_ok_set_buffers (m : gmap Ptr (list float)) (st : State) :
  channels_ok st -> channels_ok (set_buffers m st).
Proof. intros H. exact H. Qed.

Lemma channels_ok_register (s : PaStream) (st : State) :
  channels_ok st -> channels_ok (register s st).2.
Proof. intros H. exact H. Qed.

Create HintDb channels.
#[local] Hint Resolve channels_ok_log channels_ok_set_streams
  channels_ok_set_buffers channels_ok_register
  channels_ok_release_audioCallbackTsfn
  channels_ok_release_eventCallbackTsfn : channels.

Lemma channels_ok_stop_all (pa : PortAudio) (l : list (Z * StreamInfo))
    (st : State) :
  channels_ok st ->
  channels_ok
    (fold_left
       (fun st kv =>
          let s := stream kv.2 in
          if s =? nullptr then st
          else (Pa_CloseStream pa s (Pa_StopStream pa s st).2).2)
       l st).
Proof.
  revert st. induction l as [|kv l IH]; intros st H; [exact H|].
  cbn [fold_left]. apply IH.
  cbv zeta. destruct (stream kv.2 =? nullptr); exact H.
Qed.

Lemma channels_ok_open_with_callback (impl : Implementation)
    (pa : PortAudio) (jsCallback : JsFun) (outputParams : PaStreamParameters)
    (sampleRate : double) (framesPerBuffer : Z) (st : State) :
  allocates_free impl ->
  channels_ok st ->
  channels_ok
    (open_with_callback impl pa jsCallback outputParams sampleRate
       framesPerBuffer st).2.
Proof.
  intros Hfree H. unfold open_with_callback.
  pose proof (channels_ok_new_audio impl jsCallback "AudioCallback" st Hfree H)
    as HN.
  unfold ThreadSafeFunction_New in *. cbn [snd] in HN. cbv beta iota zeta.
  unfold Pa_OpenStream, Pa_StartStream, Pa_CloseStream.
  destruct (on_Pa_OpenStream pa _ _ _ _ _) as [e_open s].
  state_cases; try exact HN;
    apply channels_ok_drop_audio; try reflexivity; exact HN.
Qed.

Lemma channels_ok_step (impl : Implementation) (pa : PortAudio) (c : Call)
    (st : State) :
  allocates_free impl ->
  channels_ok st -> channels_ok (step impl pa c st).
Proof.
  intros Hfree H.
  destruct c as [info|info|info|info|info|info|info|info|info|
                 output frameCount statusFlags userData];
    [cbn [step]..|].
  - unfold Init, Pa_Initialize. state_cases; exact H.
  - unfold Terminate, Pa_Terminate.
    state_cases; cbn [snd];
      auto 10 using channels_ok_stop_all with channels.
  - unfold OpenDefaultStream, Pa_OpenDefaultStream, Pa_StartStream,
      Pa_CloseStream.
    destruct (on_Pa_OpenDefaultStream pa _) as [e_open s].
    state_cases; exact H.
  - unfold OpenStream, Pa_GetDeviceCount, Pa_GetDeviceInfo, Pa_OpenStream,
      Pa_StartStream, Pa_CloseStream.
    state_cases; try exact H.
    all: destruct (on_Pa_OpenStream pa _ _ _ _ _) as [e_open s];
      state_cases; exact H.
  - unfold WriteStream, Pa_WriteStream. state_cases; exact H.
  - unfold CloseStream, Pa_StopStream, Pa_CloseStream.
    state_cases; auto 10 with channels.
  - unfold OpenStreamAsync, Pa_GetDefaultOutputDevice, Pa_GetDeviceInfo.
    state_cases; try exact H;
      apply channels_ok_open_with_callback; try exact Hfree; exact H.
  - unfold SetStreamEventCallback.
    destruct (arg info 0) as [| |f| | |]; try exact H.
    pose proof (channels_ok_new_event impl f "StreamEventCallback" _ Hfree
                  (channels_ok_release_eventCallbackTsfn st H)) as HN.
    unfold ThreadSafeFunction_New in *. exact HN.
  - unfold SetStreamVolume. state_cases; exact H.
  - exact (channels_ok_same_module _ _
             (step_AudioCallback_same_module impl pa _ _ _ _ st) H).
Qed.

(** In every state the addon can reach from [loaded], the pointer in a
    bound slot is that of an object that exists. *)
Lemma reachable_channels_ok (impl : Implementation) (pa : PortAudio)
    (calls : list Call) :
  allocates_free impl -> channels_ok (run impl pa calls loaded).
Proof.
  intros Hfree.
  apply (run_invariant impl pa channels_ok).
  - intros c st. apply channels_ok_step. exact Hfree.
  - unfold channels_ok, loaded. cbn. repeat split; discriminate.
Qed.

(** *** Closing a callback-driven stream *)

Lemma closed_trace (pa : PortAudio) (streamId : Z) (sinfo : StreamInfo)
    (st : State) :
  trace (closed pa streamId sinfo st)
  = (trace st
     ++ [EPa_StopStream (stream sinfo)]
     ++ (if on_Pa_StopStream pa (trace st) (stream sinfo) =? paNoError
         then [EPa_CloseStream (stream sinfo)] else [])
     ++ release_events (g_audioCallbackTsfn st)
     ++ release_events (g_eventCallbackTsfn st))%list.
Proof.
  unfold closed, release_eventCallbackTsfn, release_audioCallbackTsfn.
  cbv zeta.
  destruct (_ =? paNoError); cbn;
    destruct (g_audioCallbackTsfn st); cbn;
    destruct (g_eventCallbackTsfn st); cbn;
    rewrite <- ?app_assoc; cbn; rewrite ?app_nil_r; reflexivity.
Qed.

(** C3: closing a known id empties the fill slot and the event slot and
    releases and deletes the thread-safe functions they held: that much
    of the claim holds.  The fill invocation does not.  The callback
    calls through the pointer PortAudio was given when the stream was
    opened and never looks at the slot, so after the close it calls
    through a pointer whose object was deleted, which has no defined
    behaviour: it is not a return of [paAbort].  It can happen, since a
    stop that fails leaves the backend stream open ([Pa_CloseStream] is
    not called) while its entry and its thread-safe function are gone.
    And when the implementation places the thread-safe function of a
    later [setStreamEventCallback] at the address that was freed, the
    fill invocation returns [paContinue] and hands the output buffer to
    the event listener. *)
Theorem CloseStream_dangling_fill (impl : Implementation) (pa : PortAudio)
    (st : State) (id : double) (sinfo : StreamInfo) (h : Tsfn) :
  g_streams st !! Uint32Value id = Some sinfo ->
  g_audioCallbackTsfn st = Some h ->
  let st' := (CloseStream pa [JsNumber id] st).2 in
  (g_audioCallbackTsfn st' = None /\ g_eventCallbackTsfn st' = None)
  /\ tsfns st' !! h = None
  /\ (forall h', g_eventCallbackTsfn st = Some h' -> tsfns st' !! h' = None)
  /\ (on_Pa_StopStream pa (trace st) (stream sinfo) <> paNoError ->
      trace st'
      = (trace st
         ++ EPa_StopStream (stream sinfo) :: ETsfn_Release h
            :: release_events (g_eventCallbackTsfn st))%list)
  /\ (forall output frameCount statusFlags,
        AudioCallback impl output frameCount statusFlags h st' = None)
  /\ (forall listener output frameCount statusFlags,
        on_make_unique impl (trace st') (tsfns st') = h ->
        let st2 := (SetStreamEventCallback impl [JsFunction listener] st').2 in
        AudioCallback impl output frameCount statusFlags h st2
        = Some (paContinue,
                log_all
                  (ETsfn_BlockingCall h listener
                     (FillBuffer output
                        (to_unsigned_long impl (frameCount * 2)))
                   :: ((fun type =>
                          ETsfn_BlockingCall h listener (StreamEvent type ""))
                         <$> notifications statusFlags)) st2)).
Proof.
  intros Hid Hh st'. subst st'. rewrite (CloseStream_known pa st id sinfo Hid).
  cbn [snd].
  destruct (closed_slots pa (Uint32Value id) sinfo st)
    as (_ & Ha & He & Hta & Hte).
  split; [split; assumption|].
  split; [apply Hta; exact Hh|].
  split; [exact Hte|].
  split; [|split].
  - intros Hstop. rewrite closed_trace, Hh.
    apply Z.eqb_neq in Hstop. rewrite Hstop. reflexivity.
  - intros output frameCount statusFlags.
    apply AudioCallback_dangling. apply Hta. exact Hh.
  - intros listener output frameCount statusFlags Hnew. cbv zeta.
    unfold SetStreamEventCallback. cbn [arg nth].
    rewrite (release_eventCallbackTsfn_unbound _ He).
    unfold ThreadSafeFunction_New. rewrite Hnew. cbn [snd].
    rewrite (AudioCallback_live impl output frameCount statusFlags h listener)
      by (cbn; apply lookup_insert_eq).
    rewrite (emit_all_bound _ h listener)
      by (cbn; first [reflexivity | apply lookup_insert_eq]).
    cbn [fmap option_fmap option_map]. rewrite log_all_cons. reflexivity.
Qed.

(** *** The notifications of the real-time callback *)

(** C6: after handing over the fill request, a fill invocation emits one
    notification for each of the flags underflow, overflow and priming
    that is set, in that order, and nothing else.  With an event handler
    bound each of them is one call to that handler, so underflow and
    overflow together give exactly [outputUnderflow] then
    [outputOverflow]; with none bound they are dropped.  The hand-off
    itself goes through the pointer PortAudio passes: to the function of
    the object there, and without defined behaviour, for the whole
    invocation, where there is none. *)
Theorem AudioCallback_notifications (impl : Implementation) (output : Ptr)
    (frameCount statusFlags : Z) (userData : Tsfn) (st : State) :
  let st1 :=
    snd <$> BlockingCall userData
              (FillBuffer output (to_unsigned_long impl (frameCount * 2)))
              st in
  let st' :=
    snd <$> AudioCallback impl output frameCount statusFlags userData st in
  st' = st1 ≫= emit_all (notifications statusFlags)
  /\ (forall h f,
        g_eventCallbackTsfn st = Some h -> tsfns st !! h = Some f ->
        trace <$> st' =
          (fun s1 =>
             (trace s1
              ++ ((fun type => ETsfn_BlockingCall h f (StreamEvent type ""))
                    <$> notifications statusFlags))%list) <$> st1)
  /\ (g_eventCallbackTsfn st = None -> st' = st1)
  /\ (forall fill,
        tsfns st !! userData = Some fill ->
        st1 = Some (log (ETsfn_BlockingCall userData fill
                           (FillBuffer output
                              (to_unsigned_long impl (frameCount * 2)))) st))
  /\ (tsfns st !! userData = None -> st' = None).
Proof.
  intros st1 st'. subst st1 st'.
  rewrite AudioCallback_unfold. unfold BlockingCall.
  destruct (tsfns st !! userData) as [fill|] eqn:Hlive;
    cbn [fmap option_fmap option_map mbind option_bind fst snd].
  - set (s1 := log _ st).
    split; [destruct (emit_all _ s1); reflexivity|].
    split.
    { intros h f Hb Hl. rewrite (emit_all_bound _ h f s1 Hb Hl).
      reflexivity. }
    split.
    { intros Hn. rewrite (emit_all_unbound _ s1 Hn). reflexivity. }
    split; [intros fill' [= <-]; reflexivity | discriminate].
  - split; [reflexivity|]. split; [reflexivity|]. split; [reflexivity|].
    split; [discriminate | reflexivity].
Qed.

(** *** Opening a callback-driven stream *)

Lemma open_with_callback_outcome (impl : Implementation) (pa : PortAudio)
    (jsCallback : JsFun) (outputParams : PaStreamParameters)
    (sampleRate : double) (framesPerBuffer : Z) (st0 st : State) :
  tsfns st0 = tsfns st ->
  g_streams st0 = g_streams st ->
  g_nextStreamId st0 = g_nextStreamId st ->
  g_eventCallbackTsfn st0 = g_eventCallbackTsfn st ->
  callback_stream_outcome impl pa jsCallback outputParams sampleRate
    framesPerBuffer (trace st0) st
    (open_with_callback impl pa jsCallback outputParams sampleRate
       framesPerBuffer st0).
Proof.
  intros Hobjects Hstreams Hid Hevent.
  unfold callback_stream_outcome, open_with_callback, ThreadSafeFunction_New,
    Pa_OpenStream, Pa_StartStream, Pa_CloseStream, Release,
    delete_ThreadSafeFunction, register, next_id.
  cbn [trace log set_tsfns set_audioCallbackTsfn].
  rewrite <- Hobjects, <- Hstreams, <- Hid, <- Hevent.
  destruct (on_Pa_OpenStream pa _ outputParams sampleRate framesPerBuffer _)
    as [e_open s].
  cbn [fst snd].
  destruct (negb (e_open =? paNoError)).
  { cbn. rewrite <- !app_assoc. repeat split. apply lookup_delete_eq. }
  cbn [trace log set_tsfns set_audioCallbackTsfn].
  destruct (negb (on_Pa_StartStream pa _ s =? paNoError)).
  { cbn. rewrite <- !app_assoc. repeat split. apply lookup_delete_eq. }
  cbn. rewrite <- !app_assoc. repeat split. apply lookup_insert_eq.
Qed.

(** Reading a property that is absent or a number never fails. *)
Lemma get_number_numeric {A : Type} (property : option JsValue)
    (conv : double -> A) (absent : A) :
  (forall v, property = Some v -> IsNumber v = true) ->
  get_number property conv absent
  = inr (match property with
         | Some v => conv (as_number v)
         | None => absent
         end).
Proof.
  intros H. destruct property as [v|]; [|reflexivity].
  specialize (H v eq_refl). destruct v; try discriminate. reflexivity.
Qed.

(** C7: [openStreamAsync], called with no stream open, an options object
    whose properties are numbers where present and a fill callback,
    first asks the backend at most for the default device and the
    device's latency, then creates the thread-safe function of the fill
    callback and stores it in the fill slot, and only then opens the
    backend stream, with that thread-safe function as its callback data,
    and starts it.  If the open fails, or the start fails (the stream is
    then closed), the thread-safe function is released and deleted, the
    fill slot is emptied, the registry is left empty and the backend's
    error is raised. *)
Theorem OpenStreamAsync_binds_first (impl : Implementation) (pa : PortAudio)
    (st : State) (opts : JsValue) (jsCallback : JsFun) :
  g_streams st = ∅ ->
  IsObject opts = true ->
  numeric (as_options opts) ->
  exists queries outputParams sampleRate framesPerBuffer,
    Forall is_query queries
    /\ callback_stream_outcome impl pa jsCallback outputParams sampleRate
         framesPerBuffer (trace st ++ queries)%list st
         (OpenStreamAsync impl pa [opts; JsFunction jsCallback] st).
Proof.
  intros Hempty Hobj (Hd & Hc & Hr & Hf & Hl). unfold OpenStreamAsync.
  rewrite Hempty, map_size_empty. cbn [Nat.ltb Nat.leb arg nth].
  rewrite Hobj.
  rewrite (get_number_numeric _ _ _ Hc), (get_number_numeric _ _ _ Hr),
    (get_number_numeric _ _ _ Hf), (get_number_numeric _ _ _ Hl).
  unfold Pa_GetDefaultOutputDevice, Pa_GetDeviceInfo.
  destruct (opt_device (as_options opts)) as [v|];
    [specialize (Hd v eq_refl); destruct v; try discriminate;
     cbn [Number_value]|];
    destruct (SFltb F64.zero _).
  - exists []. do 3 eexists. split; [constructor|].
    rewrite app_nil_r.
    apply open_with_callback_outcome; reflexivity.
  - exists [EPa_GetDeviceInfo (Int32Value d)]. do 3 eexists.
    split; [repeat constructor|].
    apply (open_with_callback_outcome impl pa jsCallback _ _ _
             (log (EPa_GetDeviceInfo (Int32Value d)) st) st);
      reflexivity.
  - exists [EPa_GetDefaultOutputDevice]. do 3 eexists.
    split; [repeat constructor|].
    apply (open_with_callback_outcome impl pa jsCallback _ _ _
             (log EPa_GetDefaultOutputDevice st) st);
      reflexivity.
  - exists [EPa_GetDefaultOutputDevice;
            EPa_GetDeviceInfo (on_Pa_GetDefaultOutputDevice pa (trace st))].
    do 3 eexists. split; [repeat constructor|].
    change [EPa_GetDefaultOutputDevice;
            EPa_GetDeviceInfo (on_Pa_GetDefaultOutputDevice pa (trace st))]
      with ([EPa_GetDefaultOutputDevice]
            ++ [EPa_GetDeviceInfo
                  (on_Pa_GetDefaultOutputDevice pa (trace st))])%list.
    rewrite app_assoc.
    apply (open_with_callback_outcome impl pa jsCallback _ _ _
             (log (EPa_GetDeviceInfo
                     (on_Pa_GetDefaultOutputDevice pa (trace st)))
                (log EPa_GetDefaultOutputDevice st)) st);
      reflexivity.
Qed.

(** ** The theorems at concrete inputs *)

Lemma SetStreamVolume_clamps_witness :
  (g_streams one_stream !! Uint32Value (F64.of_Z 1)
   = Some {| stream := 4096; volume := F32.one |}
   /\ exists st',
        SetStreamVolume [num 1; num 3] one_stream = (Return JsUndefined, st')
        /\ volume <$> GetStreamInfoById (Uint32Value (F64.of_Z 1)) st'
           = Some F32.two)
  /\ (g_streams one_stream !! Uint32Value (F64.of_Z 7) = None
      /\ SetStreamVolume [num 7; num 3] one_stream
         = (Throw NotFound, one_stream)).
Proof.
  split.
  - split; [vm_compute; reflexivity|].
    apply (proj1 (SetStreamVolume_clamps one_stream (F64.of_Z 1) (F64.of_Z 3))
             {| stream := 4096; volume := F32.one |}).
    vm_compute; reflexivity.
  - split; [vm_compute; reflexivity|].
    apply (proj2 (SetStreamVolume_clamps one_stream (F64.of_Z 7) (F64.of_Z 3))).
    vm_compute; reflexivity.
Defined.

Lemma SetStreamVolume_frame_witness :
  g_streams one_stream !! Uint32Value (F64.of_Z 1)
  = Some {| stream := 4096; volume := F32.one |}
  /\ stream <$> g_streams one_stream_loud !! 1 = Some 4096
  /\ trace one_stream_loud = trace one_stream.
Proof.
  split; [vm_compute; reflexivity|].
  pose proof (SetStreamVolume_frame one_stream (F64.of_Z 1) (F64.of_Z 3)
                {| stream := 4096; volume := F32.one |}) as H.
  destruct H as (Hs & _ & _ & _ & _ & _ & _ & _ & Ht);
    [vm_compute; reflexivity|].
  split; [exact Hs | exact Ht].
Defined.

Lemma WriteStream_volume_witness :
  (volume {| stream := 4096; volume := F32.two |} = F32.two
   /\ exists data,
        trace (WriteStream pa_ok [JsBuffer 7%nat; num 1]
                 (with_samples one_stream_loud)).2
        = (trace (with_samples one_stream_loud)
           ++ [EPa_WriteStream 4096 data 2])%list
        /\ length data = 4%nat
        /\ forall i x,
             [F32.one; F32.one; F32.one; F32.one] !! i = Some x ->
             data !! i = Some (F32.mul x F32.two)
             /\ (F32.valid x = true -> F32.below_overflow x = true ->
                 F32.units (F32.mul x F32.two) = 2 * F32.units x))
  /\ (volume {| stream := 4096; volume := F32.one |} = F32.one
      /\ trace (WriteStream pa_ok [JsBuffer 7%nat; num 1]
                  (with_samples one_stream)).2
         = (trace (with_samples one_stream)
            ++ [EPa_WriteStream 4096 [F32.one; F32.one; F32.one; F32.one] 2])
           %list
      /\ buffers (WriteStream pa_ok [JsBuffer 7%nat; num 1]
                    (with_samples one_stream)).2
         = buffers (with_samples one_stream)).
Proof.
  split.
  - split; [reflexivity|].
    apply (proj1 (WriteStream_volume pa_ok (with_samples one_stream_loud)
                    (JsBuffer 7%nat) (F64.of_Z 1) 7%nat
                    [F32.one; F32.one; F32.one; F32.one]
                    {| stream := 4096; volume := F32.two |}
                    ltac:(vm_compute; reflexivity)
                    ltac:(left; reflexivity)
                    ltac:(vm_compute; reflexivity)
                    ltac:(discriminate))).
    reflexivity.
  - split; [reflexivity|].
    apply (proj2 (WriteStream_volume pa_ok (with_samples one_stream)
                    (JsBuffer 7%nat) (F64.of_Z 1) 7%nat
                    [F32.one; F32.one; F32.one; F32.one]
                    {| stream := 4096; volume := F32.one |}
                    ltac:(vm_compute; reflexivity)
                    ltac:(left; reflexivity)
                    ltac:(vm_compute; reflexivity)
                    ltac:(discriminate))).
    reflexivity.
Defined.

Lemma WriteStream_frame_count_witness :
  (WriteStream pa_ok [JsBuffer 7%nat; num 1] (with_samples one_stream_loud)).1
  = Return JsUndefined
  /\ exists sinfo p samples data,
       g_streams (with_samples one_stream_loud) !! 1 = Some sinfo
       /\ samples_at (JsBuffer 7%nat) p
       /\ buffers (with_samples one_stream_loud) !! p = Some samples
       /\ length data = length samples
       /\ trace (WriteStream pa_ok [JsBuffer 7%nat; num 1]
                   (with_samples one_stream_loud)).2
          = (trace (with_samples one_stream_loud)
             ++ [EPa_WriteStream (stream sinfo) data
                   (Z.of_nat (length samples) / 2)])%list.
Proof.
  split; [vm_compute; reflexivity|].
  apply (WriteStream_frame_count pa_ok [JsBuffer 7%nat; num 1]
           (with_samples one_stream_loud) _ JsUndefined).
  vm_compute; reflexivity.
Defined.

(** [openStream(-1, 44100, 2, 256)]. *)
Lemma OpenStream_validates_witness :
  Int32Value (F64.of_Z (-1)) < 0
  /\ exists e st',
       OpenStream pa_ok [num (-1); num 44100; num 2; num 256] loaded
       = (Throw e, st')
       /\ InvalidArgument e
       /\ trace st' = (trace loaded ++ [EPa_GetDeviceCount])%list
       /\ g_streams st' = g_streams loaded
       /\ g_nextStreamId st' = g_nextStreamId loaded
       /\ g_audioCallbackTsfn st' = g_audioCallbackTsfn loaded
       /\ g_eventCallbackTsfn st' = g_eventCallbackTsfn loaded.
Proof.
  split; [vm_compute; reflexivity|].
  apply (OpenStream_validates pa_ok loaded (F64.of_Z (-1)) (F64.of_Z 44100)
           (F64.of_Z 2) (F64.of_Z 256)).
  left. vm_compute. reflexivity.
Defined.

Lemma CloseStream_teardown_witness :
  (g_streams one_stream !! Uint32Value (F64.of_Z 7) = None
   /\ CloseStream pa_stop_fails [num 7] one_stream
      = (Return JsUndefined, one_stream))
  /\ (g_streams one_stream !! Uint32Value (F64.of_Z 1)
      = Some {| stream := 4096; volume := F32.one |}
      /\ g_streams (CloseStream pa_stop_fails [num 1] one_stream).2
         = delete (Uint32Value (F64.of_Z 1)) (g_streams one_stream)
      /\ (CloseStream pa_stop_fails [num 1] one_stream).1
         = Throw (BackendError "Internal PortAudio error")).
Proof.
  split.
  - split; [vm_compute; reflexivity|].
    apply (proj1 (CloseStream_teardown pa_stop_fails one_stream (F64.of_Z 7))).
    vm_compute; reflexivity.
  - split; [vm_compute; reflexivity|].
    pose proof (proj2 (CloseStream_teardown pa_stop_fails one_stream
                         (F64.of_Z 1))
                  {| stream := 4096; volume := F32.one |}) as H.
    destruct H as (Hs & _ & _ & Hr); [vm_compute; reflexivity|].
    split; [exact Hs | exact Hr].
Defined.

(** [closeStream(1)] on the callback-driven stream, the stop failing;
    then the next buffer period; then [setStreamEventCallback(listener)]
    and another buffer period. *)
Lemma CloseStream_dangling_fill_witness :
  g_streams async_stream !! Uint32Value (F64.of_Z 1)
  = Some {| stream := 4099; volume := F32.one |}
  /\ g_audioCallbackTsfn async_stream = Some 0%nat
  /\ on_Pa_StopStream pa_stop_fails (trace async_stream) 4099 <> paNoError
  /\ trace (CloseStream pa_stop_fails [num 1] async_stream).2
     = (trace async_stream ++ [EPa_StopStream 4099; ETsfn_Release 0%nat])%list
  /\ AudioCallback lp64 64%nat 256 0 0%nat
       (CloseStream pa_stop_fails [num 1] async_stream).2 = None
  /\ on_make_unique lp64
       (trace (CloseStream pa_stop_fails [num 1] async_stream).2)
       (tsfns (CloseStream pa_stop_fails [num 1] async_stream).2) = 0%nat
  /\ fst <$> AudioCallback lp64 64%nat 256 0 0%nat
               (SetStreamEventCallback lp64 [JsFunction 9%nat]
                  (CloseStream pa_stop_fails [num 1] async_stream).2).2
     = Some paContinue
  /\ trace <$> (snd <$> AudioCallback lp64 64%nat 256 0 0%nat
                          (SetStreamEventCallback lp64 [JsFunction 9%nat]
                             (CloseStream pa_stop_fails [num 1]
                                async_stream).2).2)
     = Some (trace async_stream
             ++ [EPa_StopStream 4099; ETsfn_Release 0%nat;
                 ETsfn_New 0%nat 9%nat "StreamEventCallback";
                 ETsfn_BlockingCall 0%nat 9%nat (FillBuffer 64%nat 512)])%list.
Proof.
  assert (Hk : g_streams async_stream !! Uint32Value (F64.of_Z 1)
               = Some {| stream := 4099; volume := F32.one |})
    by (vm_compute; reflexivity).
  assert (Hh : g_audioCallbackTsfn async_stream = Some 0%nat)
    by (vm_compute; reflexivity).
  assert (Hstop : on_Pa_StopStream pa_stop_fails (trace async_stream) 4099
                  <> paNoError) by (vm_compute; discriminate).
  assert (Hnew : on_make_unique lp64
                   (trace (CloseStream pa_stop_fails [num 1] async_stream).2)
                   (tsfns (CloseStream pa_stop_fails [num 1] async_stream).2)
                 = 0%nat) by (vm_compute; reflexivity).
  pose proof (CloseStream_dangling_fill lp64 pa_stop_fails async_stream
                (F64.of_Z 1) _ 0%nat Hk Hh)
    as (_ & _ & _ & Htrace & Hfill & Hreuse).
  split; [exact Hk|]. split; [exact Hh|]. split; [exact Hstop|].
  split; [exact (Htrace Hstop)|]. split; [apply Hfill|].
  split; [exact Hnew|].
  unfold num, Number_New.
  rewrite (Hreuse 9%nat 64%nat 256 0 Hnew).
  split; vm_compute; reflexivity.
Defined.

(** Underflow and overflow in one period, with a listener bound. *)
Lemma AudioCallback_notifications_witness :
  g_eventCallbackTsfn listening = Some 1%nat
  /\ tsfns listening !! 1%nat = Some 9%nat
  /\ trace <$> (snd <$> AudioCallback lp64 64%nat 256
                          (Z.lor paOutputUnderflow paOutputOverflow) 0%nat
                          listening)
     = Some (trace listening
             ++ [ETsfn_BlockingCall 0%nat 5%nat (FillBuffer 64%nat 512);
                 ETsfn_BlockingCall 1%nat 9%nat
                   (StreamEvent "outputUnderflow" "");
                 ETsfn_BlockingCall 1%nat 9%nat
                   (StreamEvent "outputOverflow" "")])%list.
Proof.
  split; [vm_compute; reflexivity|].
  split; [vm_compute; reflexivity|].
  pose proof (AudioCallback_notifications lp64 64%nat 256
                (Z.lor paOutputUnderflow paOutputOverflow) 0%nat listening)
    as (_ & Hbound & _).
  rewrite (Hbound 1%nat 9%nat) by (vm_compute; reflexivity).
  vm_compute. reflexivity.
Defined.

Lemma OpenStreamAsync_binds_first_witness :
  g_streams loaded = ∅
  /\ IsObject (JsObject no_options) = true
  /\ numeric (as_options (JsObject no_options))
  /\ exists queries outputParams sampleRate framesPerBuffer,
       Forall is_query queries
       /\ callback_stream_outcome lp64 pa_start_fails 5%nat outputParams
            sampleRate framesPerBuffer (trace loaded ++ queries)%list loaded
            (OpenStreamAsync lp64 pa_start_fails
               [JsObject no_options; JsFunction 5%nat] loaded).
Proof.
  assert (Hnum : numeric (as_options (JsObject no_options)))
    by (repeat split; intros v; discriminate).
  split; [reflexivity|]. split; [reflexivity|]. split; [exact Hnum|].
  apply (OpenStreamAsync_binds_first lp64 pa_start_fails loaded
           (JsObject no_options) 5%nat); [reflexivity | reflexivity |].
  exact Hnum.
Defined.

(** *** The calls above, evaluated *)

Example openDefaultStream_returns_1 :
  (OpenDefaultStream pa_ok [] loaded).1 = Return (num 1).
Proof. vm_compute. reflexivity. Qed.

Example setStreamVolume_3_reads_2 :
  volume <$> GetStreamInfoById 1 one_stream_loud = Some F32.two.
Proof. vm_compute. reflexivity. Qed.

Example writeStream_four_samples :
  trace (WriteStream pa_ok [JsBuffer 7%nat; num 1]
           (with_samples one_stream_loud)).2
  = (trace one_stream_loud
     ++ [EPa_WriteStream 4096 [F32.two; F32.two; F32.two; F32.two] 2])%list.
Proof. vm_compute. reflexivity. Qed.

Example writeStream_after_close :
  (WriteStream pa_ok [JsBuffer 7%nat; num 1]
     (CloseStream pa_ok [num 1] (with_samples one_stream_loud)).2).1
  = Throw NotFound.
Proof. vm_compute. reflexivity. Qed.

Example openStream_bad_device :
  (OpenStream pa_ok [num (-1); num 44100; num 2; num 256] loaded).1
  = Throw (Error "Invalid device index: -1. Available devices: 0-1").
Proof. vm_compute. reflexivity. Qed.

Example openStreamAsync_start_fails :
  let r := OpenStreamAsync lp64 pa_start_fails
             [JsObject no_options; JsFunction 5%nat] loaded in
  r.1 = Throw (BackendError "Device unavailable")
  /\ trace r.2
     = [EPa_GetDefaultOutputDevice; EPa_GetDeviceInfo 0;
        ETsfn_New 0%nat 5%nat "AudioCallback";
        EPa_OpenStream
          {| device := 0; channelCount := 2; sampleFormat := paFloat32;
             suggestedLatency := latency_fallback |}
          (F64.of_Z 44100) 256 paNoFlag (Some 0%nat);
        EPa_StartStream 4099; EPa_CloseStream 4099; ETsfn_Release 0%nat]
  /\ g_audioCallbackTsfn r.2 = None
  /\ g_streams r.2 !! 1 = None.
Proof. vm_compute. repeat split. Qed.

(** ** Further properties of the addon *)

(** *** Opening a blocking stream *)

(** X1: [openStream] with four numbers that pass the validation (a device
    index within the device count, channels > 0, a sample rate that is
    not <= 0, which lets NaN through, and framesPerBuffer <> 0) asks for
    the device's default low output latency and opens a float32 output
    stream with it.  If the open fails the error is raised with the
    prefix of [Pa_OpenStream] and nothing else happens; if the start
    fails the stream is closed again and the error raised with the
    prefix of [Pa_StartStream]; in neither case is a stream registered or
    an id used up.  Otherwise the stream is registered under the next id
    with volume 1.0, the id is returned and the counter moves on. *)
Theorem OpenStream_outcome (pa : PortAudio) (st : State)
    (deviceIndex sampleRate channels framesPerBuffer : double)
    (devInfo : PaDeviceInfo) :
  0 <= Int32Value deviceIndex < on_Pa_GetDeviceCount pa (trace st) ->
  0 < Int32Value channels ->
  SFleb sampleRate F64.zero = false ->
  Uint32Value framesPerBuffer <> 0 ->
  on_Pa_GetDeviceInfo pa (trace st ++ [EPa_GetDeviceCount])%list
    (Int32Value deviceIndex) = Some devInfo ->
  let outputParams :=
    {| device := Int32Value deviceIndex;
       channelCount := Int32Value channels;
       sampleFormat := paFloat32;
       suggestedLatency := defaultLowOutputLatency devInfo |} in
  let t :=
    (trace st
     ++ [EPa_GetDeviceCount; EPa_GetDeviceInfo (Int32Value deviceIndex)])%list
  in
  blocking_stream_outcome pa "PortAudio error in Pa_OpenStream: "
    "PortAudio error in Pa_StartStream: "
    (EPa_OpenStream outputParams sampleRate (Uint32Value framesPerBuffer)
       paNoFlag None)
    (on_Pa_OpenStream pa t outputParams sampleRate
       (Uint32Value framesPerBuffer) None)
    t st
    (OpenStream pa
       [JsNumber deviceIndex; JsNumber sampleRate; JsNumber channels;
        JsNumber framesPerBuffer] st).
Proof.
  intros [Hlo Hhi] Hch Hrate Hfr Hinfo outputParams t.
  unfold OpenStream.
  cbn [length arg nth IsNumber as_number Nat.ltb Nat.leb negb orb].
  unfold Pa_GetDeviceCount, DoubleValue.
  replace (Int32Value deviceIndex <? 0) with false
    by (symmetry; apply Z.ltb_ge; lia).
  replace (on_Pa_GetDeviceCount pa (trace st) <=? Int32Value deviceIndex)
    with false by (symmetry; apply Z.leb_gt; lia).
  replace (Int32Value channels <=? 0) with false
    by (symmetry; apply Z.leb_gt; lia).
  rewrite Hrate.
  replace (Uint32Value framesPerBuffer =? 0) with false
    by (symmetry; apply Z.eqb_neq; exact Hfr).
  cbn [orb]. unfold Pa_GetDeviceInfo. cbn [trace log]. rewrite Hinfo.
  unfold Pa_OpenStream, Pa_StartStream, Pa_CloseStream, register, next_id,
    blocking_stream_outcome.
  subst t. fold outputParams.
  cbn [trace log fst snd]. rewrite <- !app_assoc. cbn [app].
  destruct (on_Pa_OpenStream pa _ outputParams sampleRate _ None)
    as [e_open s].
  cbn [fst snd].
  destruct (negb (e_open =? paNoError));
    [cbn; rewrite <- ?app_assoc; repeat split; reflexivity|].
  destruct (negb (on_Pa_StartStream pa _ s =? paNoError));
    cbn; rewrite <- ?app_assoc; repeat split; reflexivity.
Qed.

(** X2: [openDefaultStream], called with no stream open, opens the
    default output with two float32 channels at 44100 Hz and 256 frames
    per buffer.  A failed open raises the backend's text and changes
    nothing; a failed start closes the stream again and raises; in
    neither case is a stream registered or an id used up.  Otherwise the
    stream is registered under the next id with volume 1.0 and that id is
    returned.  The arguments of the call are never looked at. *)
Theorem OpenDefaultStream_outcome (pa : PortAudio) (info : list JsValue)
    (st : State) :
  g_streams st = ∅ ->
  blocking_stream_outcome pa "" ""
    (EPa_OpenDefaultStream 0 2 paFloat32 (F64.of_Z 44100) 256)
    (on_Pa_OpenDefaultStream pa (trace st)) (trace st) st
    (OpenDefaultStream pa info st).
Proof.
  intros Hempty. unfold OpenDefaultStream.
  rewrite Hempty, map_size_empty. cbn [Nat.ltb Nat.leb].
  unfold Pa_OpenDefaultStream, Pa_StartStream, Pa_CloseStream, register,
    next_id, blocking_stream_outcome.
  cbn [trace log fst snd].
  destruct (on_Pa_OpenDefaultStream pa (trace st)) as [e_open s].
  cbn [fst snd].
  destruct (negb (e_open =? paNoError));
    [cbn; rewrite <- ?app_assoc; repeat split; reflexivity|].
  destruct (negb (on_Pa_StartStream pa _ s =? paNoError));
    cbn; rewrite <- ?app_assoc; repeat split; try reflexivity;
    rewrite Hempty; reflexivity.
Qed.

(** *** Rejected calls *)

(** A conversion that fails, fails with [number_expected]. *)
Lemma get_number_cases {A : Type} (property : option JsValue)
    (conv : double -> A) (absent : A) :
  (exists a, get_number property conv absent = inr a)
  \/ get_number property conv absent = inl number_expected.
Proof.
  destruct property as [v|]; [|left; eexists; reflexivity].
  destruct v; cbn; first [left; eexists; reflexivity | right; reflexivity].
Qed.

(** Once the options are read, [openStreamAsync] raises no
    [TypeError]. *)
Lemma open_with_callback_no_TypeError (impl : Implementation)
    (pa : PortAudio) (jsCallback : JsFun) (outputParams : PaStreamParameters)
    (sampleRate : double) (framesPerBuffer : Z) (st : State) (msg : string) :
  (open_with_callback impl pa jsCallback outputParams sampleRate
     framesPerBuffer st).1 <> Throw (TypeError msg).
Proof.
  unfold open_with_callback, ThreadSafeFunction_New, Pa_OpenStream,
    Pa_StartStream, Pa_CloseStream, register, next_id.
  cbv beta iota zeta.
  destruct (on_Pa_OpenStream pa _ _ _ _ _) as [e_open s].
  destruct (negb (e_open =? paNoError)); [discriminate|].
  destruct (negb (_ =? paNoError)); discriminate.
Qed.

(** Where [openStreamAsync] is when it raises a [TypeError]: it has done
    nothing, or it has asked for the default output device and then met
    an option that is not a number. *)
Lemma OpenStreamAsync_TypeError (impl : Implementation) (pa : PortAudio)
    (info : list JsValue) (st : State) (msg : string) :
  (OpenStreamAsync impl pa info st).1 = Throw (TypeError msg) ->
  (OpenStreamAsync impl pa info st).2 = st
  \/ (msg = "A number was expected"
      /\ opt_device (as_options (arg info 0)) = None
      /\ (OpenStreamAsync impl pa info st).2
         = log EPa_GetDefaultOutputDevice st).
Proof.
  unfold OpenStreamAsync.
  destruct (0 <? size (g_streams st))%nat; [left; reflexivity|].
  destruct (IsObject (arg info 0)); [|left; reflexivity].
  destruct (arg info 1) as [| |jsCallback| | |]; try (left; reflexivity).
  set (o := as_options (arg info 0)).
  assert (Hrest : forall (dev : Z) (st1 : State),
    st1 = st
    \/ (opt_device o = None /\ st1 = log EPa_GetDefaultOutputDevice st) ->
    forall r : Completion * State,
    r = match get_number (opt_channels o) Int32Value 2 with
        | inl e => (Throw e, st1)
        | inr channels =>
        match get_number (opt_sampleRate o) DoubleValue (F64.of_Z 44100) with
        | inl e => (Throw e, st1)
        | inr sampleRate =>
        match get_number (opt_framesPerBuffer o) Uint32Value 256 with
        | inl e => (Throw e, st1)
        | inr framesPerBuffer =>
        match get_number (opt_suggestedLatency o) DoubleValue F64.zero with
        | inl e => (Throw e, st1)
        | inr latency =>
            let '(latency, st2) :=
              if SFltb F64.zero latency then (latency, st1)
              else
                let '(devInfo, st2) := Pa_GetDeviceInfo pa dev st1 in
                (match devInfo with
                 | Some devInfo => defaultLowOutputLatency devInfo
                 | None => latency_fallback
                 end, st2) in
            open_with_callback impl pa jsCallback
              {| device := dev; channelCount := channels;
                 sampleFormat := paFloat32; suggestedLatency := latency |}
              sampleRate framesPerBuffer st2
        end end end end ->
    r.1 = Throw (TypeError msg) ->
    r.2 = st
    \/ (msg = "A number was expected"
        /\ opt_device o = None /\ r.2 = log EPa_GetDefaultOutputDevice st)).
  { intros dev st1 Hst1 r -> .
    assert (Hfail : (Throw number_expected, st1).1 = Throw (TypeError msg) ->
              (Throw number_expected, st1).2 = st
              \/ (msg = "A number was expected"
                  /\ opt_device o = None
                  /\ (Throw number_expected, st1).2
                     = log EPa_GetDefaultOutputDevice st)).
    { cbn [fst snd]. intros [= <-].
      destruct Hst1 as [->|[Hdev ->]]; [left | right]; auto. }
    destruct (get_number_cases (opt_channels o) Int32Value 2)
      as [[channels ->]| ->]; [|exact Hfail].
    destruct (get_number_cases (opt_sampleRate o) DoubleValue
                (F64.of_Z 44100)) as [[sampleRate ->]| ->]; [|exact Hfail].
    destruct (get_number_cases (opt_framesPerBuffer o) Uint32Value 256)
      as [[framesPerBuffer ->]| ->]; [|exact Hfail].
    destruct (get_number_cases (opt_suggestedLatency o) DoubleValue F64.zero)
      as [[latency ->]| ->]; [|exact Hfail].
    intros Hr. exfalso. revert Hr.
    destruct (SFltb F64.zero latency); [|unfold Pa_GetDeviceInfo];
      apply open_with_callback_no_TypeError. }
  destruct (opt_device o) as [v|] eqn:Hdev.
  - destruct (Number_value v) as [e|d]; [left; reflexivity|].
    intros Hr.
    destruct (Hrest (Int32Value d) st (or_introl eq_refl) _ eq_refl Hr)
      as [Hs|(_ & [=] & _)].
    left. exact Hs.
  - unfold Pa_GetDefaultOutputDevice.
    apply (Hrest _ _ (or_intror (conj eq_refl eq_refl)) _ eq_refl).
Qed.

(** X3: when one of the exported functions ends in a [TypeError], the
    state is the one before the call: no stream was opened, written or
    closed, and the registry, the callback slots and the caller's
    buffers are untouched.  There is one exception.  [openStreamAsync]
    converts the values of its options only after it has asked the
    backend for the default output device, which it does when the device
    is not among the options; the [TypeError] for an option that is not
    a number then comes with that one query made. *)
Theorem TypeError_no_effect (impl : Implementation) (pa : PortAudio)
    (f : list JsValue -> State -> Completion * State) (info : list JsValue)
    (st : State) (msg : string) :
  f ∈ exports impl pa ->
  (f info st).1 = Throw (TypeError msg) ->
  (f info st).2 = st
  \/ (msg = "A number was expected"
      /\ opt_device (as_options (arg info 0)) = None
      /\ (f info st).2 = log EPa_GetDefaultOutputDevice st).
Proof.
  intros Hf.
  set (P := fun r : Completion * State =>
              r.1 = Throw (TypeError msg) -> r.2 = st).
  assert (Hleft : P (f info st) ->
            (f info st).1 = Throw (TypeError msg) ->
            (f info st).2 = st
            \/ (msg = "A number was expected"
                /\ opt_device (as_options (arg info 0)) = None
                /\ (f info st).2 = log EPa_GetDefaultOutputDevice st)).
  { intros HP Hr. left. exact (HP Hr). }
  unfold exports in Hf.
  repeat (apply elem_of_cons in Hf as [->|Hf]); [..|inversion Hf].
  - apply Hleft. unfold Init, Pa_Initialize. state_cases; unfold P; cbn; congruence.
  - apply Hleft. unfold Terminate, Pa_Terminate. state_cases; unfold P; cbn; congruence.
  - apply Hleft. unfold OpenDefaultStream, Pa_OpenDefaultStream, Pa_StartStream,
      Pa_CloseStream, register, next_id.
    state_cases; unfold P; cbn; congruence.
  - apply Hleft. unfold OpenStream, Pa_GetDeviceCount, Pa_GetDeviceInfo, Pa_OpenStream,
      Pa_StartStream, Pa_CloseStream, register, next_id.
    state_cases; unfold P; cbn; congruence.
  - apply Hleft. unfold WriteStream, Pa_WriteStream.
    state_cases; unfold P; cbn; congruence.
  - apply Hleft. unfold CloseStream, Pa_StopStream, Pa_CloseStream.
    state_cases; unfold P; cbn; congruence.
  - apply OpenStreamAsync_TypeError.
  - apply Hleft. unfold SetStreamEventCallback, ThreadSafeFunction_New.
    state_cases; unfold P; cbn; congruence.
  - apply Hleft. unfold SetStreamVolume. state_cases; unfold P; cbn; congruence.
Qed.

(** *** The blocking write path, continued *)

(** X4: [writeStream] looks up the stream before it looks at the buffer:
    for an unknown id it fails with [NotFound] whatever the first
    argument is.  For a known id, a [Buffer], a [Uint8Array] or a
    [Float32Array] without storage or with no samples fails with the
    Empty buffer error; any other typed array gives the [TypeError]
    "Expected Float32Array", and a value that is no typed array at all
    the [TypeError] "Expected Buffer or Float32Array".  In all these
    cases the backend is not called and nothing changes. *)
Theorem WriteStream_rejects (pa : PortAudio) (st : State) (buf : JsValue)
    (id : double) :
  (g_streams st !! Uint32Value id = None ->
   WriteStream pa [buf; JsNumber id] st = (Throw NotFound, st))
  /\ (forall sinfo p,
        g_streams st !! Uint32Value id = Some sinfo ->
        samples_at buf p ->
        buffers st !! p = None \/ buffers st !! p = Some [] ->
        WriteStream pa [buf; JsNumber id] st
        = (Throw (Error "Empty buffer"), st))
  /\ (forall sinfo,
        g_streams st !! Uint32Value id = Some sinfo ->
        (forall p, ~ samples_at buf p) ->
        WriteStream pa [buf; JsNumber id] st
        = (Throw (TypeError (if IsTypedArray buf
                             then "Expected Float32Array"
                             else "Expected Buffer or Float32Array")), st)).
Proof.
  split; [|split].
  - intros Hid. unfold WriteStream, GetStreamInfoById.
    cbn [length arg nth IsNumber as_number Nat.ltb Nat.leb negb orb].
    rewrite Hid. reflexivity.
  - intros sinfo p Hid Hat Hp. unfold WriteStream, GetStreamInfoById.
    cbn [length arg nth IsNumber as_number Nat.ltb Nat.leb negb orb].
    rewrite Hid.
    destruct Hat as [-> | [-> | ->]];
      cbn [IsBuffer IsTypedArray TypedArrayType Data];
      destruct Hp as [-> | ->]; reflexivity.
  - intros sinfo Hid Hno. unfold WriteStream, GetStreamInfoById.
    cbn [length arg nth IsNumber as_number Nat.ltb Nat.leb negb orb].
    rewrite Hid.
    destruct buf as [| | | |p|t p]; try reflexivity.
    + exfalso. apply (Hno p). left. reflexivity.
    + destruct t; try reflexivity.
      * exfalso. apply (Hno p). right. left. reflexivity.
      * exfalso. apply (Hno p). right. right. reflexivity.
Qed.

(** X5: [writeStream] scales the caller's own storage: after the call the
    buffer holds the scaled samples, also when the backend write fails
    and the call raises.  Writing the same buffer a second time therefore
    passes samples scaled twice.  The registry, the id counter and both
    callback slots are never touched by a write. *)
Theorem WriteStream_in_place (pa : PortAudio) (st : State) (buf : JsValue)
    (id : double) (p : Ptr) (samples : list float) (sinfo : StreamInfo) :
  g_streams st !! Uint32Value id = Some sinfo ->
  samples_at buf p ->
  buffers st !! p = Some samples ->
  samples <> [] ->
  let st1 := (WriteStream pa [buf; JsNumber id] st).2 in
  let st2 := (WriteStream pa [buf; JsNumber id] st1).2 in
  let frames := Z.of_nat (length samples) / 2 in
  buffers st1 = <[p := scaled (volume sinfo) samples]> (buffers st)
  /\ g_streams st1 = g_streams st
  /\ g_nextStreamId st1 = g_nextStreamId st
  /\ g_audioCallbackTsfn st1 = g_audioCallbackTsfn st
  /\ g_eventCallbackTsfn st1 = g_eventCallbackTsfn st
  /\ trace st2 =
       (trace st
        ++ [EPa_WriteStream (stream sinfo) (scaled (volume sinfo) samples)
              frames;
            EPa_WriteStream (stream sinfo)
              (scaled (volume sinfo) (scaled (volume sinfo) samples))
              frames])%list.
Proof.
  intros Hid Hat Hp Hne st1 st2 frames.
  assert (H1 : st1 =
    log (EPa_WriteStream (stream sinfo) (scaled (volume sinfo) samples) frames)
      (set_buffers (<[p := scaled (volume sinfo) samples]> (buffers st)) st)).
  { subst st1. rewrite (WriteStream_known pa st buf id p samples sinfo)
      by assumption. reflexivity. }
  assert (Hne1 : scaled (volume sinfo) samples <> []).
  { intros Hnil. apply (f_equal length) in Hnil.
    rewrite scaled_length in Hnil. destruct samples; [congruence|discriminate]. }
  repeat split; try (rewrite H1; reflexivity).
  subst st2.
  rewrite (WriteStream_known pa st1 buf id p
             (scaled (volume sinfo) samples) sinfo); try assumption.
  - cbv zeta. cbn [snd trace log]. rewrite H1. cbn [trace log set_buffers].
    rewrite scaled_length. fold frames. rewrite <- app_assoc. reflexivity.
  - rewrite H1. exact Hid.
  - rewrite H1. cbn. apply lookup_insert_eq.
Qed.

(** X6: the volume is applied at write time: after
    [setStreamVolume(id, v)] a write to [id] passes the samples scaled by
    [clamp(v, 0.0, 2.0)], and passes them unscaled when that is 1.0. *)
Theorem SetStreamVolume_then_write (pa : PortAudio) (st : State)
    (buf : JsValue) (id v : double) (p : Ptr) (samples : list float)
    (sinfo : StreamInfo) :
  g_streams st !! Uint32Value id = Some sinfo ->
  samples_at buf p ->
  buffers st !! p = Some samples ->
  samples <> [] ->
  let st1 := (SetStreamVolume [JsNumber id; JsNumber v] st).2 in
  trace (WriteStream pa [buf; JsNumber id] st1).2
  = (trace st
     ++ [EPa_WriteStream (stream sinfo)
           (scaled (clamp (FloatValue v) F32.zero F32.two) samples)
           (Z.of_nat (length samples) / 2)])%list.
Proof.
  intros Hid Hat Hp Hne st1. subst st1.
  rewrite (SetStreamVolume_known st id v sinfo Hid). cbn [snd].
  rewrite (WriteStream_known pa _ buf id p samples
             {| stream := stream sinfo;
                volume := clamp (FloatValue v) F32.zero F32.two |});
    try assumption.
  - reflexivity.
  - cbn. apply lookup_insert_eq.
Qed.

(** *** Closing and terminating *)

Lemma closed_nextStreamId (pa : PortAudio) (streamId : Z) (sinfo : StreamInfo)
    (st : State) :
  g_nextStreamId (closed pa streamId sinfo st) = g_nextStreamId st.
Proof.
  unfold closed, release_eventCallbackTsfn, release_audioCallbackTsfn.
  cbv zeta.
  destruct (_ =? paNoError); cbn;
    destruct (g_audioCallbackTsfn st); cbn;
    destruct (g_eventCallbackTsfn st); reflexivity.
Qed.

(** X7: once a stream is closed its id is unknown: closing it again does
    nothing and raises nothing, on any backend, and writing to it or
    setting its volume fails with [NotFound].  The other entries of the
    registry are as before, and the id counter does not move. *)
Theorem CloseStream_forgets (pa : PortAudio) (st : State) (id : double)
    (sinfo : StreamInfo) :
  g_streams st !! Uint32Value id = Some sinfo ->
  let st' := (CloseStream pa [JsNumber id] st).2 in
  (forall pa', CloseStream pa' [JsNumber id] st' = (Return JsUndefined, st'))
  /\ (forall buf,
        WriteStream pa [buf; JsNumber id] st' = (Throw NotFound, st'))
  /\ (forall v,
        SetStreamVolume [JsNumber id; JsNumber v] st' = (Throw NotFound, st'))
  /\ (forall j, j <> Uint32Value id ->
        g_streams st' !! j = g_streams st !! j)
  /\ g_nextStreamId st' = g_nextStreamId st.
Proof.
  intros Hid st'. subst st'. rewrite (CloseStream_known pa st id sinfo Hid).
  cbn [snd].
  destruct (closed_slots pa (Uint32Value id) sinfo st) as (Hs & _).
  assert (Hgone : g_streams (closed pa (Uint32Value id) sinfo st)
                    !! Uint32Value id = None)
    by (rewrite Hs; apply lookup_delete_eq).
  split; [|split; [|split; [|split]]].
  - intros pa'. unfold CloseStream, GetStreamInfoById.
    cbn [length arg nth IsNumber as_number Nat.ltb Nat.leb negb orb].
    rewrite Hgone. reflexivity.
  - intros buf. unfold WriteStream, GetStreamInfoById.
    cbn [length arg nth IsNumber as_number Nat.ltb Nat.leb negb orb].
    rewrite Hgone. reflexivity.
  - intros v. unfold SetStreamVolume, GetStreamInfoById.
    cbn [length arg nth IsNumber as_number Nat.ltb Nat.leb negb orb].
    rewrite Hgone. reflexivity.
  - intros j Hj. rewrite Hs. apply lookup_delete_ne. congruence.
  - apply closed_nextStreamId.
Qed.

Lemma release_audioCallbackTsfn_trace (st : State) :
  trace (release_audioCallbackTsfn st)
  = (trace st ++ release_events (g_audioCallbackTsfn st))%list.
Proof.
  unfold release_audioCallbackTsfn.
  destruct (g_audioCallbackTsfn st); cbn; [reflexivity|].
  rewrite app_nil_r. reflexivity.
Qed.

Lemma release_eventCallbackTsfn_trace (st : State) :
  trace (release_eventCallbackTsfn st)
  = (trace st ++ release_events (g_eventCallbackTsfn st))%list.
Proof.
  unfold release_eventCallbackTsfn.
  destruct (g_eventCallbackTsfn st); cbn; [reflexivity|].
  rewrite app_nil_r. reflexivity.
Qed.

Lemma release_audioCallbackTsfn_nextStreamId (st : State) :
  g_nextStreamId (release_audioCallbackTsfn st) = g_nextStreamId st.
Proof.
  unfold release_audioCallbackTsfn.
  destruct (g_audioCallbackTsfn st); reflexivity.
Qed.

Lemma release_eventCallbackTsfn_nextStreamId (st : State) :
  g_nextStreamId (release_eventCallbackTsfn st) = g_nextStreamId st.
Proof.
  unfold release_eventCallbackTsfn.
  destruct (g_eventCallbackTsfn st); reflexivity.
Qed.

(** X8: the calls [closeStream] makes for a known id are, in this order:
    the stop of the backend stream; its close, but only if the stop
    succeeded; the release of the fill channel and of the event channel,
    for the slots that are bound.  So when the stop fails the backend
    stream is never closed, although its entry is gone. *)
Theorem CloseStream_calls (pa : PortAudio) (st : State) (id : double)
    (sinfo : StreamInfo) :
  g_streams st !! Uint32Value id = Some sinfo ->
  trace (CloseStream pa [JsNumber id] st).2
  = (trace st
     ++ [EPa_StopStream (stream sinfo)]
     ++ (if on_Pa_StopStream pa (trace st) (stream sinfo) =? paNoError
         then [EPa_CloseStream (stream sinfo)] else [])
     ++ release_events (g_audioCallbackTsfn st)
     ++ release_events (g_eventCallbackTsfn st))%list.
Proof.
  intros Hid. rewrite (CloseStream_known pa st id sinfo Hid). cbn [snd].
  unfold closed. cbv zeta.
  rewrite release_eventCallbackTsfn_trace, release_audioCallbackTsfn_trace.
  destruct (release_audioCallbackTsfn_slots
              (set_streams
                 (delete (Uint32Value id)
                    (g_streams
                       (if on_Pa_StopStream pa (trace st) (stream sinfo)
                           =? paNoError
                        then log (EPa_CloseStream (stream sinfo))
                               (log (EPa_StopStream (stream sinfo)) st)
                        else log (EPa_StopStream (stream sinfo)) st)))
                 (if on_Pa_StopStream pa (trace st) (stream sinfo)
                     =? paNoError
                  then log (EPa_CloseStream (stream sinfo))
                         (log (EPa_StopStream (stream sinfo)) st)
                  else log (EPa_StopStream (stream sinfo)) st)))
    as (_ & He & _).
  rewrite He.
  destruct (on_Pa_StopStream pa (trace st) (stream sinfo) =? paNoError);
    cbn [trace log set_streams g_audioCallbackTsfn g_eventCallbackTsfn];
    rewrite <- !app_assoc; reflexivity.
Qed.

(** Stopping and closing the entries of a list only records calls. *)
Lemma stop_all_log (pa : PortAudio) (l : list (Z * StreamInfo)) (st : State) :
  fold_left
    (fun st kv =>
       let s := stream kv.2 in
       if s =? nullptr then st
       else (Pa_CloseStream pa s (Pa_StopStream pa s st).2).2)
    l st
  = log_all (stop_all_events l) st.
Proof.
  revert st. induction l as [|kv l IH]; intros st.
  - unfold log_all. cbn. rewrite app_nil_r. destruct st; reflexivity.
  - cbn [fold_left stop_all_events flat_map]. rewrite IH. cbv zeta.
    fold (stop_all_events l).
    destruct (stream kv.2 =? nullptr); [reflexivity|].
    unfold log_all. cbn. rewrite <- !app_assoc. reflexivity.
Qed.

(** X9: [terminate] stops and then closes every registered stream whose
    pointer is not null, in ascending order of the ids and without
    looking at what the backend answers, releases the channel of each
    bound slot, and calls [Pa_Terminate] last.  Whatever happens, the
    registry and both slots are empty afterwards; the call raises exactly
    when [Pa_Terminate] fails.  The id counter is not reset. *)
Theorem Terminate_tears_down (pa : PortAudio) (info : list JsValue)
    (st : State) :
  exists entries,
    entries ≡ₚ map_to_list (g_streams st)
    /\ Sorted key_le entries
    /\ let r := Terminate pa info st in
       let t :=
         (trace st ++ stop_all_events entries
          ++ release_events (g_audioCallbackTsfn st)
          ++ release_events (g_eventCallbackTsfn st))%list in
       trace r.2 = (t ++ [EPa_Terminate])%list
       /\ r.1 = (if on_Pa_Terminate pa t =? paNoError
                 then Return JsUndefined
                 else Throw (BackendError
                               (Pa_GetErrorText pa (on_Pa_Terminate pa t))))
       /\ g_streams r.2 = ∅
       /\ g_audioCallbackTsfn r.2 = None
       /\ g_eventCallbackTsfn r.2 = None
       /\ g_nextStreamId r.2 = g_nextStreamId st.
Proof.
  exists (in_key_order (g_streams st)).
  split; [apply merge_sort_Permutation|].
  split; [apply (Sorted_merge_sort key_le)|].
  cbv zeta. unfold Terminate. rewrite stop_all_log.
  set (st1 := set_streams ∅ (log_all _ st)).
  destruct (release_audioCallbackTsfn_slots st1) as (A1 & A2 & A3 & _).
  destruct (release_eventCallbackTsfn_slots (release_audioCallbackTsfn st1))
    as (E1 & E2 & E3 & _).
  assert (Htr : trace (release_eventCallbackTsfn (release_audioCallbackTsfn st1))
          = (trace st ++ stop_all_events (in_key_order (g_streams st))
             ++ release_events (g_audioCallbackTsfn st)
             ++ release_events (g_eventCallbackTsfn st))%list).
  { rewrite release_eventCallbackTsfn_trace, release_audioCallbackTsfn_trace.
    rewrite A2. subst st1. cbn. rewrite <- !app_assoc. reflexivity. }
  assert (Hn : g_nextStreamId
                 (release_eventCallbackTsfn (release_audioCallbackTsfn st1))
               = g_nextStreamId st).
  { rewrite release_eventCallbackTsfn_nextStreamId,
      release_audioCallbackTsfn_nextStreamId. reflexivity. }
  unfold Pa_Terminate. rewrite Htr.
  destruct (negb (on_Pa_Terminate pa _ =? paNoError)) eqn:Hneg;
    [apply negb_true_iff in Hneg | apply negb_false_iff in Hneg];
    rewrite Hneg; cbn [fst snd trace log g_streams g_audioCallbackTsfn
                       g_eventCallbackTsfn g_nextStreamId];
    rewrite Htr, E3, A3, E2, A1, E1, Hn; repeat split.
Qed.

(** *** The callback and the event handler *)

(** X10: on an implementation that never places a new object where one
    exists, in every state the addon reaches from the state it is loaded
    in, the stream callback is defined for the pointer the fill slot
    holds: that pointer and, when the event slot is bound, the pointer
    there are those of objects that exist.  The callback first hands the
    fill handler a buffer of [frameCount * 2] samples, the product taken
    in [unsigned long], whatever the channel count of the stream; then
    it emits the notifications, to the event handler if one is bound;
    it asks PortAudio to continue, and it changes nothing of the module
    state but the record of calls. *)
Theorem AudioCallback_continues (impl : Implementation) (pa : PortAudio)
    (calls : list Call) (h : Tsfn) (output : Ptr)
    (frameCount statusFlags : Z) :
  allocates_free impl ->
  let st := run impl pa calls loaded in
  g_audioCallbackTsfn st = Some h ->
  exists fill events st',
    tsfns st !! h = Some fill
    /\ AudioCallback impl output frameCount statusFlags h st
       = Some (paContinue, st')
    /\ trace st'
       = (trace st
          ++ ETsfn_BlockingCall h fill
               (FillBuffer output (to_unsigned_long impl (frameCount * 2)))
             :: events)%list
    /\ (forall h', g_eventCallbackTsfn st = Some h' ->
          exists f,
            tsfns st !! h' = Some f
            /\ events
               = (fun type => ETsfn_BlockingCall h' f (StreamEvent type ""))
                   <$> notifications statusFlags)
    /\ (g_eventCallbackTsfn st = None -> events = [])
    /\ same_module st st'.
Proof.
  intros Hfree st Hh.
  destruct (reachable_channels_ok impl pa calls Hfree) as (Ca & Ce & _).
  fold st in Ca, Ce.
  destruct (Ca h Hh) as [fill Hfill]. exists fill.
  set (st1 := log (ETsfn_BlockingCall h fill
                     (FillBuffer output
                        (to_unsigned_long impl (frameCount * 2)))) st).
  pose proof (AudioCallback_live impl output frameCount statusFlags h fill st
                Hfill) as Hrun.
  fold st1 in Hrun.
  destruct (g_eventCallbackTsfn st) as [h'|] eqn:He.
  - destruct (Ce h' eq_refl) as [f Hf].
    rewrite (emit_all_bound _ h' f st1 He Hf) in Hrun.
    eexists _, _. split; [exact Hfill|]. split; [exact Hrun|].
    split; [unfold log_all; cbn; rewrite <- app_assoc; reflexivity|].
    split; [intros k [= <-]; exists f; split; [exact Hf | reflexivity]|].
    split; [discriminate|]. repeat split.
  - rewrite (emit_all_unbound _ st1 He) in Hrun.
    exists [], st1. split; [exact Hfill|]. split; [exact Hrun|].
    split; [reflexivity|]. split; [discriminate|].
    split; [reflexivity|]. repeat split.
Qed.

(** With a handler bound, a fill invocation adds to the hand-off one
    call to the handler for every notification. *)
Lemma AudioCallback_trace_bound (impl : Implementation) (output : Ptr)
    (frameCount statusFlags : Z) (userData h : Tsfn) (f : JsFun)
    (st : State) :
  g_eventCallbackTsfn st = Some h ->
  tsfns st !! h = Some f ->
  trace <$> (snd <$> AudioCallback impl output frameCount statusFlags
                       userData st)
  = (fun s1 =>
       (trace s1
        ++ ((fun type => ETsfn_BlockingCall h f (StreamEvent type ""))
              <$> notifications statusFlags))%list)
      <$> (snd <$> BlockingCall userData
                     (FillBuffer output
                        (to_unsigned_long impl (frameCount * 2))) st).
Proof.
  intros He Hf. rewrite AudioCallback_unfold. unfold BlockingCall.
  destruct (tsfns st !! userData) as [fill|]; [|reflexivity].
  cbn [fmap option_fmap option_map mbind option_bind fst snd].
  match goal with
  | |- context [emit_all ?types ?s] =>
      rewrite (emit_all_bound types h f s He Hf)
  end.
  unfold log_all. reflexivity.
Qed.

(** X11: [setStreamEventCallback(f)] replaces the event handler: the
    thread-safe function of the handler bound before, if any, is
    released and deleted first, then a new one for [f] is created, at
    the address the implementation chooses, and stored in the event
    slot.  The fill slot, the registry and the id counter are not
    touched.  From then on every status notification of the stream
    callback is one call to [f].  Called with anything but a function it
    raises a [TypeError] and keeps the handler bound before. *)
Theorem SetStreamEventCallback_replaces (impl : Implementation)
    (info : list JsValue) (st : State) :
  (forall f, arg info 0 = JsFunction f ->
     let r := SetStreamEventCallback impl info st in
     let st0 := release_eventCallbackTsfn st in
     let h := on_make_unique impl (trace st0) (tsfns st0) in
     r.1 = Return JsUndefined
     /\ g_eventCallbackTsfn r.2 = Some h
     /\ tsfns r.2 !! h = Some f
     /\ trace r.2 =
          (trace st ++ release_events (g_eventCallbackTsfn st)
           ++ [ETsfn_New h f "StreamEventCallback"])%list
     /\ g_audioCallbackTsfn r.2 = g_audioCallbackTsfn st
     /\ g_streams r.2 = g_streams st
     /\ g_nextStreamId r.2 = g_nextStreamId st
     /\ forall output frameCount statusFlags userData,
          trace <$> (snd <$> AudioCallback impl output frameCount statusFlags
                               userData r.2)
          = (fun s1 =>
               (trace s1
                ++ ((fun type => ETsfn_BlockingCall h f (StreamEvent type ""))
                      <$> notifications statusFlags))%list)
              <$> (snd <$> BlockingCall userData
                             (FillBuffer output
                                (to_unsigned_long impl (frameCount * 2)))
                             r.2))
  /\ ((forall f, arg info 0 <> JsFunction f) ->
      SetStreamEventCallback impl info st
      = (Throw (TypeError "Expected callback function"), st)).
Proof.
  split.
  - intros f Harg. cbv zeta. unfold SetStreamEventCallback. rewrite Harg.
    unfold ThreadSafeFunction_New. cbn [fst snd].
    destruct (release_eventCallbackTsfn_slots st) as (E1 & E2 & E3 & _).
    set (st0 := release_eventCallbackTsfn st) in *.
    set (h := on_make_unique impl (trace st0) (tsfns st0)).
    cbn [g_eventCallbackTsfn g_audioCallbackTsfn g_streams g_nextStreamId
         tsfns trace set_eventCallbackTsfn log set_tsfns].
    subst st0.
    rewrite release_eventCallbackTsfn_trace, E2, E3,
      release_eventCallbackTsfn_nextStreamId, <- app_assoc.
    split; [reflexivity|]. split; [reflexivity|].
    split; [apply lookup_insert_eq|].
    split; [reflexivity|]. split; [reflexivity|]. split; [reflexivity|].
    split; [reflexivity|].
    intros output frameCount statusFlags userData.
    apply AudioCallback_trace_bound; [reflexivity|].
    cbn. apply lookup_insert_eq.
  - intros Hno. unfold SetStreamEventCallback.
    destruct (arg info 0) as [| |f| | |]; try reflexivity.
    exfalso. exact (Hno f eq_refl).
Qed.

(** X12: how [openStreamAsync] reads options that are numbers where
    they are present.  A property that is absent takes its default: the
    backend's default output device, 2 channels, 44100 Hz, 256 frames
    per buffer.  A suggested latency above 0 is passed on as it is and
    the device is not asked; otherwise the device's default low output
    latency is used, or 0.05 when the backend does not know the device.
    Nothing is validated: the values go to the backend's open as they
    are, after the thread-safe function of the fill callback has been
    created. *)
Theorem OpenStreamAsync_options (impl : Implementation) (pa : PortAudio)
    (st : State) (o : Options) (jsCallback : JsFun) :
  g_streams st = ∅ ->
  numeric o ->
  let dev :=
    match opt_device o with
    | Some v => Int32Value (as_number v)
    | None => on_Pa_GetDefaultOutputDevice pa (trace st)
    end in
  let q1 :=
    match opt_device o with
    | Some _ => []
    | None => [EPa_GetDefaultOutputDevice]
    end in
  let asked :=
    match opt_suggestedLatency o with
    | Some v => as_number v
    | None => F64.zero
    end in
  let q2 := if SFltb F64.zero asked then [] else [EPa_GetDeviceInfo dev] in
  let latency :=
    if SFltb F64.zero asked then asked
    else match on_Pa_GetDeviceInfo pa (trace st ++ q1)%list dev with
         | Some devInfo => defaultLowOutputLatency devInfo
         | None => latency_fallback
         end in
  callback_stream_outcome impl pa jsCallback
    {| device := dev;
       channelCount :=
         match opt_channels o with
         | Some v => Int32Value (as_number v)
         | None => 2
         end;
       sampleFormat := paFloat32;
       suggestedLatency := latency |}
    match opt_sampleRate o with
    | Some v => as_number v
    | None => F64.of_Z 44100
    end
    match opt_framesPerBuffer o with
    | Some v => Uint32Value (as_number v)
    | None => 256
    end
    (trace st ++ q1 ++ q2)%list st
    (OpenStreamAsync impl pa [JsObject o; JsFunction jsCallback] st).
Proof.
  intros Hempty (Hd & Hc & Hr & Hf & Hl). cbv zeta. unfold OpenStreamAsync.
  rewrite Hempty, map_size_empty.
  cbn [Nat.ltb Nat.leb arg nth IsObject as_options].
  rewrite (get_number_numeric _ _ _ Hc), (get_number_numeric _ _ _ Hr),
    (get_number_numeric _ _ _ Hf), (get_number_numeric _ _ _ Hl).
  unfold Pa_GetDefaultOutputDevice, Pa_GetDeviceInfo, DoubleValue.
  destruct (opt_device o) as [v|];
    [specialize (Hd v eq_refl); destruct v; try discriminate;
     cbn [Number_value as_number]|];
    destruct (SFltb F64.zero _) eqn:Hlat; cbn [app].
  - rewrite app_nil_r.
    apply (open_with_callback_outcome impl pa jsCallback _ _ _ st st);
      reflexivity.
  - rewrite (app_nil_r (trace st)).
    apply (open_with_callback_outcome impl pa jsCallback _ _ _
             (log (EPa_GetDeviceInfo (Int32Value d)) st) st); reflexivity.
  - apply (open_with_callback_outcome impl pa jsCallback _ _ _
             (log EPa_GetDefaultOutputDevice st) st); reflexivity.
  - change [EPa_GetDefaultOutputDevice;
            EPa_GetDeviceInfo (on_Pa_GetDefaultOutputDevice pa (trace st))]
      with ([EPa_GetDefaultOutputDevice]
            ++ [EPa_GetDeviceInfo
                  (on_Pa_GetDefaultOutputDevice pa (trace st))])%list.
    rewrite app_assoc.
    apply (open_with_callback_outcome impl pa jsCallback _ _ _
             (log (EPa_GetDeviceInfo
                     (on_Pa_GetDefaultOutputDevice pa (trace st)))
                (log EPa_GetDefaultOutputDevice st)) st); reflexivity.
Qed.

(** *** What holds along every run *)

Lemma release_audioCallbackTsfn_streams (st : State) :
  g_streams (release_audioCallbackTsfn st) = g_streams st.
Proof. apply release_audioCallbackTsfn_slots. Qed.

Lemma release_eventCallbackTsfn_streams (st : State) :
  g_streams (release_eventCallbackTsfn st) = g_streams st.
Proof. apply release_eventCallbackTsfn_slots. Qed.

Ltac registry_leaf :=
  cbv beta;
  cbn [g_streams g_nextStreamId log set_streams set_buffers set_nextStreamId
       set_audioCallbackTsfn set_eventCallbackTsfn set_tsfns log_all Release
       delete_ThreadSafeFunction fst snd];
  rewrite ?release_eventCallbackTsfn_streams,
    ?release_audioCallbackTsfn_streams,
    ?release_eventCallbackTsfn_nextStreamId,
    ?release_audioCallbackTsfn_nextStreamId;
  cbn [g_streams g_nextStreamId log set_streams set_buffers set_nextStreamId
       set_audioCallbackTsfn set_eventCallbackTsfn set_tsfns log_all Release
       delete_ThreadSafeFunction fst snd];
  first [ apply rs_same | apply rs_close | apply rs_clear
        | apply rs_open; first [discriminate | intros _; assumption] ].

(** Every call changes the registry and the id counter in one of the
    five ways of [registry_step]; only [openStream] adds an entry to a
    registry that is not empty. *)
Lemma step_registry (impl : Implementation) (pa : PortAudio) (c : Call)
    (st : State) :
  registry_step (negb (is_openStream c)) st
    (g_streams (step impl pa c st)) (g_nextStreamId (step impl pa c st)).
Proof.
  set (P := fun b (X : State) =>
              registry_step b st (g_streams X) (g_nextStreamId X)).
  change (P (negb (is_openStream c)) (step impl pa c st)).
  destruct c as [info|info|info|info|info|info|info|info|info|
                 output frameCount statusFlags userData];
    [cbn [step is_openStream negb]..|].
  - unfold Init, Pa_Initialize. state_cases; subst P; registry_leaf.
  - unfold Terminate, Pa_Terminate. rewrite stop_all_log.
    state_cases; subst P; registry_leaf.
  - unfold OpenDefaultStream.
    destruct (0 <? size (g_streams st))%nat eqn:Hg;
      [subst P; registry_leaf|].
    assert (Hempty : g_streams st = ∅).
    { apply map_size_empty_inv. apply Nat.ltb_ge in Hg. lia. }
    unfold Pa_OpenDefaultStream, Pa_StartStream, Pa_CloseStream, register,
      next_id.
    state_cases; subst P; registry_leaf.
  - unfold OpenStream, Pa_GetDeviceCount, Pa_GetDeviceInfo, Pa_OpenStream,
      Pa_StartStream, Pa_CloseStream, register, next_id.
    state_cases; subst P; registry_leaf.
  - unfold WriteStream, Pa_WriteStream.
    state_cases; subst P; registry_leaf.
  - unfold CloseStream, Pa_StopStream, Pa_CloseStream.
    state_cases; subst P; registry_leaf.
  - unfold OpenStreamAsync.
    destruct (0 <? size (g_streams st))%nat eqn:Hg;
      [subst P; registry_leaf|].
    assert (Hempty : g_streams st = ∅).
    { apply map_size_empty_inv. apply Nat.ltb_ge in Hg. lia. }
    unfold Pa_GetDefaultOutputDevice, Pa_GetDeviceInfo, open_with_callback,
      ThreadSafeFunction_New, Pa_OpenStream, Pa_StartStream, Pa_CloseStream,
      register, next_id.
    state_cases; subst P; registry_leaf.
  - unfold SetStreamEventCallback, ThreadSafeFunction_New.
    state_cases; subst P; registry_leaf.
  - unfold SetStreamVolume, GetStreamInfoById.
    destruct ((length info <? 2)%nat || negb (IsNumber (arg info 0))
              || negb (IsNumber (arg info 1)));
      [subst P; registry_leaf|].
    destruct (g_streams st !! Uint32Value (as_number (arg info 0)))
      as [sinfo|] eqn:Hid; [|subst P; registry_leaf].
    subst P. cbn [snd g_streams g_nextStreamId set_streams].
    pose proof (clamp_code (FloatValue (as_number (arg info 1)))) as Hc.
    cbv zeta in Hc. rewrite Hc. apply rs_volume. exact Hid.
  - destruct (step_AudioCallback_same_module impl pa output frameCount
                statusFlags userData st) as (Hs & Hn & _).
    subst P. cbv beta. cbn [is_openStream negb]. rewrite Hs, Hn.
    apply rs_same.
Qed.

(** X13: in every state the addon reaches from the state it is loaded
    in, whatever is called and whatever the backend answers, the volume
    of every registered stream is neither below 0 nor above 2. *)
Theorem volume_always_in_range (impl : Implementation) (pa : PortAudio)
    (calls : list Call) (id : Z) (sinfo : StreamInfo) :
  g_streams (run impl pa calls loaded) !! id = Some sinfo ->
  volume_in_range (volume sinfo).
Proof.
  assert (Hgen :
    map_Forall (fun _ s => volume_in_range (volume s))
      (g_streams (run impl pa calls loaded))).
  { apply (run_invariant impl pa
             (fun st => map_Forall (fun _ s => volume_in_range (volume s))
                          (g_streams st))); [|apply map_Forall_empty].
    intros c st H.
    destruct (step_registry impl pa c st) as [|s _|k x v Hk| k |].
    - exact H.
    - apply map_Forall_insert_2; [|exact H]. split; reflexivity.
    - apply map_Forall_insert_2; [|exact H]. apply clamp_range.
    - apply map_Forall_delete. exact H.
    - apply map_Forall_empty. }
  intros Hid. exact (Hgen id sinfo Hid).
Qed.

(** X14: from a state with at most one stream registered, no sequence
    of calls that leaves out [openStream] ever gets a second stream
    registered: [openDefaultStream] and [openStreamAsync] keep the
    registry at one entry at most. *)
Theorem single_stream_without_openStream (impl : Implementation)
    (pa : PortAudio) (calls : list Call) (st : State) :
  (size (g_streams st) <= 1)%nat ->
  Forall (fun c => is_openStream c = false) calls ->
  (size (g_streams (run impl pa calls st)) <= 1)%nat.
Proof.
  revert st. induction calls as [|c calls IH]; intros st Hsz Hno;
    [exact Hsz|].
  inversion Hno as [|c' calls' Hc Hrest]; subst.
  assert (Hone : (size (g_streams (step impl pa c st)) <= 1)%nat);
    [|cbn [run]; destruct (ends impl pa c st);
      [exact Hone | apply IH; [exact Hone | exact Hrest]]].
  pose proof (step_registry impl pa c st) as Hstep. rewrite Hc in Hstep.
  cbn [negb] in Hstep.
  destruct Hstep as [|s Hguard|k x v Hk| k |].
  - exact Hsz.
  - rewrite (Hguard eq_refl). rewrite map_size_insert_None
      by apply lookup_empty. rewrite map_size_empty. lia.
  - rewrite map_size_insert_Some by eauto. exact Hsz.
  - rewrite map_size_delete. destruct (g_streams st !! k); cbn; lia.
  - rewrite map_size_empty. lia.
Qed.

(** X15: ids are handed out in increasing order.  After fewer than
    2^32 - 1 calls from the loaded state the counter has not wrapped:
    it lies between 1 and 1 + the number of calls, and every registered
    id lies between 1 and the counter, excluded; so the next stream
    opened gets an id that no registered stream has. *)
Theorem ids_below_counter (impl : Implementation) (pa : PortAudio)
    (calls : list Call) :
  Z.of_nat (length calls) < 2 ^ 32 - 1 ->
  let st := run impl pa calls loaded in
  1 <= g_nextStreamId st <= 1 + Z.of_nat (length calls)
  /\ (forall id, is_Some (g_streams st !! id) -> 1 <= id < g_nextStreamId st)
  /\ g_streams st !! g_nextStreamId st = None.
Proof.
  assert (Hgen : forall n st,
    1 <= g_nextStreamId st <= 1 + n ->
    (forall id, is_Some (g_streams st !! id) ->
                1 <= id < g_nextStreamId st) ->
    n + Z.of_nat (length calls) < 2 ^ 32 - 1 ->
    1 <= g_nextStreamId (run impl pa calls st)
      <= 1 + n + Z.of_nat (length calls)
    /\ (forall id, is_Some (g_streams (run impl pa calls st) !! id) ->
                   1 <= id < g_nextStreamId (run impl pa calls st))).
  { induction calls as [|c calls IH]; intros n st Hn Hk Hlen.
    - cbn [run length Z.of_nat]. split; [lia | exact Hk].
    - cbn [length] in *.
      rewrite Nat2Z.inj_succ in *.
      pose proof (Nat2Z.is_nonneg (length calls)) as Hpos.
      assert (Hwrap : wrap_uint32 (g_nextStreamId st + 1)
                      = g_nextStreamId st + 1).
      { unfold wrap_uint32. apply Z.mod_small. lia. }
      assert (Hone :
        1 <= g_nextStreamId (step impl pa c st) <= 1 + (n + 1)
        /\ (forall id, is_Some (g_streams (step impl pa c st) !! id) ->
                       1 <= id < g_nextStreamId (step impl pa c st))).
      { destruct (step_registry impl pa c st) as [|s _|k x v Hx| k |].
        - split; [lia | exact Hk].
        - rewrite Hwrap. split; [lia|]. intros id His.
          apply lookup_insert_is_Some in His as [<-|[_ His]]; [lia|].
          specialize (Hk id His). lia.
        - split; [lia|]. intros id His.
          apply lookup_insert_is_Some in His as [<-|[_ His]];
            [apply Hk; eauto | apply Hk; exact His].
        - split; [lia|]. intros id His.
          apply lookup_delete_is_Some in His as [_ His].
          apply Hk. exact His.
        - split; [lia|]. intros id His. rewrite lookup_empty in His.
          destruct His as [? [=]]. }
      destruct Hone as [Hn1 Hk1]. cbn [run].
      destruct (ends impl pa c st).
      + split; [lia | exact Hk1].
      + destruct (IH (n + 1) (step impl pa c st) Hn1 Hk1) as [Hn2 Hk2];
          [lia|].
        split; [lia | exact Hk2]. }
  intros Hlen st. subst st.
  destruct (Hgen 0 loaded) as [Hn Hk].
  - cbn. lia.
  - intros id His. cbn in His. rewrite lookup_empty in His.
    destruct His as [? [=]].
  - lia.
  - split; [lia|]. split; [exact Hk|].
    destruct (g_streams (run impl pa calls loaded)
                !! g_nextStreamId (run impl pa calls loaded)) as [x|] eqn:Hx;
      [|reflexivity].
    specialize (Hk _ (ex_intro _ x Hx)). lia.
Qed.

Lemma release_both_audio (st : State) :
  g_audioCallbackTsfn
    (release_eventCallbackTsfn (release_audioCallbackTsfn st)) = None.
Proof.
  destruct (release_audioCallbackTsfn_slots st) as (A1 & _).
  destruct (release_eventCallbackTsfn_slots (release_audioCallbackTsfn st))
    as (_ & E2 & _).
  rewrite E2. exact A1.
Qed.

Ltac bound_leaf H :=
  first
    [ exact H
    | unfold bound_while_open;
      cbn [g_streams g_audioCallbackTsfn log set_streams set_buffers
           set_nextStreamId set_audioCallbackTsfn set_eventCallbackTsfn
           set_tsfns log_all Release delete_ThreadSafeFunction fst snd];
      rewrite ?release_both_audio;
      first [ intros _; apply insert_non_empty
            | intros Hc; exfalso; apply Hc; reflexivity ] ].

Lemma bound_while_open_step (impl : Implementation) (pa : PortAudio)
    (c : Call) (st : State) :
  bound_while_open st -> bound_while_open (step impl pa c st).
Proof.
  intros H.
  destruct c as [info|info|info|info|info|info|info|info|info|
                 output frameCount statusFlags userData];
    [cbn [step]..|].
  - unfold Init, Pa_Initialize. state_cases; bound_leaf H.
  - unfold Terminate, Pa_Terminate. rewrite stop_all_log.
    state_cases; bound_leaf H.
  - unfold OpenDefaultStream, Pa_OpenDefaultStream, Pa_StartStream,
      Pa_CloseStream, register, next_id.
    state_cases; bound_leaf H.
  - unfold OpenStream, Pa_GetDeviceCount, Pa_GetDeviceInfo, Pa_OpenStream,
      Pa_StartStream, Pa_CloseStream, register, next_id.
    state_cases; bound_leaf H.
  - unfold WriteStream, Pa_WriteStream. state_cases; bound_leaf H.
  - unfold CloseStream, Pa_StopStream, Pa_CloseStream.
    state_cases; bound_leaf H.
  - unfold OpenStreamAsync, Pa_GetDefaultOutputDevice, Pa_GetDeviceInfo,
      open_with_callback, ThreadSafeFunction_New, Pa_OpenStream,
      Pa_StartStream, Pa_CloseStream, register, next_id.
    state_cases; bound_leaf H.
  - unfold SetStreamEventCallback, ThreadSafeFunction_New.
    destruct (arg info 0) as [| |f| | |]; try exact H.
    unfold bound_while_open. cbn [snd g_streams g_audioCallbackTsfn log
      set_eventCallbackTsfn set_tsfns].
    destruct (release_eventCallbackTsfn_slots st) as (_ & E2 & E3 & _).
    rewrite E2, E3. exact H.
  - unfold SetStreamVolume. state_cases; bound_leaf H.
  - destruct (step_AudioCallback_same_module impl pa output frameCount
                statusFlags userData st) as (Hs & _ & Ha & _).
    unfold bound_while_open. rewrite Hs, Ha. exact H.
Qed.

(** X16: in every state reached from the loaded one, the fill slot is
    bound only while a stream is registered.  So whenever
    [openStreamAsync] gets past its test for an open stream the fill
    slot is empty, and storing the new channel there drops no channel
    that was not released. *)
Theorem fill_slot_bound_while_open (impl : Implementation) (pa : PortAudio)
    (calls : list Call) :
  let st := run impl pa calls loaded in
  (g_audioCallbackTsfn st <> None -> g_streams st <> ∅)
  /\ (g_streams st = ∅ -> g_audioCallbackTsfn st = None).
Proof.
  assert (H : bound_while_open (run impl pa calls loaded)).
  { apply (run_invariant impl pa bound_while_open).
    - intros c st. apply bound_while_open_step.
    - intros Hc. exfalso. apply Hc. reflexivity. }
  cbv zeta. split; [exact H|].
  intros Hempty.
  destruct (g_audioCallbackTsfn (run impl pa calls loaded)) as [h|] eqn:Hh;
    [|reflexivity].
  exfalso. apply H; [rewrite Hh; discriminate | exact Hempty].
Qed.

(** *** Volume, continued *)

(** X17: at volume 0.0 a write passes silence for every finite sample,
    a zero with the sign of the sample; an infinite sample and a NaN are
    passed as NaN. *)
Theorem WriteStream_volume_zero (pa : PortAudio) (st : State) (buf : JsValue)
    (id : double) (p : Ptr) (samples : list float) (sinfo : StreamInfo) :
  g_streams st !! Uint32Value id = Some sinfo ->
  samples_at buf p ->
  buffers st !! p = Some samples ->
  samples <> [] ->
  volume sinfo = F32.zero ->
  trace (WriteStream pa [buf; JsNumber id] st).2
  = (trace st
     ++ [EPa_WriteStream (stream sinfo) (muted <$> samples)
           (Z.of_nat (length samples) / 2)])%list.
Proof.
  intros Hid Hat Hp Hne Hvol.
  rewrite (WriteStream_known pa st buf id p samples sinfo Hid Hat Hp Hne).
  cbv zeta. cbn [snd trace log set_buffers]. rewrite Hvol.
  change (scaled F32.zero samples)
    with ((fun x => F32.mul x F32.zero) <$> samples).
  replace ((fun x => F32.mul x F32.zero) <$> samples) with (muted <$> samples);
    [reflexivity|].
  apply list_fmap_ext. intros i x _.
  destruct x as [s|s| |s m e]; cbn; rewrite ?xorb_false_r; reflexivity.
Qed.

(** X18: of two [setStreamVolume] calls on the same id in a row only the
    second counts: the state is the one the second call alone would
    give, for a known id as for an unknown one. *)
Theorem SetStreamVolume_last_wins (st : State) (id v1 v2 : double) :
  SetStreamVolume [JsNumber id; JsNumber v2]
    (SetStreamVolume [JsNumber id; JsNumber v1] st).2
  = SetStreamVolume [JsNumber id; JsNumber v2] st.
Proof.
  destruct (g_streams st !! Uint32Value id) as [sinfo|] eqn:Hid.
  - rewrite (SetStreamVolume_known st id v1 sinfo Hid). cbn [snd].
    rewrite (SetStreamVolume_known _ id v2
               {| stream := stream sinfo;
                  volume := clamp (FloatValue v1) F32.zero F32.two |})
      by (cbn; apply lookup_insert_eq).
    rewrite (SetStreamVolume_known st id v2 sinfo Hid).
    unfold set_streams. cbn. rewrite insert_insert_eq. reflexivity.
  - assert (Hfail : forall v,
      SetStreamVolume [JsNumber id; JsNumber v] st = (Throw NotFound, st)).
    { intros v. unfold SetStreamVolume, GetStreamInfoById.
      cbn [length arg nth IsNumber as_number Nat.ltb Nat.leb negb orb].
      rewrite Hid. reflexivity. }
    rewrite (Hfail v1). cbn [snd]. reflexivity.
Qed.

(** ** The further properties at concrete inputs *)

(** [openStream(0, 44100, 2, 256)] on a backend whose start fails. *)
Lemma OpenStream_outcome_witness :
  0 <= Int32Value (F64.of_Z 0) < on_Pa_GetDeviceCount pa_start_fails
                                   (trace loaded)
  /\ 0 < Int32Value (F64.of_Z 2)
  /\ SFleb (F64.of_Z 44100) F64.zero = false
  /\ Uint32Value (F64.of_Z 256) <> 0
  /\ (OpenStream pa_start_fails [num 0; num 44100; num 2; num 256] loaded).1
     = Throw (Error "PortAudio error in Pa_StartStream: Device unavailable")
  /\ g_streams
       (OpenStream pa_start_fails [num 0; num 44100; num 2; num 256] loaded).2
     = ∅.
Proof.
  assert (H1 : 0 <= Int32Value (F64.of_Z 0)
               < on_Pa_GetDeviceCount pa_start_fails (trace loaded))
    by (vm_compute; split; [discriminate | reflexivity]).
  assert (H2 : 0 < Int32Value (F64.of_Z 2)) by (vm_compute; reflexivity).
  assert (H3 : SFleb (F64.of_Z 44100) F64.zero = false)
    by (vm_compute; reflexivity).
  assert (H4 : Uint32Value (F64.of_Z 256) <> 0)
    by (vm_compute; discriminate).
  pose proof (OpenStream_outcome pa_start_fails loaded (F64.of_Z 0)
                (F64.of_Z 44100) (F64.of_Z 2) (F64.of_Z 256)
                {| defaultLowOutputLatency := latency_fallback |}
                H1 H2 H3 H4 eq_refl) as H.
  unfold blocking_stream_outcome in H. vm_compute in H.
  destruct H as (_ & _ & _ & Hr & _ & Hs & _).
  split; [exact H1|]. split; [exact H2|]. split; [exact H3|].
  split; [exact H4|]. split; [exact Hr | exact Hs].
Defined.

Lemma OpenDefaultStream_outcome_witness :
  g_streams loaded = ∅
  /\ (OpenDefaultStream pa_start_fails [] loaded).1
     = Throw (Error "Device unavailable")
  /\ trace (OpenDefaultStream pa_start_fails [] loaded).2
     = [EPa_OpenDefaultStream 0 2 paFloat32 (F64.of_Z 44100) 256;
        EPa_StartStream 4096; EPa_CloseStream 4096]
  /\ g_nextStreamId (OpenDefaultStream pa_start_fails [] loaded).2 = 1.
Proof.
  split; [reflexivity|].
  pose proof (OpenDefaultStream_outcome pa_start_fails [] loaded eq_refl) as H.
  unfold blocking_stream_outcome in H. vm_compute in H.
  destruct H as (_ & _ & _ & Hr & Ht & _ & Hn).
  split; [exact Hr|]. split; [exact Ht | exact Hn].
Defined.

(** [openStreamAsync({channels: f}, fill)], [f] a function. *)
Lemma TypeError_no_effect_witness :
  OpenStreamAsync lp64 pa_ok ∈ exports lp64 pa_ok
  /\ (OpenStreamAsync lp64 pa_ok
        [JsObject {| opt_device := None;
                     opt_channels := Some (JsFunction 3%nat);
                     opt_sampleRate := None; opt_framesPerBuffer := None;
                     opt_suggestedLatency := None |};
         JsFunction 5%nat] loaded).1
     = Throw (TypeError "A number was expected")
  /\ (OpenStreamAsync lp64 pa_ok
        [JsObject {| opt_device := None;
                     opt_channels := Some (JsFunction 3%nat);
                     opt_sampleRate := None; opt_framesPerBuffer := None;
                     opt_suggestedLatency := None |};
         JsFunction 5%nat] loaded).2
     = log EPa_GetDefaultOutputDevice loaded.
Proof.
  assert (Hin : OpenStreamAsync lp64 pa_ok ∈ exports lp64 pa_ok).
  { unfold exports. do 6 apply list_elem_of_further. apply list_elem_of_here. }
  split; [exact Hin|]. split; [reflexivity|].
  destruct (TypeError_no_effect lp64 pa_ok (OpenStreamAsync lp64 pa_ok)
              [JsObject {| opt_device := None;
                           opt_channels := Some (JsFunction 3%nat);
                           opt_sampleRate := None;
                           opt_framesPerBuffer := None;
                           opt_suggestedLatency := None |};
               JsFunction 5%nat] loaded "A number was expected" Hin eq_refl)
    as [Hsame|(_ & _ & Hquery)].
  - vm_compute in Hsame. discriminate.
  - exact Hquery.
Defined.

Lemma WriteStream_rejects_witness :
  (g_streams one_stream !! Uint32Value (F64.of_Z 9) = None
   /\ WriteStream pa_ok [JsUndefined; num 9] one_stream
      = (Throw NotFound, one_stream))
  /\ (g_streams one_stream !! Uint32Value (F64.of_Z 1)
      = Some {| stream := 4096; volume := F32.one |}
      /\ samples_at (JsBuffer 7%nat) 7%nat
      /\ buffers one_stream !! 7%nat = None
      /\ WriteStream pa_ok [JsBuffer 7%nat; num 1] one_stream
         = (Throw (Error "Empty buffer"), one_stream))
  /\ exists msg,
       WriteStream pa_ok [JsFunction 5%nat; num 1] one_stream
       = (Throw (TypeError msg), one_stream).
Proof.
  assert (Hk : g_streams one_stream !! Uint32Value (F64.of_Z 1)
               = Some {| stream := 4096; volume := F32.one |})
    by (vm_compute; reflexivity).
  split; [|split].
  - split; [vm_compute; reflexivity|].
    apply (proj1 (WriteStream_rejects pa_ok one_stream JsUndefined
                    (F64.of_Z 9))).
    vm_compute; reflexivity.
  - split; [exact Hk|]. split; [left; reflexivity|].
    split; [vm_compute; reflexivity|].
    apply (proj1 (proj2 (WriteStream_rejects pa_ok one_stream (JsBuffer 7%nat)
                           (F64.of_Z 1)))
             {| stream := 4096; volume := F32.one |} 7%nat Hk).
    + left; reflexivity.
    + left. vm_compute; reflexivity.
  - eexists.
    apply (proj2 (proj2 (WriteStream_rejects pa_ok one_stream
                           (JsFunction 5%nat) (F64.of_Z 1)))
             {| stream := 4096; volume := F32.one |} Hk).
    intros p [Hp|[Hp|Hp]]; discriminate.
Defined.

(** The same buffer written twice at volume 2.0, the backend failing. *)
Lemma WriteStream_in_place_witness :
  g_streams (with_samples one_stream_loud) !! Uint32Value (F64.of_Z 1)
  = Some {| stream := 4096; volume := F32.two |}
  /\ buffers (WriteStream (example_backend 0 0 0 0 paInternalError)
                [JsBuffer 7%nat; num 1] (with_samples one_stream_loud)).2
       !! 7%nat
     = Some [F32.two; F32.two; F32.two; F32.two]
  /\ trace (WriteStream (example_backend 0 0 0 0 paInternalError)
              [JsBuffer 7%nat; num 1]
              (WriteStream (example_backend 0 0 0 0 paInternalError)
                 [JsBuffer 7%nat; num 1] (with_samples one_stream_loud)).2).2
     = (trace one_stream_loud
        ++ [EPa_WriteStream 4096 [F32.two; F32.two; F32.two; F32.two] 2;
            EPa_WriteStream 4096
              [F32.of_Z 4; F32.of_Z 4; F32.of_Z 4; F32.of_Z 4] 2])%list.
Proof.
  assert (Hk : g_streams (with_samples one_stream_loud)
                 !! Uint32Value (F64.of_Z 1)
               = Some {| stream := 4096; volume := F32.two |})
    by (vm_compute; reflexivity).
  split; [exact Hk|].
  pose proof (WriteStream_in_place (example_backend 0 0 0 0 paInternalError)
                (with_samples one_stream_loud) (JsBuffer 7%nat) (F64.of_Z 1)
                7%nat [F32.one; F32.one; F32.one; F32.one]
                {| stream := 4096; volume := F32.two |} Hk
                ltac:(left; reflexivity) ltac:(vm_compute; reflexivity)
                ltac:(discriminate)) as (Hb & _ & _ & _ & _ & Ht).
  unfold num, Number_New. split.
  - rewrite Hb. rewrite lookup_insert_eq. reflexivity.
  - exact Ht.
Defined.

Lemma SetStreamVolume_then_write_witness :
  g_streams (with_samples one_stream) !! Uint32Value (F64.of_Z 1)
  = Some {| stream := 4096; volume := F32.one |}
  /\ trace (WriteStream pa_ok [JsBuffer 7%nat; num 1]
              (SetStreamVolume [num 1; num 3] (with_samples one_stream)).2).2
     = (trace one_stream
        ++ [EPa_WriteStream 4096 [F32.two; F32.two; F32.two; F32.two] 2])%list.
Proof.
  assert (Hk : g_streams (with_samples one_stream)
                 !! Uint32Value (F64.of_Z 1)
               = Some {| stream := 4096; volume := F32.one |})
    by (vm_compute; reflexivity).
  split; [exact Hk|].
  exact (SetStreamVolume_then_write pa_ok (with_samples one_stream)
           (JsBuffer 7%nat) (F64.of_Z 1) (F64.of_Z 3) 7%nat
           [F32.one; F32.one; F32.one; F32.one]
           {| stream := 4096; volume := F32.one |} Hk
           ltac:(left; reflexivity) ltac:(vm_compute; reflexivity)
           ltac:(discriminate)).
Defined.

Lemma CloseStream_forgets_witness :
  g_streams two_streams !! Uint32Value (F64.of_Z 1)
  = Some {| stream := 4096; volume := F32.one |}
  /\ CloseStream pa_stop_fails [num 1] (CloseStream pa_ok [num 1] two_streams).2
     = (Return JsUndefined, (CloseStream pa_ok [num 1] two_streams).2)
  /\ g_streams (CloseStream pa_ok [num 1] two_streams).2 !! 2
     = Some {| stream := 4100; volume := F32.one |}
  /\ g_nextStreamId (CloseStream pa_ok [num 1] two_streams).2 = 3.
Proof.
  assert (Hk : g_streams two_streams !! Uint32Value (F64.of_Z 1)
               = Some {| stream := 4096; volume := F32.one |})
    by (vm_compute; reflexivity).
  split; [exact Hk|].
  pose proof (CloseStream_forgets pa_ok two_streams (F64.of_Z 1) _ Hk)
    as (Hc & _ & _ & Ho & Hn).
  unfold num, Number_New. split; [apply Hc|]. split.
  - rewrite (Ho 2) by (vm_compute; discriminate). vm_compute; reflexivity.
  - rewrite Hn. vm_compute; reflexivity.
Defined.

(** A close whose stop fails: the backend stream is not closed. *)
Lemma CloseStream_calls_witness :
  g_streams listening !! Uint32Value (F64.of_Z 1)
  = Some {| stream := 4099; volume := F32.one |}
  /\ trace (CloseStream pa_stop_fails [num 1] listening).2
     = (trace listening
        ++ [EPa_StopStream 4099; ETsfn_Release 0%nat; ETsfn_Release 1%nat])
       %list.
Proof.
  assert (Hk : g_streams listening !! Uint32Value (F64.of_Z 1)
               = Some {| stream := 4099; volume := F32.one |})
    by (vm_compute; reflexivity).
  split; [exact Hk|]. unfold num, Number_New.
  rewrite (CloseStream_calls pa_stop_fails listening (F64.of_Z 1) _ Hk).
  reflexivity.
Defined.

Lemma above_free (m : gmap Tsfn JsFun) : m !! above m = None.
Proof.
  assert (H : forall h, is_Some (m !! h) -> (h < above m)%nat).
  { unfold above.
    apply (map_fold_weak_ind
             (fun n (m : gmap Tsfn JsFun) =>
                forall h, is_Some (m !! h) -> (h < n)%nat)).
    - intros h Hh. rewrite lookup_empty in Hh. destruct Hh as [? [=]].
    - intros i x m' n Hi IH h Hh.
      apply lookup_insert_is_Some in Hh as [<-|[_ Hh]]; [lia|].
      specialize (IH h Hh). lia. }
  destruct (m !! above m) eqn:Hm; [|reflexivity].
  specialize (H (above m) (ex_intro _ _ Hm)). lia.
Qed.

Lemma lp64_allocates_free : allocates_free lp64.
Proof. intros t m. apply above_free. Qed.

Lemma AudioCallback_continues_witness :
  g_audioCallbackTsfn (run lp64 pa_ok
                         [call_openStreamAsync
                            [JsObject no_options; JsFunction 5%nat]] loaded)
  = Some 0%nat
  /\ fst <$> AudioCallback lp64 64%nat 256 0 0%nat
               (run lp64 pa_ok
                  [call_openStreamAsync
                     [JsObject no_options; JsFunction 5%nat]] loaded)
     = Some paContinue.
Proof.
  assert (Hh : g_audioCallbackTsfn
                 (run lp64 pa_ok
                    [call_openStreamAsync
                       [JsObject no_options; JsFunction 5%nat]] loaded)
               = Some 0%nat) by (vm_compute; reflexivity).
  split; [exact Hh|].
  destruct (AudioCallback_continues lp64 pa_ok
              [call_openStreamAsync [JsObject no_options; JsFunction 5%nat]]
              0%nat 64%nat 256 0 lp64_allocates_free Hh)
    as (fill & events & st' & _ & Hrun & _).
  rewrite Hrun. reflexivity.
Defined.

Lemma SetStreamEventCallback_replaces_witness :
  (arg [JsFunction 8%nat] 0 = JsFunction 8%nat
   /\ g_eventCallbackTsfn
        (SetStreamEventCallback lp64 [JsFunction 8%nat] listening).2
      = Some 1%nat
   /\ trace (SetStreamEventCallback lp64 [JsFunction 8%nat] listening).2
      = (trace listening
         ++ [ETsfn_Release 1%nat; ETsfn_New 1%nat 8%nat "StreamEventCallback"])
        %list)
  /\ SetStreamEventCallback lp64 [num 3] listening
     = (Throw (TypeError "Expected callback function"), listening).
Proof.
  split.
  - split; [reflexivity|].
    pose proof (proj1 (SetStreamEventCallback_replaces lp64 [JsFunction 8%nat]
                         listening) 8%nat eq_refl)
      as (_ & He & _ & Ht & _).
    split; [exact He | exact Ht].
  - apply (proj2 (SetStreamEventCallback_replaces lp64 [num 3] listening)).
    intros f. discriminate.
Defined.

(** Options with a latency of 1 and everything else absent. *)
Lemma OpenStreamAsync_options_witness :
  g_streams loaded = ∅
  /\ numeric {| opt_device := None; opt_channels := None;
                opt_sampleRate := None; opt_framesPerBuffer := None;
                opt_suggestedLatency := Some (num 1) |}
  /\ trace (OpenStreamAsync lp64 pa_ok
              [JsObject {| opt_device := None; opt_channels := None;
                           opt_sampleRate := None;
                           opt_framesPerBuffer := None;
                           opt_suggestedLatency := Some (num 1) |};
               JsFunction 5%nat] loaded).2
     = [EPa_GetDefaultOutputDevice;
        ETsfn_New 0%nat 5%nat "AudioCallback";
        EPa_OpenStream
          {| device := 0; channelCount := 2; sampleFormat := paFloat32;
             suggestedLatency := F64.of_Z 1 |}
          (F64.of_Z 44100) 256 paNoFlag (Some 0%nat);
        EPa_StartStream 4098].
Proof.
  assert (Hnum : numeric {| opt_device := None; opt_channels := None;
                            opt_sampleRate := None;
                            opt_framesPerBuffer := None;
                            opt_suggestedLatency := Some (num 1) |}).
  { repeat split; intros v; try discriminate. intros [= <-]. reflexivity. }
  split; [reflexivity|]. split; [exact Hnum|].
  pose proof (OpenStreamAsync_options lp64 pa_ok loaded
                {| opt_device := None; opt_channels := None;
                   opt_sampleRate := None; opt_framesPerBuffer := None;
                   opt_suggestedLatency := Some (num 1) |}
                5%nat eq_refl Hnum) as H.
  unfold callback_stream_outcome in H. vm_compute in H.
  destruct H as (_ & _ & Ht & _). exact Ht.
Defined.

Lemma volume_always_in_range_witness :
  g_streams
    (run lp64 pa_ok
       [call_openDefaultStream []; call_setStreamVolume [num 1; num 3]]
       loaded) !! 1
  = Some {| stream := 4096; volume := F32.two |}
  /\ volume_in_range F32.two.
Proof.
  assert (Hk : g_streams
                 (run lp64 pa_ok
                    [call_openDefaultStream [];
                     call_setStreamVolume [num 1; num 3]] loaded) !! 1
               = Some {| stream := 4096; volume := F32.two |})
    by (vm_compute; reflexivity).
  split; [exact Hk|].
  exact (volume_always_in_range lp64 pa_ok _ 1 _ Hk).
Defined.

Lemma single_stream_without_openStream_witness :
  (size (g_streams loaded) <= 1)%nat
  /\ Forall (fun c => is_openStream c = false)
       [call_openDefaultStream [];
        call_openStreamAsync [JsObject no_options; JsFunction 5%nat];
        call_openDefaultStream []]
  /\ (size (g_streams
             (run lp64 pa_ok
                [call_openDefaultStream [];
                 call_openStreamAsync [JsObject no_options; JsFunction 5%nat];
                 call_openDefaultStream []] loaded)) <= 1)%nat.
Proof.
  assert (H0 : (size (g_streams loaded) <= 1)%nat)
    by (vm_compute; repeat constructor).
  assert (Hno : Forall (fun c => is_openStream c = false)
                  [call_openDefaultStream [];
                   call_openStreamAsync
                     [JsObject no_options; JsFunction 5%nat];
                   call_openDefaultStream []])
    by (repeat constructor).
  split; [exact H0|]. split; [exact Hno|].
  exact (single_stream_without_openStream lp64 pa_ok _ loaded H0 Hno).
Defined.

Lemma ids_below_counter_witness :
  Z.of_nat (length [call_openDefaultStream []; call_closeStream [num 1]])
  < 2 ^ 32 - 1
  /\ g_streams
       (run lp64 pa_ok [call_openDefaultStream []; call_closeStream [num 1]] loaded)
       !! g_nextStreamId
            (run lp64 pa_ok [call_openDefaultStream []; call_closeStream [num 1]]
               loaded)
     = None.
Proof.
  assert (Hlen : Z.of_nat
                   (length [call_openDefaultStream []; call_closeStream [num 1]])
                 < 2 ^ 32 - 1) by (vm_compute; reflexivity).
  split; [exact Hlen|].
  exact (proj2 (proj2 (ids_below_counter lp64 pa_ok _ Hlen))).
Defined.

Lemma fill_slot_bound_while_open_witness :
  g_audioCallbackTsfn
    (run lp64 pa_ok [call_openStreamAsync [JsObject no_options; JsFunction 5%nat]]
       loaded) <> None
  /\ g_streams
       (run lp64 pa_ok [call_openStreamAsync [JsObject no_options; JsFunction 5%nat]]
          loaded) <> ∅.
Proof.
  assert (Hb : g_audioCallbackTsfn
                 (run lp64 pa_ok
                    [call_openStreamAsync
                       [JsObject no_options; JsFunction 5%nat]] loaded)
               <> None) by (vm_compute; discriminate).
  split; [exact Hb|].
  exact (proj1 (fill_slot_bound_while_open lp64 pa_ok _) Hb).
Defined.

Lemma WriteStream_volume_zero_witness :
  g_streams (with_samples one_stream_muted) !! Uint32Value (F64.of_Z 1)
  = Some {| stream := 4096; volume := F32.zero |}
  /\ trace (WriteStream pa_ok [JsBuffer 7%nat; num 1]
              (with_samples one_stream_muted)).2
     = (trace one_stream
        ++ [EPa_WriteStream 4096
              [F32.zero; F32.zero; F32.zero; F32.zero] 2])%list.
Proof.
  assert (Hk : g_streams (with_samples one_stream_muted)
                 !! Uint32Value (F64.of_Z 1)
               = Some {| stream := 4096; volume := F32.zero |})
    by (vm_compute; reflexivity).
  split; [exact Hk|].
  exact (WriteStream_volume_zero pa_ok (with_samples one_stream_muted)
           (JsBuffer 7%nat) (F64.of_Z 1) 7%nat
           [F32.one; F32.one; F32.one; F32.one]
           {| stream := 4096; volume := F32.zero |} Hk
           ltac:(left; reflexivity) ltac:(vm_compute; reflexivity)
           ltac:(discriminate) eq_refl).
Defined.

(** *** A shutdown, evaluated *)

Example terminate_two_streams :
  trace (Terminate pa_ok [] two_streams).2
  = (trace two_streams
     ++ [EPa_StopStream 4096; EPa_CloseStream 4096;
         EPa_StopStream 4100; EPa_CloseStream 4100; EPa_Terminate])%list
  /\ (WriteStream pa_ok [JsBuffer 7%nat; num 2]
        (Terminate pa_ok [] two_streams).2).1 = Throw NotFound.
Proof. vm_compute. split; reflexivity. Qed.
